(** * BlogSite backend: cross-entity consistency core

    A shallow embedding of the Express/Mongoose route handlers of the
    blogging backend (routes/auth.js, routes/posts.js,
    routes/notifications.js, the four Mongoose schemas and the auth
    middleware), together with the properties of profile propagation,
    cascade deletion, subscription toggling, fan-out notification and
    content formatting. *)

From Stdlib Require Import List String Ascii NArith Arith Bool Lia.
From Stdlib Require Import Permutation Sorted.
Import ListNotations.

Set Implicit Arguments.

(* ================================================================== *)
(** * JavaScript strings and the content setter of [postSchema]        *)
(* ================================================================== *)

(** The content of a post is the only text whose characters the program
    inspects, so it is modelled as JavaScript has it: a sequence of UTF-16
    code units.  All other texts are opaque and kept as [string]. *)
Module JS.

Definition text := list N.

Fixpoint ofString (s : string) : text :=
match s with
| EmptyString => []
| String c s' => N_of_ascii c :: ofString s'
end.

Fixpoint eqb (a b : text) : bool :=
match a, b with
| [], [] => true
| x :: a', y :: b' => N.eqb x y && eqb a' b'
| _, _ => false
end.

(** ECMAScript LineTerminator: LF, CR, LS (U+2028), PS (U+2029).  The
  regular-expression atom [.] (without the [s] flag) matches every code
  unit except these. *)
Definition isLineTerminator (c : N) : bool :=
N.eqb c 10 || N.eqb c 13 || N.eqb c 8232 || N.eqb c 8233.

(** [stripPrefix d s] is [Some r] when [s = d ++ r]: the literal part of a
  pattern matched at the current position. *)
Fixpoint stripPrefix (d s : text) : option text :=
match d with
| [] => Some s
| x :: d' =>
    match s with
    | [] => None
    | y :: s' => if N.eqb x y then stripPrefix d' s' else None
    end
end.

(** [lazyUntil d s] matches [(.*?)] followed by the literal [d] at the
  start of [s]: the capture group is extended one code unit at a time,
  never over a line terminator, until [d] follows.  It returns the group
  and the text left after the closing [d]. *)
Fixpoint lazyUntil (d s : text) : option (text * text) :=
match stripPrefix d s with
| Some rest => Some ([], rest)
| None =>
    match s with
    | [] => None
    | c :: s' =>
        if isLineTerminator c then None
        else match lazyUntil d s' with
             | Some (g, rest) => Some (c :: g, rest)
             | None => None
             end
    end
end.

(** [s.replace(/d(.*?)d/g, op + '$1' + cl)]: scan left to right; at each
  position try the pattern; on a match emit the replacement and go on
  after the match, otherwise copy one code unit and go on at the next
  position.  Every step consumes at least one code unit, so
  [length s] steps are enough. *)
Fixpoint replaceFrom (fuel : nat) (d op cl s : text) : text :=
match fuel with
| O => s
| S fuel' =>
    match s with
    | [] => []
    | c :: s' =>
        match stripPrefix d s with
        | Some r =>
            match lazyUntil d r with
            | Some (g, rest) => op ++ g ++ cl ++ replaceFrom fuel' d op cl rest
            | None => c :: replaceFrom fuel' d op cl s'
            end
        | None => c :: replaceFrom fuel' d op cl s'
        end
    end
end.

Definition replaceWrapped (d op cl s : text) : text :=
replaceFrom (List.length s) d op cl s.

End JS.

(** The [set] function of the [content] path of [postSchema]. *)
Definition formatContent (content : JS.text) : JS.text :=
  JS.replaceWrapped (JS.ofString "__") (JS.ofString "<u>") (JS.ofString "</u>")
    (JS.replaceWrapped (JS.ofString "*") (JS.ofString "<em>") (JS.ofString "</em>")
       (JS.replaceWrapped (JS.ofString "**") (JS.ofString "<strong>") (JS.ofString "</strong>")
          content)).


(* ================================================================== *)
(** * Documents and query filters of the document store               *)
(* ================================================================== *)

Definition ObjectId := nat.

(** ** The text of an identity

    An identity is twelve bytes.  [ObjectId.prototype.toString()] gives
    their 24 hexadecimal digits in lower case; a string of a request is
    cast to an identity when it is 24 hexadecimal digits, in either case,
    and the cast rejects it otherwise.  So an identity with a letter among
    its digits has several spellings that are cast to it and one that
    [toString] gives. *)
Module Id.

Definition hexDigit (d : N) : ascii :=
  ascii_of_N (if N.ltb d 10 then 48 + d else 87 + d)%N.

Definition hexValue (c : ascii) : option N :=
  let n := N_of_ascii c in
  if N.leb 48 n && N.leb n 57 then Some (n - 48)%N
  else if N.leb 97 n && N.leb n 102 then Some (n - 87)%N
  else if N.leb 65 n && N.leb n 70 then Some (n - 55)%N
  else None.

(** The last [width] digits of [n], written in front of [acc]. *)
Fixpoint toHex (width : nat) (n : N) (acc : string) : string :=
  match width with
  | O => acc
  | S w => toHex w (n / 16)%N (String (hexDigit (n mod 16)%N) acc)
  end.

Fixpoint parseHex (s : string) (acc : N) : option N :=
  match s with
  | EmptyString => Some acc
  | String c s' =>
      match hexValue c with
      | Some d => parseHex s' (16 * acc + d)%N
      | None => None
      end
  end.

Definition toString (i : ObjectId) : string := toHex 24 (N.of_nat i) "".

Definition cast (text : string) : option ObjectId :=
  if Nat.eqb (String.length text) 24
  then option_map N.to_nat (parseHex text 0)
  else None.

End Id.

(** Stored documents are flat: a path holds a scalar or an array of
    scalars.  A populated reference (the result of [populate]) is a
    sub-document one level deep. *)
Inductive Scalar :=
| SId (i : ObjectId)
| SStr (s : string)
| SText (t : JS.text)
| SBool (b : bool)
| SDate (t : nat).

Inductive Field :=
| FScalar (v : Scalar)
| FArray (l : list Scalar)
| FSub (d : list (string * Scalar)).

Definition Doc := list (string * Field).

Definition scalar_eqb (a b : Scalar) : bool :=
  match a, b with
  | SId i, SId j => Nat.eqb i j
  | SStr s, SStr t => String.eqb s t
  | SText s, SText t => JS.eqb s t
  | SBool x, SBool y => Bool.eqb x y
  | SDate s, SDate t => Nat.eqb s t
  | _, _ => false
  end.

Fixpoint lookup {V : Type} (k : string) (d : list (string * V)) : option V :=
  match d with
  | [] => None
  | (k', v) :: d' => if String.eqb k k' then Some v else lookup k d'
  end.

(** The values a dotted path selects in a document.  An array contributes
    each of its elements; a path that descends into a scalar selects
    nothing. *)
Definition resolve (path : list string) (d : Doc) : list Scalar :=
  match path with
  | [k] =>
      match lookup k d with
      | Some (FScalar v) => [v]
      | Some (FArray l) => l
      | _ => []
      end
  | [k; k'] =>
      match lookup k d with
      | Some (FSub sd) =>
          match lookup k' sd with
          | Some v => [v]
          | None => []
          end
      | _ => []
      end
  | _ => []
  end.

(** Query filters: [{}], [{path: v}], several keys in one object, [$or]. *)
Inductive Filter :=
| All
| Eq (path : list string) (v : Scalar)
| And (f g : Filter)
| Or (f g : Filter).

Fixpoint matches (q : Filter) (d : Doc) : bool :=
  match q with
  | All => true
  | Eq path v => existsb (scalar_eqb v) (resolve path d)
  | And f g => matches f d && matches g d
  | Or f g => matches f d || matches g d
  end.

(** What [mongoose.model] gives every schema. *)
Class Schema (T : Type) := {
  toDoc : T -> Doc;
  idOf : T -> ObjectId
}.

Section Collection.
Context {T : Type} `{Schema T}.

Definition selects (q : Filter) (x : T) : bool := matches q (toDoc x).

Definition find (q : Filter) (c : list T) : list T := filter (selects q) c.

Definition countDocuments (q : Filter) (c : list T) : nat :=
  List.length (find q c).

Definition findById (i : ObjectId) (c : list T) : option T :=
  List.find (selects (Eq ["_id"%string] (SId i))) c.

Definition deleteMany (q : Filter) (c : list T) : list T :=
  filter (fun x => negb (selects q x)) c.

Definition updateMany (q : Filter) (upd : T -> T) (c : list T) : list T :=
  map (fun x => if selects q x then upd x else x) c.

(** [doc.save()] of a new document, and [insertMany]. *)
Definition insert (x : T) (c : list T) : list T := c ++ [x].

(** [doc.save()] of a document loaded from the store. *)
Definition overwrite (x : T) (c : list T) : list T :=
  map (fun y => if Nat.eqb (idOf y) (idOf x) then x else y) c.

(** [findByIdAndUpdate]: the first match is updated. *)
Fixpoint updateOne (i : ObjectId) (upd : T -> T) (c : list T) : list T :=
  match c with
  | [] => []
  | x :: c' =>
      if selects (Eq ["_id"%string] (SId i)) x then upd x :: c'
      else x :: updateOne i upd c'
  end.

(** [findByIdAndDelete] and [doc.deleteOne()]: the first match goes. *)
Fixpoint deleteOne (i : ObjectId) (c : list T) : list T :=
  match c with
  | [] => []
  | x :: c' => if selects (Eq ["_id"%string] (SId i)) x then c' else x :: deleteOne i c'
  end.
End Collection.

(* ================================================================== *)
(** * The four schemas                                                 *)
(* ================================================================== *)

(** The [required: true] validator of a String path rejects [undefined]
    and the empty string. *)
Definition nonEmpty (s : string) : bool := negb (String.eqb s "").

Module User.
(** [userSchema].  The [createdAt]/[updatedAt] stamps that
    [timestamps: true] maintains are read by no route and left out. *)
Record t := mk {
  _id : ObjectId;
  email : string;
  password : string;
  firstName : string;
  lastName : string;
  dateOfBirth : nat;
  profilePicture : string;
  about : option string;
  subscribers : list ObjectId
}.

Definition doc (u : t) : Doc :=
  [ ("_id", FScalar (SId (_id u)));
    ("email", FScalar (SStr (email u)));
    ("password", FScalar (SStr (password u)));
    ("firstName", FScalar (SStr (firstName u)));
    ("lastName", FScalar (SStr (lastName u)));
    ("dateOfBirth", FScalar (SDate (dateOfBirth u)));
    ("profilePicture", FScalar (SStr (profilePicture u))) ]%string
  ++ match about u with
     | Some a => [ ("about", FScalar (SStr a)) ]%string
     | None => []
     end
  ++ [ ("subscribers", FArray (map SId (subscribers u))) ]%string.

Definition valid (u : t) : bool :=
  nonEmpty (email u) && nonEmpty (password u)
  && nonEmpty (firstName u) && nonEmpty (lastName u).

Definition set_profile (u : t) (pw fn ln pic : string) (ab : option string) : t :=
  mk (_id u) (email u) pw fn ln (dateOfBirth u) pic ab (subscribers u).

Definition set_profilePicture (pic : string) (u : t) : t :=
  mk (_id u) (email u) (password u) (firstName u) (lastName u)
     (dateOfBirth u) pic (about u) (subscribers u).

Definition set_subscribers (subs : list ObjectId) (u : t) : t :=
  mk (_id u) (email u) (password u) (firstName u) (lastName u)
     (dateOfBirth u) (profilePicture u) (about u) subs.

(** A document read from the store has the schema defaults on the
    paths the stored document lacks ([about: { default: '' }]; the
    picture is always present here), and [save()] writes them. *)
Definition withDefaults (u : t) : t :=
  mk (_id u) (email u) (password u) (firstName u) (lastName u)
     (dateOfBirth u) (profilePicture u)
     (Some (match about u with Some a => a | None => ""%string end))
     (subscribers u).

(** [{ $pull: { subscribers: userId } }] *)
Definition pull_subscribers (userId : ObjectId) (u : t) : t :=
  set_subscribers (filter (fun i => negb (Nat.eqb i userId)) (subscribers u)) u.
End User.

#[export] Instance User_Schema : Schema User.t :=
  {| toDoc := User.doc; idOf := User._id |}.

Module Post.
(** [postSchema], without the [timestamps] stamps. *)
Record t := mk {
  _id : ObjectId;
  title : string;
  content : JS.text;
  author : ObjectId;
  firstName : string;
  lastName : string;
  profilePicture : string;
  likes : list ObjectId;
  image : string
}.

Definition doc (p : t) : Doc :=
  [ ("_id", FScalar (SId (_id p)));
    ("title", FScalar (SStr (title p)));
    ("content", FScalar (SText (content p)));
    ("author", FScalar (SId (author p)));
    ("firstName", FScalar (SStr (firstName p)));
    ("lastName", FScalar (SStr (lastName p)));
    ("profilePicture", FScalar (SStr (profilePicture p)));
    ("likes", FArray (map SId (likes p)));
    ("image", FScalar (SStr (image p))) ]%string.

Definition valid (p : t) : bool :=
  nonEmpty (title p) && negb (JS.eqb (content p) [])
  && nonEmpty (firstName p) && nonEmpty (lastName p).

(** The update document [{ firstName, lastName, profilePicture }]. *)
Definition set_snapshot (fn ln pic : string) (p : t) : t :=
  mk (_id p) (title p) (content p) (author p) fn ln pic (likes p) (image p).

Definition set_profilePicture (pic : string) (p : t) : t :=
  set_snapshot (firstName p) (lastName p) pic p.

Definition set_likes (l : list ObjectId) (p : t) : t :=
  mk (_id p) (title p) (content p) (author p) (firstName p) (lastName p)
     (profilePicture p) l (image p).

(** [post.title = title; post.content = content; post.image = url]: the
    value given for [content] is already the output of the setter. *)
Definition set_text (ti : string) (co : JS.text) (im : string) (p : t) : t :=
  mk (_id p) ti co (author p) (firstName p) (lastName p)
     (profilePicture p) (likes p) im.
End Post.

#[export] Instance Post_Schema : Schema Post.t :=
  {| toDoc := Post.doc; idOf := Post._id |}.

Module Comment.
Record t := mk {
  _id : ObjectId;
  content : string;
  post : ObjectId;
  author : ObjectId;
  firstName : string;
  lastName : string;
  profilePicture : string;
  createdAt : nat
}.

Definition doc (c : t) : Doc :=
  [ ("_id", FScalar (SId (_id c)));
    ("content", FScalar (SStr (content c)));
    ("post", FScalar (SId (post c)));
    ("author", FScalar (SId (author c)));
    ("firstName", FScalar (SStr (firstName c)));
    ("lastName", FScalar (SStr (lastName c)));
    ("profilePicture", FScalar (SStr (profilePicture c)));
    ("createdAt", FScalar (SDate (createdAt c))) ]%string.

Definition set_snapshot (fn ln pic : string) (c : t) : t :=
  mk (_id c) (content c) (post c) (author c) fn ln pic (createdAt c).

Definition set_profilePicture (pic : string) (c : t) : t :=
  set_snapshot (firstName c) (lastName c) pic c.

Definition valid (c : t) : bool :=
  nonEmpty (content c) && nonEmpty (firstName c) && nonEmpty (lastName c).
End Comment.

#[export] Instance Comment_Schema : Schema Comment.t :=
  {| toDoc := Comment.doc; idOf := Comment._id |}.

Module Notification.
Inductive kind := like | comment | subscribe | post_created.

Definition kind_name (k : kind) : string :=
  match k with
  | like => "like"
  | comment => "comment"
  | subscribe => "subscribe"
  | post_created => "post_created"
  end.

(** [notificationSchema]: [sender] is an ObjectId reference, there is no
    name or picture of the sender in a stored notification. *)
Record t := mk {
  _id : ObjectId;
  recipient : ObjectId;
  sender : ObjectId;
  post : option ObjectId;
  type : kind;
  read : bool;
  createdAt : nat
}.

Definition doc (n : t) : Doc :=
  [ ("_id", FScalar (SId (_id n)));
    ("recipient", FScalar (SId (recipient n)));
    ("sender", FScalar (SId (sender n))) ]%string
  ++ match post n with
     | Some p => [ ("post", FScalar (SId p)) ]%string
     | None => []
     end
  ++ [ ("type", FScalar (SStr (kind_name (type n))));
       ("read", FScalar (SBool (read n)));
       ("createdAt", FScalar (SDate (createdAt n))) ]%string.

(** What the routes pass to [new Notification] and [insertMany]; the
    store adds [_id] and the defaults [read: false],
    [createdAt: Date.now]. *)
Record input := mkInput {
  i_recipient : ObjectId;
  i_sender : ObjectId;
  i_post : option ObjectId;
  i_type : kind
}.

Definition create (id : ObjectId) (now : nat) (i : input) : t :=
  mk id (i_recipient i) (i_sender i) (i_post i) (i_type i) false now.

Fixpoint createMany (first : ObjectId) (now : nat) (l : list input) : list t :=
  match l with
  | [] => []
  | i :: l' => create first now i :: createMany (S first) now l'
  end.

(** The update document [{ read: true }]. *)
Definition set_read (b : bool) (n : t) : t :=
  mk (_id n) (recipient n) (sender n) (post n) (type n) b (createdAt n).

(** The update document [{ 'sender.profilePicture': url }] names a path
    that is not in the schema; strict mode drops it, the update is
    empty. *)
Definition set_sender_profilePicture (url : string) (n : t) : t := n.
End Notification.

#[export] Instance Notification_Schema : Schema Notification.t :=
  {| toDoc := Notification.doc; idOf := Notification._id |}.

Record Db := mkDb {
  users : list User.t;
  posts : list Post.t;
  comments : list Comment.t;
  notifications : list Notification.t
}.

Definition withUsers (f : list User.t -> list User.t) (d : Db) : Db :=
  mkDb (f (users d)) (posts d) (comments d) (notifications d).
Definition withPosts (f : list Post.t -> list Post.t) (d : Db) : Db :=
  mkDb (users d) (f (posts d)) (comments d) (notifications d).
Definition withComments (f : list Comment.t -> list Comment.t) (d : Db) : Db :=
  mkDb (users d) (posts d) (f (comments d)) (notifications d).
Definition withNotifications (f : list Notification.t -> list Notification.t) (d : Db) : Db :=
  mkDb (users d) (posts d) (comments d) (f (notifications d)).

(* ================================================================== *)
(** * Asynchronous store calls, exceptions, external services          *)
(* ================================================================== *)

(** Every awaited store call of the modelled routes.  A run of a route is
    given the set of calls that reject. *)
Inductive Site :=
| Auth_User_findById
| Update_User_findById
| Update_User_save
| Update_Post_updateMany
| Update_Comment_updateMany
| Avatar_User_findByIdAndUpdate
| Avatar_Post_updateMany
| Avatar_Comment_updateMany
| Avatar_Notification_updateMany
| Subscribe_User_findById
| Subscribe_Notification_save
| Subscribe_User_save
| Delete_Post_find
| Delete_Comment_deleteMany_post (post : ObjectId)
| Delete_Post_deleteMany
| Delete_Comment_deleteMany_author
| Delete_Notification_deleteMany
| Delete_User_updateMany
| Delete_User_findByIdAndDelete
| Create_Post_save
| Create_User_findById
| Create_Notification_insertMany
| Edit_Post_findById
| Edit_Post_save
| Like_Post_findById
| Like_Notification_save
| Like_Post_save
| List_Notification_find
| List_Notification_countDocuments
| Register_User_findOne
| Register_User_save
| Login_User_findOne
| Profile_User_findById
| Status_User_findById
| Read_Notification_updateMany
| GetPost_Post_findById
| DeletePost_Post_findById
| DeletePost_Comment_deleteMany
| DeletePost_Post_deleteOne
| Likes_Post_findById
| Comments_Comment_find
| AddComment_Post_findById
| AddComment_Comment_save
| AddComment_Notification_save
| DeleteComment_Comment_findById
| DeleteComment_Post_findById
| DeleteComment_Comment_deleteOne
| Hook_Post_find
| Hook_Comment_deleteMany_post (post : ObjectId)
| Hook_Post_deleteMany
| Hook_Comment_deleteMany_author
| Hook_Notification_deleteMany
| Hook_User_updateMany.

Inductive Error :=
| StoreError (at_ : Site)
| ValidationError
| TypeError
| BcryptError
| UploadError
| ServiceError
| CastError.

(** What a request depends on besides the store: which store calls
    reject, the clock, the password hashing library and the image host. *)
Record Env := mkEnv {
  faults : Site -> bool;
  now : nat;
  bcrypt_hash : string -> string;
  bcrypt_compare : string -> string -> bool;
  cloudinary_upload : string -> option string
}.

(** The store and the supply of fresh ObjectIds. *)
Record Store := mkStore {
  db : Db;
  nextId : ObjectId
}.

Inductive Outcome (A : Type) :=
| Resolved (a : A)
| Rejected (e : Error).
Arguments Resolved {A} a.
Arguments Rejected {A} e.

Definition Async (A : Type) := Env -> Store -> Outcome A * Store.

Definition ret {A} (a : A) : Async A := fun _ s => (Resolved a, s).

Definition throw {A} (e : Error) : Async A := fun _ s => (Rejected e, s).

Definition bind {A B} (m : Async A) (k : A -> Async B) : Async B :=
  fun env s =>
    match m env s with
    | (Resolved a, s') => k a env s'
    | (Rejected e, s') => (Rejected e, s')
    end.

Declare Scope async_scope.
Delimit Scope async_scope with async.
Notation "x <- m ;; k" := (bind m (fun x => k))
  (at level 61, m at next level, right associativity) : async_scope.
Notation "m ;; k" := (bind m (fun _ => k))
  (at level 61, right associativity) : async_scope.
Open Scope async_scope.

Definition ask : Async Env := fun env s => (Resolved env, s).

(** [try { m } catch (e) { console.error(e) }] *)
Definition attempt {A} (m : Async A) : Async (Outcome A) :=
  fun env s => let (r, s') := m env s in (Resolved r, s').

(** An awaited store call: it rejects, leaving the store as it was, or
    runs to its end. *)
Definition await {A} (site : Site) (op : Db -> A * Db) : Async A :=
  fun env s =>
    if faults env site then (Rejected (StoreError site), s)
    else let (a, d) := op (db s) in (Resolved a, mkStore d (nextId s)).

Definition query {A} (site : Site) (f : Db -> A) : Async A :=
  await site (fun d => (f d, d)).

Definition exec (site : Site) (f : Db -> Db) : Async unit :=
  await site (fun d => (tt, f d)).

Definition newObjectId : Async ObjectId :=
  fun _ s => (Resolved (nextId s), mkStore (db s) (S (nextId s))).

Fixpoint forEach {A} (l : list A) (body : A -> Async unit) : Async unit :=
  match l with
  | [] => ret tt
  | x :: l' => body x ;; forEach l' body
  end.

(** Reading a property of [null] throws. *)
Definition notNull {A} (o : option A) : Async A :=
  match o with
  | Some a => ret a
  | None => throw TypeError
  end.

(** JavaScript truthiness of a body field that is a string or missing. *)
Definition truthy (o : option string) : option string :=
  match o with
  | Some s => if nonEmpty s then Some s else None
  | None => None
  end.

(** [a || b] *)
Definition orElse (a : option string) (b : string) : string :=
  match truthy a with
  | Some s => s
  | None => b
  end.

(** [a !== b] for a stored string and a body field. *)
Definition differs (a : string) (b : option string) : bool :=
  match b with
  | Some s => negb (String.eqb a s)
  | None => true
  end.

(** A [required] String path given a body field: validation, which
    [save()] runs before it talks to the store, rejects a missing or
    empty value. *)
Definition required (o : option string) : Async string :=
  match truthy o with
  | Some s => ret s
  | None => throw ValidationError
  end.

Definition saveUser (site : Site) (u : User.t) : Async unit :=
  if User.valid u then exec site (withUsers (overwrite u))
  else throw ValidationError.

Definition savePost (site : Site) (p : Post.t) : Async unit :=
  if Post.valid p then exec site (withPosts (overwrite p))
  else throw ValidationError.

Definition saveNewPost (site : Site) (p : Post.t) : Async unit :=
  if Post.valid p then exec site (withPosts (insert p))
  else throw ValidationError.

(** [new Notification(i).save()] *)
Definition saveNewNotification (site : Site) (i : Notification.input) : Async unit :=
  id <- newObjectId ;;
  env <- ask ;;
  exec site (withNotifications (insert (Notification.create id (now env) i))).

(** [Notification.insertMany(l)] *)
Definition insertManyNotifications (site : Site) (l : list Notification.input) : Async unit :=
  fun env s =>
    if faults env site then (Rejected (StoreError site), s)
    else (Resolved tt,
          mkStore (withNotifications
                     (fun c => c ++ Notification.createMany (nextId s) (now env) l)
                     (db s))
                  (nextId s + List.length l)).

(* ================================================================== *)
(** * Requests and responses                                           *)
(* ================================================================== *)

(** The payload of the signed token. *)
Record Token := mkToken {
  t_id : ObjectId;
  t_email : string;
  t_firstName : string;
  t_lastName : string;
  t_profilePicture : string
}.

Definition sign (u : User.t) : Token :=
  mkToken (User._id u) (User.email u) (User.firstName u) (User.lastName u)
          (User.profilePicture u).

(** What the Authorization header amounts to after [jwt.verify]. *)
Inductive Credential :=
| NoToken
| BadToken
| Verified (id : ObjectId).

(** A notification as [GET /api/notifications] returns it: [sender] and
    [post] populated from the users and posts. *)
Record SenderView := mkSenderView {
  sv_id : ObjectId;
  sv_firstName : string;
  sv_lastName : string;
  sv_profilePicture : string
}.

Record PostView := mkPostView {
  pv_id : ObjectId;
  pv_title : string
}.

Record NotificationView := mkNotificationView {
  nv_id : ObjectId;
  nv_recipient : ObjectId;
  nv_sender : option SenderView;
  nv_post : option PostView;
  nv_type : Notification.kind;
  nv_read : bool;
  nv_createdAt : nat
}.

(** A user as GET /profile/:userId sends it: [.select('-password')]. *)
Record ProfileView := mkProfileView {
  pr_id : ObjectId;
  pr_email : string;
  pr_firstName : string;
  pr_lastName : string;
  pr_dateOfBirth : nat;
  pr_profilePicture : string;
  pr_about : option string;
  pr_subscribers : list ObjectId
}.

Inductive Body :=
| Msg (msg : string)
| MsgError (msg : string) (error : Error)
| TokenMsg (token : Token) (msg : string)
| ImageUrl (imageUrl : string)
| Subscription (isSubscribed : bool) (subscriberCount : nat)
| PostJson (post : Post.t)
| MsgPost (msg : string) (post : Post.t)
| Likes (likes : list ObjectId) (isLiked : bool)
| NotificationList (notifications : list NotificationView) (unreadCount : nat)
| TokenOnly (token : Token)
| UserJson (user : ProfileView)
| LikeStatus (likes : nat) (isLiked : bool)
| CommentList (comments : list Comment.t)
| CommentJson (comment : Comment.t)
| PostPopulated (post : Post.t) (author : option SenderView)
| Improved (improvedContent : JS.text) (corrections : nat) (original : JS.text).

Record Response := json {
  status : nat;
  body : Body
}.

Definition Handler := Env -> Store -> Response * Store.

(** [async (req, res) => { try { ... } catch (err) { res.status(..).json(..) } }] *)
Definition tryCatch (m : Async Response) (handler : Error -> Response) : Handler :=
  fun env s =>
    match m env s with
    | (Resolved r, s') => (r, s')
    | (Rejected e, s') => (handler e, s')
    end.

(** middleware/auth.js *)
Definition authMiddleware (c : Credential) (next : User.t -> Handler) : Handler :=
  match c with
  | NoToken => fun _ s => (json 401 (Msg "No token provided"), s)
  | BadToken => fun _ s => (json 401 (Msg "Invalid token"), s)
  | Verified id =>
      fun env s =>
        match query Auth_User_findById (fun d => findById id (users d)) env s with
        | (Resolved (Some user), s') => next user env s'
        | (Resolved None, s') => (json 401 (Msg "User not found"), s')
        | (Rejected _, s') => (json 401 (Msg "Invalid token"), s')
        end
  end.

(* ================================================================== *)
(** * routes/auth.js                                                   *)
(* ================================================================== *)

Record ProfileBody := mkProfileBody {
  b_firstName : option string;
  b_lastName : option string;
  b_currentPassword : option string;
  b_newPassword : option string;
  b_profilePicture : option string;
  b_about : option string
}.

(** [isNameChanged] of PUT /update. *)
Definition isNameChanged (user : User.t) (b : ProfileBody) : bool :=
  differs (User.firstName user) (b_firstName b)
  || differs (User.lastName user) (b_lastName b).

(** The user document of PUT /update after its assignments, as [save()]
    validates and writes it. *)
Definition updatedUser (user : User.t) (password firstName lastName : string)
  (b : ProfileBody) : User.t :=
  User.set_profile user password firstName lastName
    (orElse (b_profilePicture b) (User.profilePicture user)) (b_about b).

(** PUT /update from "Check if name is being updated" on, with the
    password the user document holds after the password block. *)
Definition saveProfile (user : User.t) (b : ProfileBody) (password : string)
  : Async Response :=
  firstName <- required (b_firstName b) ;;
  lastName <- required (b_lastName b) ;;
  let user' := updatedUser user password firstName lastName b in
  saveUser Update_User_save user' ;;
  (if isNameChanged user b then
     let picture := orElse (b_profilePicture b) (User.profilePicture user') in
     exec Update_Post_updateMany
       (withPosts (updateMany (Eq ["author"%string] (SId (User._id user')))
                     (Post.set_snapshot firstName lastName picture))) ;;
     exec Update_Comment_updateMany
       (withComments (updateMany (Eq ["author"%string] (SId (User._id user')))
                        (Comment.set_snapshot firstName lastName picture)))
   else ret tt) ;;
  ret (json 200 (TokenMsg (sign user') "Profile updated successfully")).

(** PUT /update *)
Definition updateProfile (c : Credential) (b : ProfileBody) : Handler :=
  authMiddleware c (fun requser =>
    tryCatch
      (found <- query Update_User_findById
                  (fun d => findById (User._id requser) (users d)) ;;
       user <- notNull found ;;
       env <- ask ;;
       match truthy (b_newPassword b) with
       | Some newPassword =>
           match b_currentPassword b with
           | None => throw BcryptError
           | Some currentPassword =>
               if bcrypt_compare env currentPassword (User.password user)
               then saveProfile user b (bcrypt_hash env newPassword)
               else ret (json 400 (Msg "Current password is incorrect"))
           end
       | None => saveProfile user b (User.password user)
       end)
      (fun _ => json 500 (Msg "Server error"))).

(** POST /upload-avatar; [file] is the uploaded image, if any. *)
Definition uploadAvatar (c : Credential) (file : option string) : Handler :=
  authMiddleware c (fun requser =>
    tryCatch
      (match file with
       | None => ret (json 400 (Msg "No image file provided"))
       | Some dataURI =>
           env <- ask ;;
           match cloudinary_upload env dataURI with
           | None => throw UploadError
           | Some secure_url =>
               attempt
                 (exec Avatar_User_findByIdAndUpdate
                    (withUsers (updateOne (User._id requser)
                                  (User.set_profilePicture secure_url))) ;;
                  exec Avatar_Post_updateMany
                    (withPosts (updateMany (Eq ["author"%string] (SId (User._id requser)))
                                  (Post.set_profilePicture secure_url))) ;;
                  exec Avatar_Comment_updateMany
                    (withComments (updateMany (Eq ["author"%string] (SId (User._id requser)))
                                     (Comment.set_profilePicture secure_url))) ;;
                  exec Avatar_Notification_updateMany
                    (withNotifications
                       (updateMany (Eq ["sender"; "_id"]%string (SId (User._id requser)))
                          (Notification.set_sender_profilePicture secure_url)))) ;;
               ret (json 200 (ImageUrl secure_url))
           end
       end)
      (fun _ => json 500 (Msg "Error uploading avatar"))).

(** [Model.findById(text)]: the text is cast to an identity first, and
    the query rejects when the cast does. *)
Definition castId (text : string) : Async ObjectId :=
  match Id.cast text with
  | Some id => ret id
  | None => throw CastError
  end.

(** PUT /subscribe/:userId; [userId] is [req.params.userId], the text of
    the URL.  The look-up casts it; the self check compares it, as it is,
    with [req.user._id.toString()].  The membership test and the filter
    compare [toString()] of two identities, which are equal exactly when
    the identities are. *)
Definition toggleSubscription (c : Credential) (userId : string) : Handler :=
  authMiddleware c (fun requser =>
    tryCatch
      (id <- castId userId ;;
       found <- query Subscribe_User_findById (fun d => findById id (users d)) ;;
       match found with
       | None => ret (json 404 (Msg "User not found"))
       | Some userToSubscribe =>
           let currentUserId := Id.toString (User._id requser) in
           let targetUserId := userId in
           if String.eqb currentUserId targetUserId
           then ret (json 400 (Msg "Cannot subscribe to yourself"))
           else
             let isSubscribed :=
               existsb (fun id => Nat.eqb id (User._id requser))
                       (User.subscribers userToSubscribe) in
             subscribers <-
               (if isSubscribed
                then ret (filter (fun id => negb (Nat.eqb id (User._id requser)))
                                 (User.subscribers userToSubscribe))
                else
                  attempt
                    (saveNewNotification Subscribe_Notification_save
                       (Notification.mkInput (User._id userToSubscribe)
                          (User._id requser) None Notification.subscribe)) ;;
                  ret (User.subscribers userToSubscribe ++ [User._id requser])) ;;
             saveUser Subscribe_User_save
               (User.set_subscribers subscribers (User.withDefaults userToSubscribe)) ;;
             ret (json 200 (Subscription (negb isSubscribed) (List.length subscribers)))
       end)
      (fun _ => json 500 (Msg "Error updating subscription"))).

(** DELETE /delete-account *)
Definition deleteAccount (c : Credential) : Handler :=
  authMiddleware c (fun requser =>
    tryCatch
      (let userId := User._id requser in
       userPosts <- query Delete_Post_find
                      (fun d => find (Eq ["author"%string] (SId userId)) (posts d)) ;;
       forEach userPosts (fun post =>
         exec (Delete_Comment_deleteMany_post (Post._id post))
           (withComments (deleteMany (Eq ["post"%string] (SId (Post._id post)))))) ;;
       exec Delete_Post_deleteMany
         (withPosts (deleteMany (Eq ["author"%string] (SId userId)))) ;;
       exec Delete_Comment_deleteMany_author
         (withComments (deleteMany (Eq ["author"%string] (SId userId)))) ;;
       exec Delete_Notification_deleteMany
         (withNotifications
            (deleteMany (Or (Eq ["sender"; "_id"]%string (SId userId))
                            (Eq ["recipient"%string] (SId userId))))) ;;
       exec Delete_User_updateMany
         (withUsers (updateMany (Eq ["subscribers"%string] (SId userId))
                       (User.pull_subscribers userId))) ;;
       exec Delete_User_findByIdAndDelete (withUsers (deleteOne userId)) ;;
       ret (json 200 (Msg "Account deleted successfully")))
      (fun _ => json 500 (Msg "Error deleting account"))).

(* ================================================================== *)
(** * routes/posts.js                                                  *)
(* ================================================================== *)

Record PostBody := mkPostBody {
  b_title : option string;
  b_content : option JS.text
}.

(** The image of a request, sent to the image host: the URL to store, or
    the early 500 response of the inner [catch]. *)
Definition uploadImage (env : Env) (file : option string) (otherwise : string)
  : option string :=
  match file with
  | None => Some otherwise
  | Some dataURI => cloudinary_upload env dataURI
  end.

(** POST / (create post) *)
Definition createPost (c : Credential) (b : PostBody) (file : option string) : Handler :=
  authMiddleware c (fun requser =>
    tryCatch
      (env <- ask ;;
       match uploadImage env file "" with
       | None => ret (json 500 (Msg "Error uploading image"))
       | Some imageUrl =>
           id <- newObjectId ;;
           title <- required (b_title b) ;;
           content <- notNull (b_content b) ;;
           let post :=
             Post.mk id title (formatContent content) (User._id requser)
                     (User.firstName requser) (User.lastName requser)
                     (User.profilePicture requser) [] imageUrl in
           saveNewPost Create_Post_save post ;;
           attempt
             (found <- query Create_User_findById
                         (fun d => findById (User._id requser) (users d)) ;;
              currentUser <- notNull found ;;
              let notifications :=
                map (fun subscriberId =>
                       Notification.mkInput subscriberId (User._id requser)
                         (Some (Post._id post)) Notification.post_created)
                    (User.subscribers currentUser) in
              if Nat.ltb 0 (List.length notifications)
              then insertManyNotifications Create_Notification_insertMany notifications
              else ret tt) ;;
           ret (json 201 (PostJson post))
       end)
      (fun e => json 500 (MsgError "Error creating post" e))).

(** PUT /:id (edit post) *)
Definition editPost (c : Credential) (id : ObjectId) (b : PostBody)
  (file : option string) : Handler :=
  authMiddleware c (fun requser =>
    tryCatch
      (found <- query Edit_Post_findById (fun d => findById id (posts d)) ;;
       match found with
       | None => ret (json 404 (Msg "Post not found"))
       | Some post =>
           if negb (Nat.eqb (Post.author post) (User._id requser))
           then ret (json 403 (Msg "Not authorized to edit this post"))
           else
             content <- notNull (b_content b) ;;
             env <- ask ;;
             match uploadImage env file (Post.image post) with
             | None => ret (json 500 (Msg "Error uploading image"))
             | Some image =>
                 title <- required (b_title b) ;;
                 let post' := Post.set_text title (formatContent content) image post in
                 savePost Edit_Post_save post' ;;
                 ret (json 200 (MsgPost "Post updated successfully" post'))
             end
       end)
      (fun _ => json 500 (Msg "Error updating post"))).

(** PUT /:id/like *)
Definition toggleLike (c : Credential) (id : ObjectId) : Handler :=
  authMiddleware c (fun requser =>
    tryCatch
      (found <- query Like_Post_findById (fun d => findById id (posts d)) ;;
       match found with
       | None => ret (json 404 (Msg "Post not found"))
       | Some post =>
           let isOwnPost := Nat.eqb (Post.author post) (User._id requser) in
           let userLiked := existsb (Nat.eqb (User._id requser)) (Post.likes post) in
           likes <-
             (if userLiked
              then ret (filter (fun i => negb (Nat.eqb i (User._id requser)))
                               (Post.likes post))
              else
                (if negb isOwnPost
                 then saveNewNotification Like_Notification_save
                        (Notification.mkInput (Post.author post) (User._id requser)
                           (Some (Post._id post)) Notification.like)
                 else ret tt) ;;
                ret (Post.likes post ++ [User._id requser])) ;;
           savePost Like_Post_save (Post.set_likes likes post) ;;
           ret (json 200 (Likes likes (negb userLiked)))
       end)
      (fun _ => json 500 (Msg "Server error"))).

(* ================================================================== *)
(** * routes/notifications.js                                          *)
(* ================================================================== *)

(** [.sort({ createdAt: -1 })]: newest first; among equal stamps the
    store's order is kept. *)
Fixpoint insertNewest (n : Notification.t) (l : list Notification.t)
  : list Notification.t :=
  match l with
  | [] => [n]
  | m :: l' =>
      if Nat.leb (Notification.createdAt m) (Notification.createdAt n)
      then n :: m :: l'
      else m :: insertNewest n l'
  end.

Definition sortNewestFirst (l : list Notification.t) : list Notification.t :=
  fold_right insertNewest [] l.

(** [.populate('sender', 'firstName lastName profilePicture')
     .populate('post', 'title')] *)
Definition populate (d : Db) (n : Notification.t) : NotificationView :=
  mkNotificationView
    (Notification._id n)
    (Notification.recipient n)
    (match findById (Notification.sender n) (users d) with
     | Some u => Some (mkSenderView (User._id u) (User.firstName u)
                         (User.lastName u) (User.profilePicture u))
     | None => None
     end)
    (match Notification.post n with
     | Some p =>
         match findById p (posts d) with
         | Some x => Some (mkPostView (Post._id x) (Post.title x))
         | None => None
         end
     | None => None
     end)
    (Notification.type n)
    (Notification.read n)
    (Notification.createdAt n).

(** The document a populated notification is sent as. *)
Definition viewDoc (v : NotificationView) : Doc :=
  [ ("_id", FScalar (SId (nv_id v)));
    ("recipient", FScalar (SId (nv_recipient v))) ]%string
  ++ match nv_sender v with
     | Some u =>
         [ ("sender", FSub [ ("_id", SId (sv_id u));
                             ("firstName", SStr (sv_firstName u));
                             ("lastName", SStr (sv_lastName u));
                             ("profilePicture", SStr (sv_profilePicture u)) ]) ]%string
     | None => []
     end
  ++ match nv_post v with
     | Some p => [ ("post", FSub [ ("_id", SId (pv_id p));
                                   ("title", SStr (pv_title p)) ]) ]%string
     | None => []
     end
  ++ [ ("type", FScalar (SStr (Notification.kind_name (nv_type v))));
       ("read", FScalar (SBool (nv_read v)));
       ("createdAt", FScalar (SDate (nv_createdAt v))) ]%string.

(** GET / (notifications) *)
Definition listNotifications (c : Credential) : Handler :=
  authMiddleware c (fun requser =>
    tryCatch
      (page <-
         query List_Notification_find
           (fun d =>
              map (populate d)
                (firstn 10
                   (sortNewestFirst
                      (find (Eq ["recipient"%string] (SId (User._id requser)))
                            (notifications d))))) ;;
       unreadCount <-
         query List_Notification_countDocuments
           (fun d =>
              countDocuments
                (And (Eq ["recipient"%string] (SId (User._id requser)))
                     (Eq ["read"%string] (SBool false)))
                (notifications d)) ;;
       ret (json 200 (NotificationList page unreadCount)))
      (fun _ => json 500 (Msg "Error fetching notifications"))).

(* ================================================================== *)
(** * The other routes of routes/auth.js                               *)
(* ================================================================== *)

(** [User.findOne({ email })].  A missing [email] is sent as [null] and
    matches only a document without an email; [userSchema] requires one,
    so nothing is found. *)
Definition findOneByEmail (email : option string) (c : list User.t) : option User.t :=
  match email with
  | Some e => List.find (selects (Eq ["email"%string] (SStr e))) c
  | None => None
  end.

Definition saveNewUser (site : Site) (u : User.t) : Async unit :=
  if User.valid u then exec site (withUsers (insert u))
  else throw ValidationError.

Record RegisterBody := mkRegisterBody {
  r_email : option string;
  r_password : option string;
  r_firstName : option string;
  r_lastName : option string;
  r_dateOfBirth : option nat
}.

(** POST /register.  The route has no [try]: a rejection is left
    unhandled and no response is sent. *)
Definition register (b : RegisterBody) : Async Response :=
  found <- query Register_User_findOne
              (fun d => findOneByEmail (r_email b) (users d)) ;;
  match found with
  | Some _ => ret (json 400 (Msg "Email exists"))
  | None =>
      env <- ask ;;
      password <- match r_password b with
                  | Some p => ret p
                  | None => throw BcryptError
                  end ;;
      let hashed := bcrypt_hash env password in
      id <- newObjectId ;;
      email <- required (r_email b) ;;
      firstName <- required (r_firstName b) ;;
      lastName <- required (r_lastName b) ;;
      dateOfBirth <- match r_dateOfBirth b with
                     | Some t => ret t
                     | None => throw ValidationError
                     end ;;
      saveNewUser Register_User_save
        (User.mk id email hashed firstName lastName dateOfBirth "" (Some ""%string) []) ;;
      ret (json 201 (Msg "User created"))
  end.

(** [req.body.email] of POST /login, which the route hands to
    [User.findOne({ email })] as the JSON parser made it.  A string (or a
    number or boolean, which the cast turns into its text) selects the
    users with that email.  An object whose keys are query operators
    ([{"$gt": ""}], [{"$ne": null}], [{"$regex": ...}]) is run as such and
    selects by the stored email alone: it is given by the emails it
    selects.  [null] or no email selects a user without an email, and
    there is none; any other value is rejected by the cast. *)
Inductive EmailValue :=
| NoEmail
| EmailString (e : string)
| EmailOperators (selected : string -> bool)
| EmailUncastable.

(** [{"$gt": bound}] on a string path. *)
Definition gt (bound : string) : string -> bool :=
  fun e => String.ltb bound e.

Definition emailValue (o : option string) : EmailValue :=
  match o with
  | Some e => EmailString e
  | None => NoEmail
  end.

(** [User.findOne({ email })]: the first stored user the value selects. *)
Definition findOneWhereEmail (v : EmailValue) (c : list User.t) : option User.t :=
  match v with
  | EmailString e => findOneByEmail (Some e) c
  | EmailOperators selected => List.find (fun u => selected (User.email u)) c
  | NoEmail | EmailUncastable => None
  end.

Record LoginBody := mkLoginBody {
  l_email : EmailValue;
  l_password : option string
}.

(** POST /login, without a [try] as well. *)
Definition login (b : LoginBody) : Async Response :=
  found <- match l_email b with
           | EmailUncastable => throw CastError
           | v => query Login_User_findOne
                    (fun d => findOneWhereEmail v (users d))
           end ;;
  match found with
  | None => ret (json 400 (Msg "Invalid email"))
  | Some user =>
      env <- ask ;;
      password <- match l_password b with
                  | Some p => ret p
                  | None => throw BcryptError
                  end ;;
      if bcrypt_compare env password (User.password user)
      then ret (json 200 (TokenOnly (sign user)))
      else ret (json 400 (Msg "Wrong password"))
  end.

Definition withoutPassword (u : User.t) : ProfileView :=
  mkProfileView (User._id u) (User.email u) (User.firstName u) (User.lastName u)
    (User.dateOfBirth u) (User.profilePicture u) (User.about u) (User.subscribers u).

(** GET /profile/:userId *)
Definition getProfile (c : Credential) (userId : ObjectId) : Handler :=
  authMiddleware c (fun requser =>
    tryCatch
      (found <- query Profile_User_findById (fun d => findById userId (users d)) ;;
       match found with
       | None => ret (json 404 (Msg "User not found"))
       | Some user => ret (json 200 (UserJson (withoutPassword user)))
       end)
      (fun _ => json 500 (Msg "Error fetching user profile"))).

(** POST /refresh-token; [user] is the [user] object of the body. *)
Definition refreshToken (c : Credential) (user : option Token) : Handler :=
  authMiddleware c (fun requser =>
    tryCatch
      (claims <- notNull user ;;
       ret (json 200 (TokenOnly claims)))
      (fun _ => json 500 (Msg "Error refreshing token"))).

(** GET /subscribe/:userId *)
Definition getSubscriptionStatus (c : Credential) (userId : ObjectId) : Handler :=
  authMiddleware c (fun requser =>
    tryCatch
      (found <- query Status_User_findById (fun d => findById userId (users d)) ;;
       match found with
       | None => ret (json 404 (Msg "User not found"))
       | Some user =>
           let isSubscribed :=
             existsb (fun id => Nat.eqb id (User._id requser)) (User.subscribers user) in
           ret (json 200 (Subscription isSubscribed (List.length (User.subscribers user))))
       end)
      (fun _ => json 500 (Msg "Error getting subscription status"))).

(* ================================================================== *)
(** * The other routes of routes/notifications.js and routes/posts.js  *)
(* ================================================================== *)

(** PUT /read *)
Definition markNotificationsRead (c : Credential) : Handler :=
  authMiddleware c (fun requser =>
    tryCatch
      (exec Read_Notification_updateMany
         (withNotifications
            (updateMany (And (Eq ["recipient"%string] (SId (User._id requser)))
                             (Eq ["read"%string] (SBool false)))
               (Notification.set_read true))) ;;
       ret (json 200 (Msg "Notifications marked as read")))
      (fun _ => json 500 (Msg "Error updating notifications"))).

(** [.populate('author', '_id firstName lastName profilePicture')] *)
Definition populateAuthor (d : Db) (p : Post.t) : option SenderView :=
  match findById (Post.author p) (users d) with
  | Some u => Some (mkSenderView (User._id u) (User.firstName u)
                      (User.lastName u) (User.profilePicture u))
  | None => None
  end.

(** GET /:id (single post) *)
Definition getPost (c : Credential) (id : ObjectId) : Handler :=
  authMiddleware c (fun requser =>
    tryCatch
      (found <- query GetPost_Post_findById
                  (fun d => match findById id (posts d) with
                            | Some p => Some (p, populateAuthor d p)
                            | None => None
                            end) ;;
       match found with
       | None => ret (json 404 (Msg "Post not found"))
       | Some (post, author) => ret (json 200 (PostPopulated post author))
       end)
      (fun _ => json 500 (Msg "Error fetching post"))).

(** DELETE /:id (delete post) *)
Definition deletePost (c : Credential) (id : ObjectId) : Handler :=
  authMiddleware c (fun requser =>
    tryCatch
      (found <- query DeletePost_Post_findById (fun d => findById id (posts d)) ;;
       match found with
       | None => ret (json 404 (Msg "Post not found"))
       | Some post =>
           if negb (Nat.eqb (Post.author post) (User._id requser))
           then ret (json 403 (Msg "Not authorized to delete this post"))
           else
             exec DeletePost_Comment_deleteMany
               (withComments (deleteMany (Eq ["post"%string] (SId (Post._id post))))) ;;
             exec DeletePost_Post_deleteOne
               (withPosts (deleteOne (Post._id post))) ;;
             ret (json 200 (Msg "Post and associated comments deleted successfully"))
       end)
      (fun _ => json 500 (Msg "Error deleting post"))).

(** GET /:id/likes *)
Definition getLikes (c : Credential) (id : ObjectId) : Handler :=
  authMiddleware c (fun requser =>
    tryCatch
      (found <- query Likes_Post_findById (fun d => findById id (posts d)) ;;
       match found with
       | None => ret (json 404 (Msg "Post not found"))
       | Some post =>
           let isLiked := existsb (Nat.eqb (User._id requser)) (Post.likes post) in
           ret (json 200 (LikeStatus (List.length (Post.likes post)) isLiked))
       end)
      (fun _ => json 500 (Msg "Error fetching likes"))).

(** [.sort({ createdAt: -1 })] on any collection with a creation stamp:
    newest first, the store's order among equal stamps. *)
Fixpoint insertByStamp {T : Type} (stamp : T -> nat) (x : T) (l : list T) : list T :=
  match l with
  | [] => [x]
  | y :: l' =>
      if Nat.leb (stamp y) (stamp x) then x :: y :: l'
      else y :: insertByStamp stamp x l'
  end.

Definition sortByStamp {T : Type} (stamp : T -> nat) (l : list T) : list T :=
  fold_right (insertByStamp stamp) [] l.

(** GET /:id/comments *)
Definition getComments (c : Credential) (id : ObjectId) : Handler :=
  authMiddleware c (fun requser =>
    tryCatch
      (found <- query Comments_Comment_find
                  (fun d => sortByStamp Comment.createdAt
                              (find (Eq ["post"%string] (SId id)) (comments d))) ;;
       ret (json 200 (CommentList found)))
      (fun _ => json 500 (Msg "Error fetching comments"))).

Definition saveNewComment (site : Site) (x : Comment.t) : Async unit :=
  if Comment.valid x then exec site (withComments (insert x))
  else throw ValidationError.

(** POST /:id/comments (add comment); [content] is [req.body.content]. *)
Definition addComment (c : Credential) (id : ObjectId) (content : option string)
  : Handler :=
  authMiddleware c (fun requser =>
    tryCatch
      (found <- query AddComment_Post_findById (fun d => findById id (posts d)) ;;
       match found with
       | None => ret (json 404 (Msg "Post not found"))
       | Some post =>
           let isOwnPost := Nat.eqb (Post.author post) (User._id requser) in
           cid <- newObjectId ;;
           env <- ask ;;
           text <- required content ;;
           let comment :=
             Comment.mk cid text id (User._id requser) (User.firstName requser)
                        (User.lastName requser) (User.profilePicture requser)
                        (now env) in
           saveNewComment AddComment_Comment_save comment ;;
           (if negb isOwnPost
            then saveNewNotification AddComment_Notification_save
                   (Notification.mkInput (Post.author post) (User._id requser)
                      (Some (Post._id post)) Notification.comment)
            else ret tt) ;;
           ret (json 201 (CommentJson comment))
       end)
      (fun _ => json 500 (Msg "Error creating comment"))).

(** DELETE /:postId/comments/:commentId *)
Definition deleteComment (c : Credential) (postId commentId : ObjectId) : Handler :=
  authMiddleware c (fun requser =>
    tryCatch
      (found <- query DeleteComment_Comment_findById
                  (fun d => findById commentId (comments d)) ;;
       match found with
       | None => ret (json 404 (Msg "Comment not found"))
       | Some comment =>
           foundPost <- query DeleteComment_Post_findById
                          (fun d => findById postId (posts d)) ;;
           let isCommentOwner := Nat.eqb (Comment.author comment) (User._id requser) in
           post <- notNull foundPost ;;
           let isPostOwner := Nat.eqb (Post.author post) (User._id requser) in
           if negb isCommentOwner && negb isPostOwner
           then ret (json 403 (Msg "Not authorized to delete this comment"))
           else
             exec DeleteComment_Comment_deleteOne
               (withComments (deleteOne (Comment._id comment))) ;;
             ret (json 200 (Msg "Comment deleted successfully"))
       end)
      (fun _ => json 500 (Msg "Error deleting comment"))).

(* ================================================================== *)
(** * routes/ai.js                                                     *)
(* ================================================================== *)

(** [findFirst pat s]: the text before and after the first occurrence of
    [pat] in [s]. *)
Fixpoint findFirst (pat s : JS.text) : option (JS.text * JS.text) :=
  match JS.stripPrefix pat s with
  | Some rest => Some ([], rest)
  | None =>
      match s with
      | [] => None
      | c :: s' =>
          match findFirst pat s' with
          | Some (before, after) => Some (c :: before, after)
          | None => None
          end
      end
  end.

(** GetSubstitution for a string pattern (no capture groups): in the
    replacement [$$] stands for a dollar sign, [$&] for the matched text,
    [$`] for the text before the match and [$'] for the text after it;
    every other code unit stands for itself. *)
Fixpoint substitution (matched before after replacement : JS.text) : JS.text :=
  match replacement with
  | [] => []
  | c :: r =>
      if N.eqb c 36 then
        match r with
        | c' :: r' =>
            if N.eqb c' 36 then 36%N :: substitution matched before after r'
            else if N.eqb c' 38 then matched ++ substitution matched before after r'
            else if N.eqb c' 96 then before ++ substitution matched before after r'
            else if N.eqb c' 39 then after ++ substitution matched before after r'
            else c :: substitution matched before after r
        | [] => [c]
        end
      else c :: substitution matched before after r
  end.

(** [s.replace(pat, replacement)] with a string [pat]: the first
    occurrence only. *)
Definition replaceFirst (pat replacement s : JS.text) : JS.text :=
  match findFirst pat s with
  | Some (before, after) =>
      before ++ substitution pat before after replacement ++ after
  | None => s
  end.

(** An element of [response.data.response.errors]. *)
Record Correction := mkCorrection {
  bad : option JS.text;
  better : option (list JS.text)
}.

(** The body of the [forEach] over the corrections. *)
Definition applyCorrection (improvedContent : JS.text) (correction : Correction)
  : JS.text :=
  match bad correction, better correction with
  | Some (b :: bs), Some (first :: _) => replaceFirst (b :: bs) first improvedContent
  | _, _ => improvedContent
  end.

(** What the grammar service answers: the call throws, or the answer
    lacks [response.errors], or it lists corrections. *)
Inductive GrammarAnswer :=
| GrammarThrows
| GrammarMalformed
| GrammarErrors (errors : list Correction).

(** POST /improve-content; [textgears] is the grammar service. *)
Definition improveContent (c : Credential) (textgears : JS.text -> GrammarAnswer)
  (content : option JS.text) : Handler :=
  authMiddleware c (fun requser =>
    tryCatch
      (match content with
       | None | Some [] => ret (json 400 (Msg "Content is required"))
       | Some text =>
           match textgears text with
           | GrammarThrows => throw ServiceError
           | GrammarMalformed => ret (json 500 (Msg "Invalid API response"))
           | GrammarErrors corrections =>
               ret (json 200
                      (Improved (fold_left applyCorrection corrections text)
                                (List.length corrections) text))
           end
       end)
      (fun e => json 500 (MsgError "Error improving content" e))).

(* ================================================================== *)
(** * models/User.js: the pre-remove hook                              *)
(* ================================================================== *)

(** [userSchema.pre('remove', ...)]: the hook resolves ([next()]) or
    passes the error on ([next(err)]). *)
Definition preRemove (this : User.t) : Async unit :=
  let userId := User._id this in
  userPosts <- query Hook_Post_find
                 (fun d => find (Eq ["author"%string] (SId userId)) (posts d)) ;;
  forEach userPosts (fun post =>
    exec (Hook_Comment_deleteMany_post (Post._id post))
      (withComments (deleteMany (Eq ["post"%string] (SId (Post._id post)))))) ;;
  exec Hook_Post_deleteMany
    (withPosts (deleteMany (Eq ["author"%string] (SId userId)))) ;;
  exec Hook_Comment_deleteMany_author
    (withComments (deleteMany (Eq ["author"%string] (SId userId)))) ;;
  exec Hook_Notification_deleteMany
    (withNotifications
       (deleteMany (Or (Eq ["sender"; "_id"]%string (SId userId))
                       (Eq ["recipient"%string] (SId userId))))) ;;
  exec Hook_User_updateMany
    (withUsers (updateMany (Eq ["subscribers"%string] (SId userId))
                  (User.pull_subscribers userId))).

(* ================================================================== *)
(** * A small store used to run the routes                             *)
(* ================================================================== *)

Definition quietEnv : Env :=
  mkEnv (fun _ => false) 1000 (fun s => s) String.eqb (fun d => Some d).

Definition alice : User.t := User.mk 1 "alice@example.org"%string "pw1" "Alice" "Adams" 0 "" None [2; 3].
Definition bob : User.t := User.mk 2 "bob@example.org" "pw2" "Bob" "Brown" 0 "" None [].
Definition carol : User.t := User.mk 3 "carol@example.org" "pw3" "Carol" "Clark" 0 "" None [1].

Definition post10 : Post.t :=
  Post.mk 10 "Hello" (JS.ofString "first post") 1 "Alice" "Adams" "" [] "".
Definition comment20 : Comment.t := Comment.mk 20 "nice" 10 2 "Bob" "Brown" "" 5.
Definition comment21 : Comment.t := Comment.mk 21 "mine" 10 1 "Alice" "Adams" "" 6.
Definition note30 : Notification.t :=
  Notification.mk 30 2 1 (Some 10) Notification.post_created false 7.
Definition note31 : Notification.t :=
  Notification.mk 31 1 2 (Some 10) Notification.comment false 8.

Definition post11 : Post.t :=
  Post.mk 11 "Other" (JS.ofString "second post") 3 "Carol" "Clark" "" [2] "".

(** [store0] with a second post, by another author. *)
Definition store1 : Store :=
  mkStore (mkDb [alice; bob; carol] [post10; post11] [comment20; comment21]
                [note30; note31]) 100.

Definition store0 : Store :=
  mkStore (mkDb [alice; bob; carol] [post10] [comment20; comment21] [note30; note31]) 100.


(* ================================================================== *)
(** * Vocabulary of the statements                                     *)
(* ================================================================== *)

(** The same request environment with another set of rejecting calls. *)
Definition withFaults (f : Site -> bool) (env : Env) : Env :=
  mkEnv f (now env) (bcrypt_hash env) (bcrypt_compare env) (cloudinary_upload env).


(** The notifications the fan-out of a new post writes. *)
Definition fanout (env : Env) (s : Store) (a : User.t) : list Notification.t :=
  Notification.createMany (S (nextId s)) (now env)
    (map (fun subscriberId =>
            Notification.mkInput subscriberId (User._id a) (Some (nextId s))
              Notification.post_created)
         (User.subscribers a)).

(** The post a request creates. *)
Definition newPost (s : Store) (a : User.t) (title : string) (content : JS.text)
  (imageUrl : string) : Post.t :=
  Post.mk (nextId s) title (formatContent content) (User._id a)
          (User.firstName a) (User.lastName a) (User.profilePicture a) [] imageUrl.


Definition newerOrEqual (a b : Notification.t) : Prop :=
  Notification.createdAt b <= Notification.createdAt a.

(** A store with more than ten notifications for one recipient. *)
Definition busyStore : Store :=
  mkStore
    (mkDb [alice; bob; carol] [post10] []
       (map (fun k => Notification.mk (40 + k) 1 2 (Some 10) Notification.like
                        (Nat.eqb k 0) k)
            (seq 0 12)))
    100.

Definition newsBody : PostBody :=
  mkPostBody (Some "News"%string) (Some (JS.ofString "**big** *news* __now__")).

(** The store calls of DELETE /delete-account in the order the route
    awaits them, each with what it does to the store.  The loop over the
    user's posts is laid out from the posts found by the first call. *)
Definition cascade (userId : ObjectId) (d : Db) : list (Site * (Db -> Db)) :=
  [ (Delete_Post_find, fun d' => d') ]
  ++ map (fun post =>
            (Delete_Comment_deleteMany_post (Post._id post),
             withComments (deleteMany (Eq ["post"%string] (SId (Post._id post))))))
         (find (Eq ["author"%string] (SId userId)) (posts d))
  ++ [ (Delete_Post_deleteMany,
        withPosts (deleteMany (Eq ["author"%string] (SId userId))));
       (Delete_Comment_deleteMany_author,
        withComments (deleteMany (Eq ["author"%string] (SId userId))));
       (Delete_Notification_deleteMany,
        withNotifications
          (deleteMany (Or (Eq ["sender"; "_id"]%string (SId userId))
                          (Eq ["recipient"%string] (SId userId)))));
       (Delete_User_updateMany,
        withUsers (updateMany (Eq ["subscribers"%string] (SId userId))
                     (User.pull_subscribers userId)));
       (Delete_User_findByIdAndDelete, withUsers (deleteOne userId)) ].

(** Run the calls in order up to the first one that rejects: the site
    that rejected, if any, and the store reached. *)
Fixpoint runSteps (rejects : Site -> bool) (steps : list (Site * (Db -> Db))) (d : Db)
  : option Site * Db :=
  match steps with
  | [] => (None, d)
  | (site, f) :: rest =>
      if rejects site then (Some site, d) else runSteps rejects rest (f d)
  end.

Definition applyAll (steps : list (Site * (Db -> Db))) (d : Db) : Db :=
  fold_left (fun d' step => snd step d') steps d.

(** The request environment in which one store call rejects. *)
Definition site_eqb (a b : Site) : bool :=
  match a, b with
  | Auth_User_findById, Auth_User_findById
  | Update_User_findById, Update_User_findById
  | Update_User_save, Update_User_save
  | Update_Post_updateMany, Update_Post_updateMany
  | Update_Comment_updateMany, Update_Comment_updateMany
  | Avatar_User_findByIdAndUpdate, Avatar_User_findByIdAndUpdate
  | Avatar_Post_updateMany, Avatar_Post_updateMany
  | Avatar_Comment_updateMany, Avatar_Comment_updateMany
  | Avatar_Notification_updateMany, Avatar_Notification_updateMany
  | Subscribe_User_findById, Subscribe_User_findById
  | Subscribe_Notification_save, Subscribe_Notification_save
  | Subscribe_User_save, Subscribe_User_save
  | Delete_Post_find, Delete_Post_find
  | Delete_Post_deleteMany, Delete_Post_deleteMany
  | Delete_Comment_deleteMany_author, Delete_Comment_deleteMany_author
  | Delete_Notification_deleteMany, Delete_Notification_deleteMany
  | Delete_User_updateMany, Delete_User_updateMany
  | Delete_User_findByIdAndDelete, Delete_User_findByIdAndDelete
  | Create_Post_save, Create_Post_save
  | Create_User_findById, Create_User_findById
  | Create_Notification_insertMany, Create_Notification_insertMany
  | Edit_Post_findById, Edit_Post_findById
  | Edit_Post_save, Edit_Post_save
  | Like_Post_findById, Like_Post_findById
  | Like_Notification_save, Like_Notification_save
  | Like_Post_save, Like_Post_save
  | List_Notification_find, List_Notification_find
  | List_Notification_countDocuments, List_Notification_countDocuments
  | Register_User_findOne, Register_User_findOne
  | Register_User_save, Register_User_save
  | Login_User_findOne, Login_User_findOne
  | Profile_User_findById, Profile_User_findById
  | Status_User_findById, Status_User_findById
  | Read_Notification_updateMany, Read_Notification_updateMany
  | GetPost_Post_findById, GetPost_Post_findById
  | DeletePost_Post_findById, DeletePost_Post_findById
  | DeletePost_Comment_deleteMany, DeletePost_Comment_deleteMany
  | DeletePost_Post_deleteOne, DeletePost_Post_deleteOne
  | Likes_Post_findById, Likes_Post_findById
  | Comments_Comment_find, Comments_Comment_find
  | AddComment_Post_findById, AddComment_Post_findById
  | AddComment_Comment_save, AddComment_Comment_save
  | AddComment_Notification_save, AddComment_Notification_save
  | DeleteComment_Comment_findById, DeleteComment_Comment_findById
  | DeleteComment_Post_findById, DeleteComment_Post_findById
  | DeleteComment_Comment_deleteOne, DeleteComment_Comment_deleteOne
  | Hook_Post_find, Hook_Post_find
  | Hook_Post_deleteMany, Hook_Post_deleteMany
  | Hook_Comment_deleteMany_author, Hook_Comment_deleteMany_author
  | Hook_Notification_deleteMany, Hook_Notification_deleteMany
  | Hook_User_updateMany, Hook_User_updateMany => true
  | Hook_Comment_deleteMany_post p, Hook_Comment_deleteMany_post q => Nat.eqb p q
  | Delete_Comment_deleteMany_post p, Delete_Comment_deleteMany_post q => Nat.eqb p q
  | _, _ => false
  end.

Definition failingAt (site : Site) : Env := withFaults (site_eqb site) quietEnv.

Definition renameBody : ProfileBody :=
  mkProfileBody (Some "Alicia"%string) (Some "Adams"%string) None None None None.

(** A document carries a name and picture snapshot under a path prefix
    ([[]] for a post or comment, [["sender"]] for a notification). *)
Definition carriesSnapshot (prefix : list string) (d : Doc)
  (firstName lastName picture : string) : Prop :=
  resolve (prefix ++ ["firstName"%string]) d = [SStr firstName]
  /\ resolve (prefix ++ ["lastName"%string]) d = [SStr lastName]
  /\ resolve (prefix ++ ["profilePicture"%string]) d = [SStr picture].

(** The subscriber lists as the routes keep them: no user twice. *)
Definition subscribersNoDup (d : Db) : Prop :=
  forall u, In u (users d) -> NoDup (User.subscribers u).

(** The requests of the modelled routes and their dispatch. *)
Inductive Request :=
| PutUpdate (b : ProfileBody)
| PostUploadAvatar (file : option string)
| PutSubscribe (userId : string)
| DeleteAccount
| PostCreate (b : PostBody) (file : option string)
| PutEdit (id : ObjectId) (b : PostBody) (file : option string)
| PutLike (id : ObjectId)
| GetNotifications.

Definition serve (c : Credential) (q : Request) : Handler :=
  match q with
  | PutUpdate b => updateProfile c b
  | PostUploadAvatar file => uploadAvatar c file
  | PutSubscribe userId => toggleSubscription c userId
  | DeleteAccount => deleteAccount c
  | PostCreate b file => createPost c b file
  | PutEdit id b file => editPost c id b file
  | PutLike id => toggleLike c id
  | GetNotifications => listNotifications c
  end.

(** Requests served one after the other, each in its own environment. *)
Fixpoint serveAll (l : list (Env * Credential * Request)) (s : Store) : Store :=
  match l with
  | [] => s
  | (env, c, q) :: l' => serveAll l' (snd (serve c q env s))
  end.

(** ** The replacement pass, stated as a relation

    [Span d s g rest]: the pattern [d(.*?)d] matches at the start of [s];
    the group captures [g], free of line terminators and as short as
    possible (no closing [d] starts inside it), and [rest] is left. *)
Inductive Span (d : JS.text) : JS.text -> JS.text -> JS.text -> Prop :=
| span_intro : forall g rest : JS.text,
    Forall (fun c => JS.isLineTerminator c = false) g ->
    (forall k, k < List.length g ->
               JS.stripPrefix d (skipn k (g ++ d ++ rest)) = None) ->
    Span d (d ++ g ++ d ++ rest) g rest.

(** [Rewrites d op cl s out]: one left-to-right scan of [s] in which every
    span found at the current position is replaced by [op ++ g ++ cl] and
    the scan goes on after it, and a position without a span keeps its
    code unit. *)
Inductive Rewrites (d op cl : JS.text) : JS.text -> JS.text -> Prop :=
| rewrites_nil : Rewrites d op cl [] []
| rewrites_span : forall s g rest out,
    s <> [] ->
    Span d s g rest ->
    Rewrites d op cl rest out ->
    Rewrites d op cl s (op ++ g ++ cl ++ out)
| rewrites_skip : forall c s out,
    (forall g rest, ~ Span d (c :: s) g rest) ->
    Rewrites d op cl s out ->
    Rewrites d op cl (c :: s) (c :: out).

(** The three passes of the setter, in its order. *)
Definition Formats (raw out : JS.text) : Prop :=
  exists bold italic : JS.text,
    Rewrites (JS.ofString "**") (JS.ofString "<strong>") (JS.ofString "</strong>")
             raw bold
    /\ Rewrites (JS.ofString "*") (JS.ofString "<em>") (JS.ofString "</em>")
                bold italic
    /\ Rewrites (JS.ofString "__") (JS.ofString "<u>") (JS.ofString "</u>")
                italic out.

(** The [_id] path of a document holds [idOf]. *)
Class LawfulSchema (T : Type) {S : Schema T} : Prop :=
  selects_id : forall (i : ObjectId) (x : T),
    selects (Eq ["_id"%string] (SId i)) x = Nat.eqb i (idOf x).
Arguments LawfulSchema T {S}.

(** Computations and routes that leave the users as they are. *)
Definition keepsUsers {A : Type} (m : Async A) : Prop :=
  forall env s, users (db (snd (m env s))) = users (db s).

Definition routeKeepsUsers (h : Handler) : Prop :=
  forall env s, users (db (snd (h env s))) = users (db s).

(* ================================================================== *)
(** * Vocabulary for the other routes                                  *)
(* ================================================================== *)

(** The other routes behind [authMiddleware] and their dispatch. *)
Inductive MoreRequest :=
| GetProfile (userId : ObjectId)
| PostRefreshToken (user : option Token)
| GetSubscribe (userId : ObjectId)
| PutRead
| GetPost (id : ObjectId)
| DeletePost (id : ObjectId)
| GetLikes (id : ObjectId)
| GetComments (id : ObjectId)
| PostComment (id : ObjectId) (content : option string)
| DeleteComment (postId commentId : ObjectId)
| PostImprove (textgears : JS.text -> GrammarAnswer) (content : option JS.text).

Definition serveMore (c : Credential) (q : MoreRequest) : Handler :=
  match q with
  | GetProfile userId => getProfile c userId
  | PostRefreshToken user => refreshToken c user
  | GetSubscribe userId => getSubscriptionStatus c userId
  | PutRead => markNotificationsRead c
  | GetPost id => getPost c id
  | DeletePost id => deletePost c id
  | GetLikes id => getLikes c id
  | GetComments id => getComments c id
  | PostComment id content => addComment c id content
  | DeleteComment postId commentId => deleteComment c postId commentId
  | PostImprove textgears content => improveContent c textgears content
  end.

(** The user [authMiddleware] attaches to the request, if it lets the
    request through. *)
Definition authenticates (c : Credential) (env : Env) (s : Store) : option User.t :=
  match c with
  | Verified id =>
      if faults env Auth_User_findById then None
      else findById id (users (db s))
  | _ => None
  end.

(** Computations and routes that leave the whole store as it is. *)
Definition pureAsync {A : Type} (m : Async A) : Prop :=
  forall env s, snd (m env s) = s.

Definition readOnly (h : Handler) : Prop :=
  forall env s, snd (h env s) = s.

(** Every request there is, with what it does to the store. *)
Inductive AnyRequest :=
| Authorized (c : Credential) (q : Request)
| AuthorizedMore (c : Credential) (q : MoreRequest)
| PostRegister (b : RegisterBody)
| PostLogin (b : LoginBody).

Definition effect (q : AnyRequest) (env : Env) (s : Store) : Store :=
  match q with
  | Authorized c q' => snd (serve c q' env s)
  | AuthorizedMore c q' => snd (serveMore c q' env s)
  | PostRegister b => snd (register b env s)
  | PostLogin b => snd (login b env s)
  end.

Fixpoint effects (l : list (Env * AnyRequest)) (s : Store) : Store :=
  match l with
  | [] => s
  | (env, q) :: l' => effects l' (effect q env s)
  end.

(** Newest first by a creation stamp. *)
Definition newestFirst {T : Type} (stamp : T -> nat) (l : list T) : Prop :=
  StronglySorted (fun a b => stamp b <= stamp a) l.

(** The likes of every post are duplicate free. *)
Definition likesOk (d : Db) : Prop :=
  forall p, In p (posts d) -> NoDup (Post.likes p).

(** A password hashing library whose [compare] accepts what [hash] made. *)
Definition bcryptAccepts (env : Env) : Prop :=
  forall p, bcrypt_compare env p (bcrypt_hash env p) = true.

(** [pat] occurs in [s] at offset [k]. *)
Definition occursAt (pat s : JS.text) (k : nat) : Prop :=
  exists rest, JS.stripPrefix pat (skipn k s) = Some rest /\ k <= List.length s.

Definition daveBody : RegisterBody :=
  mkRegisterBody (Some "dave@example.org"%string) (Some "pw4"%string)
    (Some "Dave"%string) (Some "Dunn"%string) (Some 5).

(** A correction the loop of POST /improve-content passes over, or whose
    fragment is not in the text. *)
Definition inapplicable (text : JS.text) (c : Correction) : Prop :=
  match bad c, better c with
  | Some (b :: bs), Some (_ :: _) =>
      forall before after, text <> before ++ (b :: bs) ++ after
  | _, _ => True
  end.

Definition noCorrections (text : JS.text) : GrammarAnswer :=
  GrammarErrors [ mkCorrection (Some (JS.ofString "teh")) (Some [JS.ofString "the"]);
                  mkCorrection None (Some [JS.ofString "x"]);
                  mkCorrection (Some (JS.ofString "news")) (Some []) ].

(** The code units the content setter looks for: [*] and [_]. *)
Definition isMarker (c : N) : bool := N.eqb c 42 || N.eqb c 95.

(** A user whose identity has letters among its digits. *)
Definition dana : User.t :=
  User.mk 171 "dana@example.org" "pw5" "Dana" "Dale" 0 "" (Some ""%string) [].

Definition hexStore : Store :=
  mkStore (mkDb [alice; bob; carol; dana] [post10] [comment20; comment21]
                [note30; note31]) 200.

(* ================================================================== *)
(* ================================================================== *)
(** *                           Theorems                               *)
(* ================================================================== *)
(* ================================================================== *)

Unset Implicit Arguments.

(* ================================================================== *)
(** * The content setter                                               *)
(* ================================================================== *)

Section ReplaceFacts.

Lemma stripPrefix_Some (d s r : JS.text) :
  JS.stripPrefix d s = Some r <-> s = d ++ r.
Proof.
  revert s. induction d as [|x d IH]; intros s; simpl.
  - split; congruence.
  - destruct s as [|y s]; [split; discriminate|].
    destruct (N.eqb x y) eqn:E.
    + apply N.eqb_eq in E. subst y. rewrite IH. split; congruence.
    + apply N.eqb_neq in E. split; [discriminate|congruence].
Qed.

Lemma stripPrefix_app (d r : JS.text) : JS.stripPrefix d (d ++ r) = Some r.
Proof. now apply stripPrefix_Some. Qed.

Lemma lazyUntil_Some (d s g rest : JS.text) :
  JS.lazyUntil d s = Some (g, rest) ->
  s = g ++ d ++ rest
  /\ Forall (fun c => JS.isLineTerminator c = false) g
  /\ (forall k, k < List.length g ->
                JS.stripPrefix d (skipn k (g ++ d ++ rest)) = None).
Proof.
  revert g rest. induction s as [|c s IH]; intros g rest.
  - simpl. destruct (JS.stripPrefix d []) as [r|] eqn:Hp; [|discriminate].
    intros E; inversion E; subst. apply stripPrefix_Some in Hp.
    split; [exact Hp|]. split; [constructor|]. simpl. intros k Hk. lia.
  - simpl. destruct (JS.stripPrefix d (c :: s)) as [r|] eqn:Hp.
    + intros E; inversion E; subst. apply stripPrefix_Some in Hp.
      split; [exact Hp|]. split; [constructor|]. simpl. intros k Hk. lia.
    + destruct (JS.isLineTerminator c) eqn:Hlt; [discriminate|].
      destruct (JS.lazyUntil d s) as [[g' rest']|] eqn:Hl; [|discriminate].
      intros E; inversion E; subst.
      destruct (IH _ _ eq_refl) as (Hs & Hfree & Hearly).
      split; [simpl; now rewrite <- Hs|]. split; [now constructor|].
      intros [|k] Hk; simpl in *.
      * rewrite <- Hs. exact Hp.
      * apply Hearly. lia.
Qed.

Lemma lazyUntil_None (d s : JS.text) :
  JS.lazyUntil d s = None ->
  forall g rest, s = g ++ d ++ rest ->
                 ~ Forall (fun c => JS.isLineTerminator c = false) g.
Proof.
  induction s as [|c s IH]; intros Hnone g rest Hs Hfree.
  - simpl in Hnone. destruct (JS.stripPrefix d []) eqn:Hp; [discriminate|].
    destruct g; [|discriminate]. simpl in Hs.
    rewrite Hs, stripPrefix_app in Hp. discriminate.
  - simpl in Hnone. destruct (JS.stripPrefix d (c :: s)) eqn:Hp; [discriminate|].
    destruct g as [|x g].
    + simpl in Hs. rewrite Hs, stripPrefix_app in Hp. discriminate.
    + simpl in Hs. inversion Hs; subst. inversion Hfree as [|? ? Hx Hg]; subst.
      rewrite Hx in Hnone.
      destruct (JS.lazyUntil d (g ++ d ++ rest)) as [[g' rest']|] eqn:Hl;
        [discriminate|].
      now apply (IH eq_refl g rest).
Qed.

Variables d op cl : JS.text.
Hypothesis d_nonempty : d <> [].

Lemma Span_shorter (s g rest : JS.text) :
  Span d s g rest -> List.length rest < List.length s.
Proof.
  intros Hspan. inversion Hspan; subst. rewrite !length_app.
  destruct d; [contradiction|]. simpl. lia.
Qed.

(** A span at a position is unique. *)
Lemma Span_unique (s g rest g' rest' : JS.text) :
  Span d s g rest -> Span d s g' rest' -> g = g' /\ rest = rest'.
Proof.
  intros H1 H2. inversion H1 as [? ? _ He1 Hs1]; subst.
  inversion H2 as [? ? _ He2 Hs2]; subst.
  apply app_inv_head in Hs2.
  assert (Hlen : List.length g = List.length g').
  { destruct (Nat.lt_trichotomy (List.length g) (List.length g')) as [Hlt|[Heq|Hgt]];
      [|exact Heq|]; exfalso.
    - specialize (He2 _ Hlt). rewrite Hs2 in He2.
      rewrite skipn_app, skipn_all, Nat.sub_diag in He2. simpl in He2.
      rewrite stripPrefix_app in He2. discriminate.
    - specialize (He1 _ Hgt). rewrite <- Hs2 in He1.
      rewrite skipn_app, skipn_all, Nat.sub_diag in He1. simpl in He1.
      rewrite stripPrefix_app in He1. discriminate. }
  apply app_eq_app in Hs2. destruct Hs2 as [l [[Hg Hrest]|[Hg Hrest]]].
  - assert (l = []).
    { destruct l; [reflexivity|]. rewrite Hg, length_app in Hlen. simpl in Hlen. lia. }
    subst l. rewrite app_nil_r in Hg. simpl in Hrest. subst.
    apply app_inv_head in Hrest. auto.
  - assert (l = []).
    { destruct l; [reflexivity|]. rewrite Hg, length_app in Hlen. simpl in Hlen. lia. }
    subst l. rewrite app_nil_r in Hg. simpl in Hrest. subst.
    apply app_inv_head in Hrest. auto.
Qed.

(** The function follows the relation. *)
Lemma replaceFrom_Rewrites (fuel : nat) (s : JS.text) :
  List.length s <= fuel ->
  Rewrites d op cl s (JS.replaceFrom fuel d op cl s).
Proof.
  revert s. induction fuel as [|fuel IH]; intros s Hlen.
  - destruct s; [constructor|simpl in Hlen; lia].
  - destruct s as [|c s]; [constructor|].
    cbn [JS.replaceFrom].
    destruct (JS.stripPrefix d (c :: s)) as [r|] eqn:Hp.
    + apply stripPrefix_Some in Hp.
      destruct (JS.lazyUntil d r) as [[g rest]|] eqn:Hl.
      * destruct (lazyUntil_Some _ _ _ _ Hl) as (Hr & Hfree & Hearly).
        assert (Hspan : Span d (c :: s) g rest).
        { rewrite Hp, Hr. now constructor. }
        apply rewrites_span with (rest := rest); [discriminate|exact Hspan|].
        apply IH. apply Span_shorter in Hspan. simpl in *. lia.
      * apply rewrites_skip.
        -- intros g rest Hspan. inversion Hspan as [? ? Hfree _ Hs]; subst.
           rewrite Hp in Hs. apply app_inv_head in Hs.
           now apply (lazyUntil_None _ _ Hl g rest).
        -- apply IH. simpl in Hlen. lia.
    + apply rewrites_skip.
      * intros g rest Hspan. inversion Hspan as [? ? _ _ Hs]; subst.
        rewrite <- Hs, stripPrefix_app in Hp. discriminate.
      * apply IH. simpl in Hlen. lia.
Qed.

Lemma replaceWrapped_Rewrites (s : JS.text) :
  Rewrites d op cl s (JS.replaceWrapped d op cl s).
Proof. unfold JS.replaceWrapped. now apply replaceFrom_Rewrites. Qed.

(** The scan has one result. *)
Lemma Rewrites_deterministic (s out out' : JS.text) :
  Rewrites d op cl s out -> Rewrites d op cl s out' -> out = out'.
Proof.
  intros H. revert out'.
  induction H as [|s g rest out Hne Hspan Hrest IH|c s out Hno Hrest IH];
    intros out' H'.
  - inversion H'; subst; [reflexivity|contradiction].
  - inversion H' as [|? g' rest' out0 _ Hspan' Hrest'|? ? ? Hno' _]; subst.
    + contradiction.
    + destruct (Span_unique _ _ _ _ _ Hspan Hspan') as [<- <-].
      now rewrite (IH _ Hrest').
    + exfalso. now apply (Hno' g rest).
  - inversion H' as [|? g' rest' out0 _ Hspan' _|? ? ? _ Hrest']; subst.
    + exfalso. now apply (Hno g' rest').
    + now rewrite (IH _ Hrest').
Qed.

Lemma Rewrites_replaceWrapped (s out : JS.text) :
  Rewrites d op cl s out <-> out = JS.replaceWrapped d op cl s.
Proof.
  split.
  - intros H. apply (Rewrites_deterministic _ _ _ H), replaceWrapped_Rewrites.
  - intros ->. apply replaceWrapped_Rewrites.
Qed.

End ReplaceFacts.

(** [formatContent] is the one text the three passes lead to. *)
Lemma Formats_formatContent (raw out : JS.text) :
  Formats raw out <-> out = formatContent raw.
Proof.
  unfold Formats, formatContent. split.
  - intros (bold & italic & H1 & H2 & H3).
    apply Rewrites_replaceWrapped in H1; [|discriminate].
    apply Rewrites_replaceWrapped in H2; [|discriminate].
    apply Rewrites_replaceWrapped in H3; [|discriminate].
    now subst.
  - intros ->. eexists. eexists.
    repeat split; apply replaceWrapped_Rewrites; discriminate.
Qed.

Example formatContent_bold :
  formatContent (JS.ofString "a **b** c") = JS.ofString "a <strong>b</strong> c".
Proof. reflexivity. Qed.

(** Bold is looked for first, so of three asterisks the first two open a
    [strong] span and the tags come out crossed. *)
Example formatContent_bold_before_italic :
  formatContent (JS.ofString "***a*** __u__ *i*")
  = JS.ofString "<strong><em>a</strong></em> <u>u</u> <em>i</em>".
Proof. vm_compute. reflexivity. Qed.

(** [.] stops at a line terminator: a span does not run over a line end. *)
Example formatContent_line_end :
  formatContent (JS.ofString "**a" ++ [10%N] ++ JS.ofString "b**")
  = JS.ofString "<em></em>a" ++ [10%N] ++ JS.ofString "b<em></em>".
Proof. vm_compute. reflexivity. Qed.

(* ================================================================== *)
(** * Facts about filters on the four schemas                          *)
(* ================================================================== *)

Section FilterFacts.

Lemma scalar_eqb_SId (i j : ObjectId) :
  scalar_eqb (SId i) (SId j) = Nat.eqb i j.
Proof. reflexivity. Qed.

Lemma existsb_SId (i : ObjectId) (l : list ObjectId) :
  existsb (scalar_eqb (SId i)) (map SId l) = existsb (Nat.eqb i) l.
Proof.
  induction l as [|x l IH]; simpl; [reflexivity|].
  now rewrite IH.
Qed.

Lemma selects_User_id (i : ObjectId) (u : User.t) :
  selects (Eq ["_id"%string] (SId i)) u = Nat.eqb i (User._id u).
Proof. unfold selects; simpl. now rewrite orb_false_r. Qed.

Lemma selects_Post_id (i : ObjectId) (p : Post.t) :
  selects (Eq ["_id"%string] (SId i)) p = Nat.eqb i (Post._id p).
Proof. unfold selects; simpl. now rewrite orb_false_r. Qed.

Lemma selects_Post_author (i : ObjectId) (p : Post.t) :
  selects (Eq ["author"%string] (SId i)) p = Nat.eqb i (Post.author p).
Proof. unfold selects; simpl. now rewrite orb_false_r. Qed.

Lemma selects_Comment_author (i : ObjectId) (c : Comment.t) :
  selects (Eq ["author"%string] (SId i)) c = Nat.eqb i (Comment.author c).
Proof. unfold selects; simpl. now rewrite orb_false_r. Qed.

Lemma selects_Comment_post (i : ObjectId) (c : Comment.t) :
  selects (Eq ["post"%string] (SId i)) c = Nat.eqb i (Comment.post c).
Proof. unfold selects; simpl. now rewrite orb_false_r. Qed.

Lemma selects_User_subscribers (i : ObjectId) (u : User.t) :
  selects (Eq ["subscribers"%string] (SId i)) u
  = existsb (Nat.eqb i) (User.subscribers u).
Proof.
  unfold selects; simpl. unfold User.doc.
  destruct (User.about u); simpl; apply existsb_SId.
Qed.

Lemma selects_Notification_recipient (i : ObjectId) (n : Notification.t) :
  selects (Eq ["recipient"%string] (SId i)) n = Nat.eqb i (Notification.recipient n).
Proof. unfold selects; simpl. now rewrite orb_false_r. Qed.

Lemma selects_Notification_read (b : bool) (n : Notification.t) :
  selects (Eq ["read"%string] (SBool b)) n = Bool.eqb b (Notification.read n).
Proof.
  unfold selects; simpl. unfold Notification.doc.
  destruct (Notification.post n); simpl; now rewrite orb_false_r.
Qed.

(** [sender] holds an ObjectId, so the path [sender._id] selects nothing
    in a stored notification and no value matches it. *)
Lemma selects_Notification_sender_id (v : Scalar) (n : Notification.t) :
  selects (Eq ["sender"; "_id"]%string v) n = false.
Proof. reflexivity. Qed.

End FilterFacts.

(* ================================================================== *)
(** * Facts about collections                                          *)
(* ================================================================== *)

#[export] Instance User_Lawful : LawfulSchema User.t.
Proof. exact selects_User_id. Qed.

#[export] Instance Post_Lawful : LawfulSchema Post.t.
Proof. exact selects_Post_id. Qed.

#[local] Arguments selects : simpl never.

Section CollectionFacts.
Context {T : Type} `{LawfulSchema T}.

Lemma findById_Some (i : ObjectId) (c : list T) (x : T) :
  findById i c = Some x -> In x c /\ idOf x = i.
Proof.
  unfold findById. intros Hf. apply find_some in Hf.
  destruct Hf as [Hin Hsel]. rewrite selects_id in Hsel.
  apply Nat.eqb_eq in Hsel. auto.
Qed.

Lemma findById_None (i : ObjectId) (c : list T) :
  findById i c = None -> forall x, In x c -> idOf x <> i.
Proof.
  unfold findById. intros Hf x Hin Hid.
  apply (find_none _ _ Hf) in Hin. rewrite selects_id in Hin.
  subst i. now rewrite Nat.eqb_refl in Hin.
Qed.

Lemma findById_overwrite (i : ObjectId) (x y : T) (c : list T) :
  idOf x = i ->
  findById i c = Some y -> findById i (overwrite x c) = Some x.
Proof.
  intros <-. unfold findById, overwrite.
  induction c as [|z c IH]; simpl; [discriminate|].
  rewrite !selects_id.
  destruct (Nat.eqb (idOf x) (idOf z)) eqn:E.
  - intros _. rewrite (Nat.eqb_sym (idOf z)), E. simpl.
    now rewrite ?selects_id, Nat.eqb_refl.
  - intros Hf. rewrite (Nat.eqb_sym (idOf z)), E. simpl.
    rewrite ?selects_id, E. auto.
Qed.

Lemma findById_overwrite_other (i : ObjectId) (x : T) (c : list T) :
  idOf x <> i -> findById i (overwrite x c) = findById i c.
Proof.
  unfold findById, overwrite. intros Hne.
  induction c as [|z c IH]; simpl; [reflexivity|].
  destruct (Nat.eqb (idOf z) (idOf x)) eqn:E; simpl.
  - rewrite !selects_id. apply Nat.eqb_eq in E.
    assert (Hx : Nat.eqb i (idOf x) = false) by (apply Nat.eqb_neq; congruence).
    rewrite Hx, E, Hx. exact IH.
  - destruct (selects (Eq ["_id"%string] (SId i)) z); [reflexivity|exact IH].
Qed.

Lemma in_overwrite (x y : T) (c : list T) :
  In y (overwrite x c) -> y = x \/ In y c.
Proof.
  unfold overwrite. rewrite in_map_iff. intros [z [Hz Hin]].
  destruct (Nat.eqb (idOf z) (idOf x)); subst; auto.
Qed.

Lemma length_overwrite (x : T) (c : list T) :
  List.length (overwrite x c) = List.length c.
Proof. unfold overwrite. apply length_map. Qed.

End CollectionFacts.

(** Unfolding of the control operators of a route. *)
Ltac unfold_async :=
  unfold tryCatch, saveUser, savePost, saveNewPost, saveNewNotification,
    insertManyNotifications, query, exec, await, newObjectId, required,
    notNull, attempt, ask, bind, ret, throw in *.

(* ================================================================== *)
(** * The text of an identity                                          *)
(* ================================================================== *)

Section IdFacts.

Lemma hexValue_hexDigit (d : N) :
  (d < 16)%N -> Id.hexValue (Id.hexDigit d) = Some d.
Proof.
  intros Hd.
  destruct d as [|p]; [reflexivity|].
  do 4 (destruct p as [p|p|]; try reflexivity); exfalso; lia.
Qed.

Lemma length_toHex (w : nat) (n : N) (acc : string) :
  String.length (Id.toHex w n acc) = w + String.length acc.
Proof.
  revert n acc. induction w as [|w IH]; intros n acc; simpl; [reflexivity|].
  rewrite IH. simpl. lia.
Qed.

Lemma parseHex_toHex (w : nat) (n a : N) (acc : string) :
  (n < 16 ^ N.of_nat w)%N ->
  Id.parseHex (Id.toHex w n acc) a = Id.parseHex acc (a * 16 ^ N.of_nat w + n)%N.
Proof.
  revert n a acc. induction w as [|w IH]; intros n a acc Hn.
  - simpl in *. f_equal. lia.
  - rewrite Nat2N.inj_succ, N.pow_succ_r' in *.
    cbn [Id.toHex]. rewrite IH.
    + cbn [Id.parseHex]. rewrite hexValue_hexDigit by (apply N.mod_lt; discriminate).
      f_equal. pose proof (N.div_mod n 16 ltac:(discriminate)). lia.
    + apply N.Div0.div_lt_upper_bound. exact Hn.
Qed.

(** Casting what [toString] gives is the identity itself. *)
Lemma cast_toString (i : ObjectId) :
  (N.of_nat i < 16 ^ 24)%N -> Id.cast (Id.toString i) = Some i.
Proof.
  intros Hi. unfold Id.cast, Id.toString.
  rewrite length_toHex. cbn [String.length Nat.add Nat.eqb].
  rewrite parseHex_toHex by exact Hi.
  cbn [Id.parseHex option_map]. f_equal.
  rewrite N.mul_0_l, N.add_0_l. apply Nat2N.id.
Qed.

End IdFacts.

#[local] Opaque Id.toString Id.cast.

(* ================================================================== *)
(** * PUT /subscribe/:userId                                           *)
(* ================================================================== *)

(** With the spelling [toString] gives, a user who targets their own
    identity is refused: the stores are left as they were whatever
    happens, and when the two look-ups of the route go through the answer
    is 400 "Cannot subscribe to yourself". *)
Lemma toggleSubscription_own_spelling_refused
  (env : Env) (s : Store) (U : ObjectId) (u : User.t) :
  findById U (users (db s)) = Some u ->
  (N.of_nat U < 16 ^ 24)%N ->
  snd (toggleSubscription (Verified U) (Id.toString U) env s) = s
  /\ (faults env Auth_User_findById = false ->
      faults env Subscribe_User_findById = false ->
      fst (toggleSubscription (Verified U) (Id.toString U) env s)
      = json 400 (Msg "Cannot subscribe to yourself")).
Proof.
  intros Hu HU. destruct s as [d nid]. simpl in Hu.
  pose proof (findById_Some _ _ _ Hu) as [_ Hid]. simpl in Hid.
  unfold toggleSubscription, authMiddleware, castId.
  rewrite (cast_toString U HU). clear HU. unfold_async. simpl.
  destruct (faults env Auth_User_findById) eqn:Fa; simpl.
  { split; [reflexivity|discriminate]. }
  rewrite Hu.
  destruct (faults env Subscribe_User_findById) eqn:Fs; simpl.
  { split; [reflexivity|discriminate]. }
  rewrite Hid, String.eqb_refl. simpl. auto.
Qed.

(** C6 fails on the code at every other spelling of the user's own
    identity: the look-up casts the text of the URL and finds the user,
    the self check compares the text as it is with
    [req.user._id.toString()] and lets it pass, and the user is pushed
    into their own subscribers, notified of it, and answered 200. *)
Theorem toggleSubscription_self_subscribes
  (env : Env) (s : Store) (U : ObjectId) (u : User.t) (userId : string) :
  findById U (users (db s)) = Some u ->
  Id.cast userId = Some U ->
  userId <> Id.toString U ->
  User.valid u = true ->
  ~ In U (User.subscribers u) ->
  (forall site, faults env site = false) ->
  fst (toggleSubscription (Verified U) userId env s)
  = json 200 (Subscription true (S (List.length (User.subscribers u))))
  /\ findById U (users (db (snd (toggleSubscription (Verified U) userId env s))))
     = Some (User.set_subscribers (User.subscribers u ++ [U]) (User.withDefaults u))
  /\ In U (User.subscribers u ++ [U])
  /\ notifications (db (snd (toggleSubscription (Verified U) userId env s)))
     = notifications (db s)
       ++ [Notification.mk (nextId s) U U None Notification.subscribe false (now env)].
Proof.
  intros Hu Hcast Hne Hvalid Hnotin Hq. destruct s as [d nid]. simpl in Hu.
  pose proof (findById_Some _ _ _ Hu) as [_ Hid]. simpl in Hid.
  assert (Hself : String.eqb (Id.toString U) userId = false).
  { apply String.eqb_neq. congruence. }
  assert (Hmem : existsb (fun id => Nat.eqb id U) (User.subscribers u) = false).
  { destruct (existsb (fun id => Nat.eqb id U) (User.subscribers u)) eqn:E;
      [|reflexivity].
    apply existsb_exists in E. destruct E as [y [Hy Hyu]].
    apply Nat.eqb_eq in Hyu. subst y. contradiction. }
  assert (Hv : User.valid (User.set_subscribers (User.subscribers u ++ [U])
                             (User.withDefaults u)) = true) by exact Hvalid.
  unfold toggleSubscription, authMiddleware, castId. rewrite Hcast.
  unfold_async. simpl. rewrite !Hq. simpl. rewrite Hu. simpl.
  rewrite Hid, Hself, Hmem. simpl. rewrite !Hq. simpl.
  rewrite Hv. simpl. rewrite !Hq. simpl.
  split; [now rewrite length_app, Nat.add_1_r|]. split; [|split].
  - apply findById_overwrite with (y := u); [exact Hid|exact Hu].
  - apply in_or_app. right. now left.
  - reflexivity.
Qed.

Lemma toggleSubscription_self_subscribes_witness :
  fst (toggleSubscription (Verified 171) "0000000000000000000000AB" quietEnv hexStore)
  = json 200 (Subscription true 1)
  /\ findById 171
       (users (db (snd (toggleSubscription (Verified 171) "0000000000000000000000AB"
                          quietEnv hexStore))))
     = Some (User.set_subscribers [171] (User.withDefaults dana))
  /\ In 171 [171]
  /\ notifications
       (db (snd (toggleSubscription (Verified 171) "0000000000000000000000AB"
                   quietEnv hexStore)))
     = notifications (db hexStore)
       ++ [Notification.mk 200 171 171 None Notification.subscribe false 1000].
Proof.
  apply (toggleSubscription_self_subscribes quietEnv hexStore 171 dana
           "0000000000000000000000AB").
  - reflexivity.
  - reflexivity.
  - discriminate.
  - reflexivity.
  - simpl. tauto.
  - intros site. reflexivity.
Defined.

(** What a successful run of the route did. *)
Lemma toggleSubscription_ok
  (env : Env) (s s' : Store) (A : ObjectId) (userId : string) (r : Response) :
  toggleSubscription (Verified A) userId env s = (r, s') ->
  status r = 200 ->
  exists (T : ObjectId) (t : User.t),
    Id.cast userId = Some T
    /\ findById T (users (db s)) = Some t
    /\ userId <> Id.toString A
    /\ let member := existsb (fun id => Nat.eqb id A) (User.subscribers t) in
       let subs' :=
         if member
         then filter (fun id => negb (Nat.eqb id A)) (User.subscribers t)
         else User.subscribers t ++ [A] in
       r = json 200 (Subscription (negb member) (List.length subs'))
       /\ users (db s')
          = overwrite (User.set_subscribers subs' (User.withDefaults t)) (users (db s))
       /\ posts (db s') = posts (db s)
       /\ comments (db s') = comments (db s).
Proof.
  destruct s as [d nid].
  unfold toggleSubscription, authMiddleware, castId. unfold_async. simpl.
  destruct (faults env Auth_User_findById); simpl;
    [intros E; inversion E; subst; discriminate|].
  destruct (findById A (users d)) as [a|] eqn:Ha;
    [|intros E; inversion E; subst; discriminate].
  apply findById_Some in Ha. destruct Ha as [_ Ha]. simpl in Ha. rewrite Ha.
  destruct (Id.cast userId) as [T|] eqn:Hcast; simpl;
    [|intros E; inversion E; subst; discriminate].
  destruct (faults env Subscribe_User_findById); simpl;
    [intros E; inversion E; subst; discriminate|].
  destruct (findById T (users d)) as [t|] eqn:Ht;
    [|intros E; inversion E; subst; discriminate].
  destruct (String.eqb (Id.toString A) userId) eqn:EAT;
    [intros E; inversion E; subst; discriminate|].
  apply String.eqb_neq in EAT.
  assert (Hne : userId <> Id.toString A) by congruence.
  destruct (existsb (fun id => Nat.eqb id A) (User.subscribers t)) eqn:Em; simpl.
  - destruct (User.valid _); simpl; [|intros E; inversion E; subst; discriminate].
    destruct (faults env Subscribe_User_save); simpl;
      intros E; inversion E; subst; [discriminate|].
    intros _. exists T, t. simpl. rewrite Em. auto 10.
  - destruct (faults env Subscribe_Notification_save); simpl;
      (destruct (User.valid _); simpl; [|intros E; inversion E; subst; discriminate]);
      (destruct (faults env Subscribe_User_save); simpl;
       intros E; inversion E; subst; [discriminate|]);
      intros _; exists T, t; simpl; rewrite Em; auto 10.
Qed.

Section ListFacts.

Lemma filter_neq_notin (a : ObjectId) (l : list ObjectId) :
  existsb (fun id => Nat.eqb id a) l = false ->
  filter (fun id => negb (Nat.eqb id a)) l = l.
Proof.
  induction l as [|x l IH]; simpl; [reflexivity|].
  intros Hx. apply orb_false_iff in Hx. destruct Hx as [Hx Hl].
  rewrite Hx. simpl. now rewrite IH.
Qed.

Lemma existsb_filter_neq (a : ObjectId) (l : list ObjectId) :
  existsb (fun id => Nat.eqb id a) (filter (fun id => negb (Nat.eqb id a)) l) = false.
Proof.
  induction l as [|x l IH]; simpl; [reflexivity|].
  destruct (Nat.eqb x a) eqn:E; simpl; [exact IH|].
  now rewrite E, IH.
Qed.

Lemma existsb_snoc (a : ObjectId) (l : list ObjectId) :
  existsb (fun id => Nat.eqb id a) (l ++ [a]) = true.
Proof.
  rewrite existsb_app. simpl. now rewrite Nat.eqb_refl, orb_true_r.
Qed.

Lemma filter_neq_snoc (a : ObjectId) (l : list ObjectId) :
  filter (fun id => negb (Nat.eqb id a)) (l ++ [a])
  = filter (fun id => negb (Nat.eqb id a)) l.
Proof.
  rewrite filter_app. simpl. rewrite Nat.eqb_refl. simpl. apply app_nil_r.
Qed.

(** Taking a member out of a duplicate-free list and pushing it at the
    end gives the same elements. *)
Lemma filter_neq_snoc_perm (a : ObjectId) (l : list ObjectId) :
  NoDup l -> In a l ->
  Permutation (filter (fun id => negb (Nat.eqb id a)) l ++ [a]) l.
Proof.
  induction l as [|x l IH]; simpl; [tauto|].
  intros Hnd Hin. inversion Hnd as [|? ? Hx Hl]; subst.
  destruct (Nat.eqb x a) eqn:E; simpl.
  - apply Nat.eqb_eq in E. subst x.
    rewrite filter_neq_notin.
    + rewrite Permutation_app_comm. simpl. reflexivity.
    + destruct (existsb (fun id => Nat.eqb id a) l) eqn:Ex; [|reflexivity].
      apply existsb_exists in Ex. destruct Ex as [y [Hy Hya]].
      apply Nat.eqb_eq in Hya. subst y. contradiction.
  - apply Nat.eqb_neq in E. destruct Hin as [Hin|Hin]; [congruence|].
    constructor. now apply IH.
Qed.

End ListFacts.

(** C5.  Two successful toggles in a row by the same user on the same
    target, named by any spelling of its identity, bring the target's
    subscribers back to the same members and the same count, and the
    second answer reports the original membership and count.  The
    subscriber list is duplicate free, as the route keeps it. *)
Theorem toggleSubscription_twice
  (env1 env2 : Env) (s s1 s2 : Store) (A T : ObjectId) (userId : string)
  (r1 r2 : Response) (t : User.t) :
  Id.cast userId = Some T ->
  findById T (users (db s)) = Some t ->
  NoDup (User.subscribers t) ->
  toggleSubscription (Verified A) userId env1 s = (r1, s1) ->
  toggleSubscription (Verified A) userId env2 s1 = (r2, s2) ->
  status r1 = 200 ->
  status r2 = 200 ->
  exists t2 : User.t,
    findById T (users (db s2)) = Some t2
    /\ Permutation (User.subscribers t2) (User.subscribers t)
    /\ (forall x, In x (User.subscribers t2) <-> In x (User.subscribers t))
    /\ List.length (User.subscribers t2) = List.length (User.subscribers t)
    /\ r2 = json 200 (Subscription
                        (existsb (fun id => Nat.eqb id A) (User.subscribers t))
                        (List.length (User.subscribers t))).
Proof.
  intros Hcast Ht Hnd H1 H2 Hr1 Hr2.
  destruct (toggleSubscription_ok _ _ _ _ _ _ H1 Hr1)
    as (T' & t' & Hcast' & Ht' & _ & _ & Hu1 & _ & _).
  rewrite Hcast in Hcast'. inversion Hcast'; subst T'. clear Hcast'.
  rewrite Ht in Ht'. inversion Ht'; subst t'. clear Ht'.
  pose proof (findById_Some _ _ _ Ht) as [_ HidT]. simpl in HidT.
  set (subs1 := if existsb (fun id => Nat.eqb id A) (User.subscribers t)
                then filter (fun id => negb (Nat.eqb id A)) (User.subscribers t)
                else User.subscribers t ++ [A]) in *.
  assert (Ht1 : findById T (users (db s1))
                = Some (User.set_subscribers subs1 (User.withDefaults t))).
  { rewrite Hu1. now apply findById_overwrite with (y := t). }
  destruct (toggleSubscription_ok _ _ _ _ _ _ H2 Hr2)
    as (T' & t1 & Hcast' & Ht1' & _ & Hr2' & Hu2 & _ & _).
  rewrite Hcast in Hcast'. inversion Hcast'; subst T'. clear Hcast'.
  rewrite Ht1 in Ht1'. inversion Ht1'; subst t1. clear Ht1'.
  simpl in Hr2', Hu2.
  set (subs2 := if existsb (fun id => Nat.eqb id A) subs1
                then filter (fun id => negb (Nat.eqb id A)) subs1
                else subs1 ++ [A]) in *.
  assert (Hperm : Permutation subs2 (User.subscribers t)
                  /\ existsb (fun id => Nat.eqb id A) subs1
                     = negb (existsb (fun id => Nat.eqb id A) (User.subscribers t))).
  { unfold subs2, subs1.
    destruct (existsb (fun id => Nat.eqb id A) (User.subscribers t)) eqn:Em.
    - rewrite existsb_filter_neq. split; [|reflexivity].
      apply filter_neq_snoc_perm; [exact Hnd|].
      apply existsb_exists in Em. destruct Em as [y [Hy Hya]].
      apply Nat.eqb_eq in Hya. now subst y.
    - rewrite existsb_snoc, filter_neq_snoc, filter_neq_notin by exact Em.
      split; reflexivity. }
  destruct Hperm as [Hperm Hmem].
  eexists.
  split; [|split; [|split; [|split]]].
  - rewrite Hu2.
    apply findById_overwrite
      with (y := User.set_subscribers subs1 (User.withDefaults t));
      [exact HidT|exact Ht1].
  - exact Hperm.
  - intros x. split; apply Permutation_in; [exact Hperm|now symmetry].
  - simpl. now apply Permutation_length.
  - rewrite Hr2'. f_equal. f_equal.
    + rewrite Hmem. apply negb_involutive.
    + exact (Permutation_length Hperm).
Qed.

Lemma toggleSubscription_twice_witness :
  exists t2 : User.t,
    findById 1
      (users (db (snd (toggleSubscription (Verified 2) "000000000000000000000001"
                         quietEnv
                         (snd (toggleSubscription (Verified 2)
                                 "000000000000000000000001" quietEnv store0))))))
    = Some t2
    /\ Permutation (User.subscribers t2) (User.subscribers alice)
    /\ (forall x, In x (User.subscribers t2) <-> In x (User.subscribers alice))
    /\ List.length (User.subscribers t2) = List.length (User.subscribers alice)
    /\ fst (toggleSubscription (Verified 2) "000000000000000000000001" quietEnv
              (snd (toggleSubscription (Verified 2) "000000000000000000000001"
                      quietEnv store0)))
       = json 200 (Subscription
                     (existsb (fun id => Nat.eqb id 2) (User.subscribers alice))
                     (List.length (User.subscribers alice))).
Proof.
  apply (@toggleSubscription_twice quietEnv quietEnv store0
           (snd (toggleSubscription (Verified 2) "000000000000000000000001"
                   quietEnv store0))
           (snd (toggleSubscription (Verified 2) "000000000000000000000001" quietEnv
                   (snd (toggleSubscription (Verified 2) "000000000000000000000001"
                           quietEnv store0))))
           2 1 "000000000000000000000001"
           (fst (toggleSubscription (Verified 2) "000000000000000000000001"
                   quietEnv store0))
           (fst (toggleSubscription (Verified 2) "000000000000000000000001" quietEnv
                   (snd (toggleSubscription (Verified 2) "000000000000000000000001"
                           quietEnv store0))))
           alice).
  - reflexivity.
  - reflexivity.
  - simpl. repeat constructor; simpl; intuition discriminate.
  - apply surjective_pairing.
  - apply surjective_pairing.
  - reflexivity.
  - reflexivity.
Defined.

(* ================================================================== *)
(** * PUT /:id/like                                                    *)
(* ================================================================== *)

Lemma existsb_eqb_sym (a : ObjectId) (l : list ObjectId) :
  existsb (Nat.eqb a) l = existsb (fun id => Nat.eqb id a) l.
Proof.
  induction l as [|x l IH]; simpl; [reflexivity|].
  now rewrite IH, (Nat.eqb_sym a x).
Qed.

Lemma existsb_eqb_false (a : ObjectId) (l : list ObjectId) :
  existsb (Nat.eqb a) l = false <-> ~ In a l.
Proof.
  split.
  - intros Hf Hin.
    assert (Ht : existsb (Nat.eqb a) l = true).
    { apply existsb_exists. exists a. split; [exact Hin|apply Nat.eqb_refl]. }
    congruence.
  - intros Hn. destruct (existsb (Nat.eqb a) l) eqn:E; [|reflexivity].
    apply existsb_exists in E. destruct E as [x [Hx Hax]].
    apply Nat.eqb_eq in Hax. subst x. contradiction.
Qed.

(** A like by the author of the post writes no notification, whatever
    else happens in the run. *)
Lemma toggleLike_own_post
  (env : Env) (s : Store) (U P : ObjectId) (p : Post.t) :
  findById P (posts (db s)) = Some p ->
  Post.author p = U ->
  notifications (db (snd (toggleLike (Verified U) P env s))) = notifications (db s).
Proof.
  destruct s as [d nid]. simpl. intros Hp Hown.
  unfold toggleLike, authMiddleware. unfold_async. simpl.
  destruct (faults env Auth_User_findById); simpl; [reflexivity|].
  destruct (findById U (users d)) as [a|] eqn:Ha; [|reflexivity].
  apply findById_Some in Ha. destruct Ha as [_ Ha]. simpl in Ha. rewrite Ha.
  destruct (faults env Like_Post_findById); simpl; [reflexivity|].
  rewrite Hp, Hown, Nat.eqb_refl. simpl.
  destruct (existsb (Nat.eqb U) (Post.likes p)); simpl;
    (destruct (Post.valid _); simpl; [|reflexivity]);
    destruct (faults env Like_Post_save); reflexivity.
Qed.

(** What a successful run of the route did. *)
Lemma toggleLike_ok
  (env : Env) (s s' : Store) (U P : ObjectId) (r : Response) :
  toggleLike (Verified U) P env s = (r, s') ->
  status r = 200 ->
  exists p : Post.t,
    findById P (posts (db s)) = Some p
    /\ let liked := existsb (Nat.eqb U) (Post.likes p) in
       let likes' :=
         if liked
         then filter (fun i => negb (Nat.eqb i U)) (Post.likes p)
         else Post.likes p ++ [U] in
       r = json 200 (Likes likes' (negb liked))
       /\ posts (db s') = overwrite (Post.set_likes likes' p) (posts (db s))
       /\ notifications (db s')
          = notifications (db s)
            ++ (if liked || Nat.eqb (Post.author p) U then []
                else [Notification.create (nextId s) (now env)
                        (Notification.mkInput (Post.author p) U (Some (Post._id p))
                           Notification.like)]).
Proof.
  destruct s as [d nid].
  unfold toggleLike, authMiddleware. unfold_async. simpl.
  destruct (faults env Auth_User_findById); simpl;
    [intros E; inversion E; subst; discriminate|].
  destruct (findById U (users d)) as [a|] eqn:Ha;
    [|intros E; inversion E; subst; discriminate].
  apply findById_Some in Ha. destruct Ha as [_ Ha]. simpl in Ha. rewrite Ha.
  destruct (faults env Like_Post_findById); simpl;
    [intros E; inversion E; subst; discriminate|].
  destruct (findById P (posts d)) as [p|] eqn:Hp;
    [|intros E; inversion E; subst; discriminate].
  destruct (existsb (Nat.eqb U) (Post.likes p)) eqn:El; simpl.
  - destruct (Post.valid _); simpl; [|intros E; inversion E; subst; discriminate].
    destruct (faults env Like_Post_save); simpl;
      intros E; inversion E; subst; [discriminate|].
    intros _. exists p. simpl. rewrite El. simpl. rewrite app_nil_r. auto.
  - destruct (Nat.eqb (Post.author p) U) eqn:Eo; simpl.
    + destruct (Post.valid _); simpl; [|intros E; inversion E; subst; discriminate].
      destruct (faults env Like_Post_save); simpl;
        intros E; inversion E; subst; [discriminate|].
      intros _. exists p. simpl. rewrite El, Eo. simpl. rewrite app_nil_r. auto.
    + destruct (faults env Like_Notification_save); simpl;
        [intros E; inversion E; subst; discriminate|].
      destruct (Post.valid _); simpl; [|intros E; inversion E; subst; discriminate].
      destruct (faults env Like_Post_save); simpl;
        intros E; inversion E; subst; [discriminate|].
      intros _. exists p. simpl. rewrite El, Eo. simpl. auto.
Qed.

(** C8.  A like by the post's own author never writes a notification.  A
    user who is not the author and has not liked the post yet: the first
    successful toggle puts the user in the likes and appends exactly one
    notification of kind [like], from the user to the author, about the
    post; the second successful toggle takes the user out of the likes and
    leaves the notifications, the earlier one included, as they were. *)
Theorem toggleLike_notifications
  (s : Store) (U P : ObjectId) (p : Post.t) :
  findById P (posts (db s)) = Some p ->
  (Post.author p = U ->
   forall env : Env,
     notifications (db (snd (toggleLike (Verified U) P env s)))
     = notifications (db s))
  /\ (Post.author p <> U ->
      ~ In U (Post.likes p) ->
      forall (env1 env2 : Env) (r1 r2 : Response) (s1 s2 : Store),
        toggleLike (Verified U) P env1 s = (r1, s1) ->
        status r1 = 200 ->
        toggleLike (Verified U) P env2 s1 = (r2, s2) ->
        status r2 = 200 ->
        exists (p1 p2 : Post.t) (n : Notification.t),
          findById P (posts (db s1)) = Some p1
          /\ In U (Post.likes p1)
          /\ notifications (db s1) = notifications (db s) ++ [n]
          /\ Notification.type n = Notification.like
          /\ Notification.recipient n = Post.author p
          /\ Notification.sender n = U
          /\ Notification.post n = Some P
          /\ findById P (posts (db s2)) = Some p2
          /\ ~ In U (Post.likes p2)
          /\ notifications (db s2) = notifications (db s1)).
Proof.
  intros Hp. split.
  - intros Hown env. now apply toggleLike_own_post with (p := p).
  - intros Hother Hfresh env1 env2 r1 r2 s1 s2 H1 Hr1 H2 Hr2.
    pose proof (findById_Some _ _ _ Hp) as [_ HidP]. simpl in HidP.
    destruct (toggleLike_ok _ _ _ _ _ _ H1 Hr1) as (p' & Hp' & _ & Hposts1 & Hn1).
    rewrite Hp in Hp'. inversion Hp'; subst p'. clear Hp'.
    apply existsb_eqb_false in Hfresh.
    apply Nat.eqb_neq in Hother.
    rewrite Hfresh in Hposts1, Hn1. rewrite Hother in Hn1. simpl in Hn1.
    set (p1 := Post.set_likes (Post.likes p ++ [U]) p) in *.
    assert (Hp1 : findById P (posts (db s1)) = Some p1).
    { rewrite Hposts1. now apply findById_overwrite with (y := p). }
    destruct (toggleLike_ok _ _ _ _ _ _ H2 Hr2) as (p1' & Hp1' & _ & Hposts2 & Hn2).
    rewrite Hp1 in Hp1'. inversion Hp1'; subst p1'. clear Hp1'.
    assert (Hliked : existsb (Nat.eqb U) (Post.likes p1) = true).
    { unfold p1. simpl. rewrite existsb_eqb_sym. apply existsb_snoc. }
    rewrite Hliked in Hposts2, Hn2. simpl in Hn2. rewrite app_nil_r in Hn2.
    set (p2 := Post.set_likes
                 (filter (fun i => negb (Nat.eqb i U)) (Post.likes p1)) p1) in *.
    exists p1, p2,
      (Notification.create (nextId s) (now env1)
         (Notification.mkInput (Post.author p) U (Some (Post._id p))
            Notification.like)).
    repeat split.
    + exact Hp1.
    + unfold p1. simpl. apply in_or_app. right. now left.
    + exact Hn1.
    + simpl. now rewrite HidP.
    + rewrite Hposts2. now apply findById_overwrite with (y := p1).
    + unfold p2, p1. simpl. rewrite filter_neq_snoc.
      rewrite existsb_eqb_sym in Hfresh.
      rewrite (filter_neq_notin _ _ Hfresh).
      rewrite <- existsb_eqb_sym in Hfresh.
      now apply existsb_eqb_false.
    + exact Hn2.
Qed.

Lemma toggleLike_notifications_witness :
  exists (p1 p2 : Post.t) (n : Notification.t),
    findById 10 (posts (db (snd (toggleLike (Verified 2) 10 quietEnv store0)))) = Some p1
    /\ In 2 (Post.likes p1)
    /\ notifications (db (snd (toggleLike (Verified 2) 10 quietEnv store0)))
       = notifications (db store0) ++ [n]
    /\ Notification.type n = Notification.like
    /\ Notification.recipient n = Post.author post10
    /\ Notification.sender n = 2
    /\ Notification.post n = Some 10
    /\ findById 10
         (posts (db (snd (toggleLike (Verified 2) 10 quietEnv
                            (snd (toggleLike (Verified 2) 10 quietEnv store0))))))
       = Some p2
    /\ ~ In 2 (Post.likes p2)
    /\ notifications
         (db (snd (toggleLike (Verified 2) 10 quietEnv
                     (snd (toggleLike (Verified 2) 10 quietEnv store0)))))
       = notifications (db (snd (toggleLike (Verified 2) 10 quietEnv store0))).
Proof.
  refine (proj2 (toggleLike_notifications store0 2 10 post10 eq_refl) _ _
            quietEnv quietEnv
            (fst (toggleLike (Verified 2) 10 quietEnv store0))
            (fst (toggleLike (Verified 2) 10 quietEnv
                    (snd (toggleLike (Verified 2) 10 quietEnv store0))))
            (snd (toggleLike (Verified 2) 10 quietEnv store0))
            (snd (toggleLike (Verified 2) 10 quietEnv
                    (snd (toggleLike (Verified 2) 10 quietEnv store0))))
            (surjective_pairing _) eq_refl (surjective_pairing _) eq_refl).
  - simpl. discriminate.
  - simpl. tauto.
Defined.

(* ================================================================== *)
(** * GET / (notifications)                                            *)
(* ================================================================== *)

Lemma selects_And {T : Type} `{Schema T} (f g : Filter) (x : T) :
  selects (And f g) x = selects f x && selects g x.
Proof. reflexivity. Qed.

Lemma selects_Or {T : Type} `{Schema T} (f g : Filter) (x : T) :
  selects (Or f g) x = selects f x || selects g x.
Proof. reflexivity. Qed.

Section SortFacts.

Lemma insertNewest_perm (n : Notification.t) (l : list Notification.t) :
  Permutation (insertNewest n l) (n :: l).
Proof.
  induction l as [|m l IH]; simpl; [reflexivity|].
  destruct (Nat.leb (Notification.createdAt m) (Notification.createdAt n)).
  - reflexivity.
  - rewrite IH. apply perm_swap.
Qed.

Lemma sortNewestFirst_perm (l : list Notification.t) :
  Permutation (sortNewestFirst l) l.
Proof.
  induction l as [|n l IH]; simpl; [reflexivity|].
  rewrite insertNewest_perm. now constructor.
Qed.

Lemma insertNewest_sorted (n : Notification.t) (l : list Notification.t) :
  StronglySorted newerOrEqual l -> StronglySorted newerOrEqual (insertNewest n l).
Proof.
  induction l as [|m l IH]; simpl; intros Hs.
  - constructor; [constructor|constructor].
  - inversion Hs as [|? ? Hl Hm]; subst.
    destruct (Nat.leb (Notification.createdAt m) (Notification.createdAt n)) eqn:E.
    + apply Nat.leb_le in E. constructor; [exact Hs|].
      constructor; [exact E|].
      eapply Forall_impl; [|exact Hm].
      unfold newerOrEqual. intros x Hx. lia.
    + apply Nat.leb_gt in E. constructor; [now apply IH|].
      rewrite Forall_forall. intros x Hx.
      apply (Permutation_in _ (insertNewest_perm n l)) in Hx.
      destruct Hx as [<-|Hx].
      * unfold newerOrEqual. lia.
      * rewrite Forall_forall in Hm. now apply Hm.
Qed.

Lemma sortNewestFirst_sorted (l : list Notification.t) :
  StronglySorted newerOrEqual (sortNewestFirst l).
Proof.
  induction l as [|n l IH]; simpl; [constructor|].
  now apply insertNewest_sorted.
Qed.

Lemma StronglySorted_firstn {A : Type} (R : A -> A -> Prop) (k : nat) (l : list A) :
  StronglySorted R l -> StronglySorted R (firstn k l).
Proof.
  revert k. induction l as [|x l IH]; intros k Hs.
  - rewrite firstn_nil. constructor.
  - destruct k as [|k]; simpl; [constructor|].
    inversion Hs as [|? ? Hl Hx]; subst. constructor; [now apply IH|].
    rewrite Forall_forall in *. intros y Hy. apply Hx.
    rewrite <- (firstn_skipn k l). apply in_or_app. now left.
Qed.

Lemma StronglySorted_split {A : Type} (R : A -> A -> Prop) (l1 l2 : list A) :
  StronglySorted R (l1 ++ l2) ->
  forall a b, In a l1 -> In b l2 -> R a b.
Proof.
  induction l1 as [|x l1 IH]; simpl; intros Hs a b Ha Hb; [contradiction|].
  inversion Hs as [|? ? Hl Hx]; subst.
  destruct Ha as [<-|Ha].
  - rewrite Forall_forall in Hx. apply Hx. apply in_or_app. now right.
  - now apply IH.
Qed.

Lemma StronglySorted_map {A B : Type} (R : A -> A -> Prop) (Q : B -> B -> Prop)
  (f : A -> B) (l : list A) :
  (forall a b, R a b -> Q (f a) (f b)) ->
  StronglySorted R l -> StronglySorted Q (map f l).
Proof.
  intros HRQ. induction l as [|x l IH]; simpl; intros Hs; [constructor|].
  inversion Hs as [|? ? Hl Hx]; subst. constructor; [now apply IH|].
  rewrite Forall_forall in *. intros y Hy.
  apply in_map_iff in Hy. destruct Hy as [z [<- Hz]]. apply HRQ. now apply Hx.
Qed.

End SortFacts.

#[local] Arguments firstn : simpl never.
#[local] Arguments skipn : simpl never.
#[local] Arguments find : simpl never.
#[local] Arguments countDocuments : simpl never.

(** C10.  A successful listing changes nothing and returns at most ten of
    the recipient's notifications, newest first: they are the first ten of
    the recipient's notifications in creation order (all of them when
    there are fewer than ten), every one left out is no newer than every
    one returned.  [unreadCount] counts all unread notifications of the
    recipient in the store, returned or not. *)
Theorem listNotifications_page
  (env : Env) (s s' : Store) (U : ObjectId) (r : Response) :
  listNotifications (Verified U) env s = (r, s') ->
  status r = 200 ->
  s' = s
  /\ exists (picked rest : list Notification.t),
       body r = NotificationList
                  (map (populate (db s)) picked)
                  (List.length
                     (filter (fun n => Nat.eqb U (Notification.recipient n)
                                       && negb (Notification.read n))
                             (notifications (db s))))
       /\ List.length (map (populate (db s)) picked) <= 10
       /\ List.length picked
          = Nat.min 10
              (List.length (filter (fun n => Nat.eqb U (Notification.recipient n))
                                   (notifications (db s))))
       /\ StronglySorted (fun a b => nv_createdAt b <= nv_createdAt a)
            (map (populate (db s)) picked)
       /\ Forall (fun v => nv_recipient v = U) (map (populate (db s)) picked)
       /\ Permutation (picked ++ rest)
            (filter (fun n => Nat.eqb U (Notification.recipient n))
                    (notifications (db s)))
       /\ (forall a b, In a picked -> In b rest -> newerOrEqual a b).
Proof.
  destruct s as [d nid].
  unfold listNotifications, authMiddleware. unfold_async. simpl.
  destruct (faults env Auth_User_findById); simpl;
    [intros E; inversion E; subst; discriminate|].
  destruct (findById U (users d)) as [a|] eqn:Ha;
    [|intros E; inversion E; subst; discriminate].
  apply findById_Some in Ha. destruct Ha as [_ Ha]. simpl in Ha. rewrite Ha.
  clear Ha a.
  destruct (faults env List_Notification_find); simpl;
    [intros E; inversion E; subst; discriminate|].
  destruct (faults env List_Notification_countDocuments); simpl;
    intros E; inversion E; subst; [discriminate|].
  intros _. split; [reflexivity|].
  set (mine := find (Eq ["recipient"%string] (SId U)) (notifications d)).
  assert (Hmine : mine = filter (fun n => Nat.eqb U (Notification.recipient n))
                           (notifications d)).
  { unfold mine, find. apply filter_ext. intros n.
    apply selects_Notification_recipient. }
  exists (firstn 10 (sortNewestFirst mine)), (skipn 10 (sortNewestFirst mine)).
  simpl. repeat split.
  - f_equal. unfold countDocuments, find. f_equal. apply filter_ext. intros n.
    rewrite selects_And, selects_Notification_recipient, selects_Notification_read.
    now destruct (Notification.read n).
  - rewrite length_map. apply firstn_le_length.
  - rewrite length_firstn, <- Hmine.
    now rewrite (Permutation_length (sortNewestFirst_perm mine)).
  - apply StronglySorted_map with (R := newerOrEqual); [auto|].
    apply StronglySorted_firstn, sortNewestFirst_sorted.
  - rewrite Forall_forall. intros v Hv.
    apply in_map_iff in Hv. destruct Hv as [n [<- Hn]]. simpl.
    assert (Hin : In n mine).
    { apply (Permutation_in _ (sortNewestFirst_perm mine)).
      rewrite <- (firstn_skipn 10 (sortNewestFirst mine)).
      apply in_or_app. now left. }
    rewrite Hmine in Hin. apply filter_In in Hin. destruct Hin as [_ Hin].
    apply Nat.eqb_eq in Hin. now symmetry.
  - rewrite firstn_skipn, <- Hmine. apply sortNewestFirst_perm.
  - apply StronglySorted_split. rewrite firstn_skipn. apply sortNewestFirst_sorted.
Qed.

Lemma listNotifications_page_witness :
  snd (listNotifications (Verified 1) quietEnv busyStore) = busyStore
  /\ exists (picked rest : list Notification.t),
       body (fst (listNotifications (Verified 1) quietEnv busyStore))
       = NotificationList
           (map (populate (db busyStore)) picked)
           (List.length
              (filter (fun n => Nat.eqb 1 (Notification.recipient n)
                                && negb (Notification.read n))
                      (notifications (db busyStore))))
       /\ List.length (map (populate (db busyStore)) picked) <= 10
       /\ List.length picked
          = Nat.min 10
              (List.length (filter (fun n => Nat.eqb 1 (Notification.recipient n))
                                   (notifications (db busyStore))))
       /\ StronglySorted (fun a b => nv_createdAt b <= nv_createdAt a)
            (map (populate (db busyStore)) picked)
       /\ Forall (fun v => nv_recipient v = 1) (map (populate (db busyStore)) picked)
       /\ Permutation (picked ++ rest)
            (filter (fun n => Nat.eqb 1 (Notification.recipient n))
                    (notifications (db busyStore)))
       /\ (forall a b, In a picked -> In b rest -> newerOrEqual a b).
Proof.
  exact (listNotifications_page quietEnv busyStore
           (snd (listNotifications (Verified 1) quietEnv busyStore)) 1
           (fst (listNotifications (Verified 1) quietEnv busyStore))
           (surjective_pairing _) eq_refl).
Defined.

(** Eleven of the twelve notifications of the recipient are unread and
    counted, ten are returned. *)
Example listNotifications_counts_beyond_page :
  exists page,
    body (fst (listNotifications (Verified 1) quietEnv busyStore))
    = NotificationList page 11
    /\ List.length page = 10.
Proof. eexists. split; vm_compute; reflexivity. Qed.

(* ================================================================== *)
(** * POST / (create post)                                             *)
(* ================================================================== *)

Lemma truthy_Some (o : option string) (x : string) :
  truthy o = Some x -> o = Some x.
Proof.
  unfold truthy. destruct o as [y|]; [|discriminate].
  destruct (nonEmpty y); [|discriminate]. congruence.
Qed.

(** What a successful run of the route did, and what it needed. *)
Lemma createPost_ok
  (env : Env) (s s' : Store) (A : ObjectId) (b : PostBody) (file : option string)
  (r : Response) :
  createPost (Verified A) b file env s = (r, s') ->
  status r = 201 ->
  exists (a : User.t) (title : string) (content : JS.text) (imageUrl : string),
    faults env Auth_User_findById = false
    /\ findById A (users (db s)) = Some a
    /\ uploadImage env file "" = Some imageUrl
    /\ truthy (b_title b) = Some title
    /\ b_content b = Some content
    /\ Post.valid (newPost s a title content imageUrl) = true
    /\ faults env Create_Post_save = false
    /\ r = json 201 (PostJson (newPost s a title content imageUrl))
    /\ users (db s') = users (db s)
    /\ posts (db s') = posts (db s) ++ [newPost s a title content imageUrl]
    /\ comments (db s') = comments (db s)
    /\ notifications (db s')
       = notifications (db s)
         ++ (if faults env Create_User_findById
                || faults env Create_Notification_insertMany
             then [] else fanout env s a).
Proof.
  destruct s as [d nid].
  unfold createPost, authMiddleware. unfold_async. simpl.
  destruct (faults env Auth_User_findById) eqn:Fa; simpl;
    [intros E; inversion E; subst; discriminate|].
  destruct (findById A (users d)) as [a|] eqn:Ha;
    [|intros E; inversion E; subst; discriminate].
  destruct (uploadImage env file "") as [imageUrl|] eqn:Hup;
    [|intros E; inversion E; subst; discriminate].
  destruct (truthy (b_title b)) as [title|] eqn:Hti; simpl;
    [|intros E; inversion E; subst; discriminate].
  destruct (b_content b) as [content|] eqn:Hco; simpl;
    [|intros E; inversion E; subst; discriminate].
  match goal with
  | |- context [Post.valid ?p] => destruct (Post.valid p) eqn:Hv
  end; simpl; [|intros E; inversion E; subst; discriminate].
  destruct (faults env Create_Post_save) eqn:Fs; simpl;
    [intros E; inversion E; subst; discriminate|].
  intros E Hr. exists a, title, content, imageUrl.
  unfold newPost, fanout. simpl.
  repeat (split; [first [reflexivity | assumption]|]).
  pose proof (findById_Some _ _ _ Ha) as [_ Hid]. simpl in Hid.
  revert E.
  destruct (faults env Create_User_findById) eqn:Ff; simpl.
  { intros E; inversion E; subst; simpl. rewrite app_nil_r. auto. }
  rewrite Hid, Ha. simpl. rewrite length_map.
  destruct (User.subscribers a) as [|x subs] eqn:Hsubs; simpl.
  { intros E; inversion E; subst; simpl.
    destruct (faults env Create_Notification_insertMany); simpl;
      rewrite ?app_nil_r; auto. }
  destruct (faults env Create_Notification_insertMany) eqn:Fi; simpl;
    intros E; inversion E; subst; simpl; rewrite ?app_nil_r; auto.
Qed.


Section FanoutFacts.






End FanoutFacts.



(* ================================================================== *)
(** * PUT /:id (edit post)                                             *)
(* ================================================================== *)

(** What a successful run of the route did. *)
Lemma editPost_ok
  (env : Env) (s s' : Store) (A id : ObjectId) (b : PostBody)
  (file : option string) (r : Response) :
  editPost (Verified A) id b file env s = (r, s') ->
  status r = 200 ->
  exists (post : Post.t) (title : string) (content : JS.text) (image : string),
    findById id (posts (db s)) = Some post
    /\ Post.author post = A
    /\ truthy (b_title b) = Some title
    /\ b_content b = Some content
    /\ uploadImage env file (Post.image post) = Some image
    /\ r = json 200 (MsgPost "Post updated successfully"
                       (Post.set_text title (formatContent content) image post))
    /\ posts (db s')
       = overwrite (Post.set_text title (formatContent content) image post)
                   (posts (db s)).
Proof.
  destruct s as [d nid].
  unfold editPost, authMiddleware. unfold_async. simpl.
  destruct (faults env Auth_User_findById); simpl;
    [intros E; inversion E; subst; discriminate|].
  destruct (findById A (users d)) as [a|] eqn:Ha;
    [|intros E; inversion E; subst; discriminate].
  apply findById_Some in Ha. destruct Ha as [_ Ha]. simpl in Ha. rewrite Ha.
  clear Ha a.
  destruct (faults env Edit_Post_findById); simpl;
    [intros E; inversion E; subst; discriminate|].
  destruct (findById id (posts d)) as [post|] eqn:Hp;
    [|intros E; inversion E; subst; discriminate].
  destruct (Nat.eqb (Post.author post) A) eqn:Hown; simpl;
    [|intros E; inversion E; subst; discriminate].
  apply Nat.eqb_eq in Hown.
  destruct (b_content b) as [content|] eqn:Hco; simpl;
    [|intros E; inversion E; subst; discriminate].
  destruct (uploadImage env file (Post.image post)) as [image|] eqn:Hup;
    [|intros E; inversion E; subst; discriminate].
  destruct (truthy (b_title b)) as [title|] eqn:Hti; simpl;
    [|intros E; inversion E; subst; discriminate].
  destruct (Post.valid _); simpl; [|intros E; inversion E; subst; discriminate].
  destruct (faults env Edit_Post_save); simpl;
    intros E; inversion E; subst; [discriminate|].
  intros _. exists post, title, content, image. simpl. auto 10.
Qed.

(** C9.  The content a post is stored with is the output of the setter on
    the raw content of the request, applied once: for a created post and
    for an edited one, the stored value is [formatContent raw].  And
    [formatContent raw] is the one text reached from [raw] by rewriting
    double-asterisk spans to [strong] first, then single-asterisk spans to
    [em], then double-underscore spans to [u], each in one left-to-right
    scan of the previous result ([Formats]). *)
Theorem content_stored_formatted_once :
  (forall (env : Env) (s s' : Store) (A : ObjectId) (b : PostBody)
          (file : option string) (r : Response),
      createPost (Verified A) b file env s = (r, s') ->
      status r = 201 ->
      exists (raw : JS.text) (post : Post.t),
        b_content b = Some raw
        /\ r = json 201 (PostJson post)
        /\ posts (db s') = posts (db s) ++ [post]
        /\ Post.content post = formatContent raw)
  /\ (forall (env : Env) (s s' : Store) (A id : ObjectId) (b : PostBody)
             (file : option string) (r : Response),
         editPost (Verified A) id b file env s = (r, s') ->
         status r = 200 ->
         exists (raw : JS.text) (post : Post.t),
           b_content b = Some raw
           /\ r = json 200 (MsgPost "Post updated successfully" post)
           /\ findById id (posts (db s')) = Some post
           /\ Post.content post = formatContent raw)
  /\ (forall raw out : JS.text, Formats raw out <-> out = formatContent raw).
Proof.
  split; [|split].
  - intros env s s' A b file r Hrun Hr.
    destruct (createPost_ok _ _ _ _ _ _ _ Hrun Hr)
      as (a & title & content & imageUrl & _ & _ & _ & _ & Hco & _ & _
          & Hresp & _ & Hposts & _).
    exists content, (newPost s a title content imageUrl). auto.
  - intros env s s' A id b file r Hrun Hr.
    destruct (editPost_ok _ _ _ _ _ _ _ _ Hrun Hr)
      as (post & title & content & image & Hp & _ & _ & Hco & _ & Hresp & Hposts).
    exists content, (Post.set_text title (formatContent content) image post).
    repeat split; try assumption.
    rewrite Hposts. apply findById_overwrite with (y := post); [|exact Hp].
    simpl. now apply (findById_Some _ _ _ Hp).
  - exact Formats_formatContent.
Qed.

Lemma content_stored_formatted_once_witness :
  exists (raw : JS.text) (post : Post.t),
    b_content newsBody = Some raw
    /\ fst (createPost (Verified 1) newsBody None quietEnv store0)
       = json 201 (PostJson post)
    /\ posts (db (snd (createPost (Verified 1) newsBody None quietEnv store0)))
       = posts (db store0) ++ [post]
    /\ Post.content post = formatContent raw.
Proof.
  exact (proj1 content_stored_formatted_once quietEnv store0
           (snd (createPost (Verified 1) newsBody None quietEnv store0))
           1 newsBody None
           (fst (createPost (Verified 1) newsBody None quietEnv store0))
           (surjective_pairing _) eq_refl).
Defined.

(* ================================================================== *)
(** * DELETE /delete-account                                           *)
(* ================================================================== *)

Section StepFacts.

Lemma runSteps_app (rejects : Site -> bool) (l1 l2 : list (Site * (Db -> Db))) (d : Db) :
  runSteps rejects (l1 ++ l2) d
  = match runSteps rejects l1 d with
    | (None, d') => runSteps rejects l2 d'
    | (Some site, d') => (Some site, d')
    end.
Proof.
  revert d. induction l1 as [|[site f] l1 IH]; intros d; simpl; [reflexivity|].
  destruct (rejects site); [reflexivity|apply IH].
Qed.

Lemma runSteps_all_ok (rejects : Site -> bool) (steps : list (Site * (Db -> Db))) (d : Db) :
  (forall st, In st steps -> rejects (fst st) = false) ->
  runSteps rejects steps d = (None, applyAll steps d).
Proof.
  revert d. induction steps as [|[site f] steps IH]; intros d Hok; simpl;
    [reflexivity|].
  pose proof (Hok (site, f) (or_introl eq_refl)) as Hsite. simpl in Hsite.
  rewrite Hsite.
  apply IH. intros st Hst. apply Hok. now right.
Qed.

Lemma runSteps_first_failure (rejects : Site -> bool)
  (before after : list (Site * (Db -> Db))) (site : Site) (f : Db -> Db) (d : Db) :
  (forall st, In st before -> rejects (fst st) = false) ->
  rejects site = true ->
  runSteps rejects (before ++ (site, f) :: after) d = (Some site, applyAll before d).
Proof.
  intros Hok Hrej. rewrite runSteps_app, (runSteps_all_ok _ _ _ Hok). simpl.
  now rewrite Hrej.
Qed.

Lemma runSteps_completed (rejects : Site -> bool) (steps : list (Site * (Db -> Db)))
  (d d' : Db) :
  runSteps rejects steps d = (None, d') -> d' = applyAll steps d.
Proof.
  revert d. induction steps as [|[site f] steps IH]; intros d; simpl.
  - congruence.
  - destruct (rejects site); [discriminate|]. apply IH.
Qed.

(** A loop of awaited writes is a run of steps. *)
Lemma forEach_exec_runSteps {A : Type} (l : list A) (site : A -> Site)
  (f : A -> Db -> Db) (env : Env) (d : Db) (nid : ObjectId) :
  forEach l (fun x => exec (site x) (f x)) env (mkStore d nid)
  = match runSteps (faults env) (map (fun x => (site x, f x)) l) d with
    | (None, d') => (Resolved tt, mkStore d' nid)
    | (Some st, d') => (Rejected (StoreError st), mkStore d' nid)
    end.
Proof.
  revert d. induction l as [|x l IH]; intros d; simpl; [reflexivity|].
  unfold bind at 1. unfold exec at 1, await. simpl.
  destruct (faults env (site x)); [reflexivity|]. apply IH.
Qed.

End StepFacts.

(** The route is the run of its store calls up to the first one that
    rejects. *)
Lemma deleteAccount_runSteps
  (env : Env) (s : Store) (U : ObjectId) (a : User.t) :
  findById U (users (db s)) = Some a ->
  faults env Auth_User_findById = false ->
  deleteAccount (Verified U) env s
  = match runSteps (faults env) (cascade U (db s)) (db s) with
    | (None, d') => (json 200 (Msg "Account deleted successfully"),
                     mkStore d' (nextId s))
    | (Some _, d') => (json 500 (Msg "Error deleting account"),
                       mkStore d' (nextId s))
    end.
Proof.
  destruct s as [d nid]. simpl. intros Ha Fa.
  pose proof (findById_Some _ _ _ Ha) as [_ Hid]. simpl in Hid.
  unfold deleteAccount, authMiddleware, tryCatch.
  unfold query at 1. unfold await. simpl. rewrite Fa, Ha, Hid.
  unfold cascade. simpl.
  unfold bind at 1. unfold query, await. simpl.
  destruct (faults env Delete_Post_find); [reflexivity|].
  unfold bind at 1. rewrite forEach_exec_runSteps. rewrite runSteps_app.
  destruct (runSteps (faults env) _ d) as [[site|] d1]; [reflexivity|].
  unfold_async. simpl.
  destruct (faults env Delete_Post_deleteMany); [reflexivity|]. simpl.
  destruct (faults env Delete_Comment_deleteMany_author); [reflexivity|]. simpl.
  destruct (faults env Delete_Notification_deleteMany); [reflexivity|]. simpl.
  destruct (faults env Delete_User_updateMany); [reflexivity|]. simpl.
  destruct (faults env Delete_User_findByIdAndDelete); reflexivity.
Qed.

(** C4 (amended).  The cascade is fail-fast: the first store call that
    rejects, whichever it is, ends the run with the 500 answer "Error
    deleting account" and the store is what the calls before it left (no
    later call runs, nothing is rolled back); the answer is 200 with the
    whole cascade applied when no call rejects. *)
Theorem deleteAccount_fail_fast
  (env : Env) (s : Store) (U : ObjectId) (a : User.t) :
  findById U (users (db s)) = Some a ->
  faults env Auth_User_findById = false ->
  (forall (before after : list (Site * (Db -> Db))) (site : Site) (f : Db -> Db),
      cascade U (db s) = before ++ (site, f) :: after ->
      (forall st, In st before -> faults env (fst st) = false) ->
      faults env site = true ->
      deleteAccount (Verified U) env s
      = (json 500 (Msg "Error deleting account"),
         mkStore (applyAll before (db s)) (nextId s)))
  /\ ((forall st, In st (cascade U (db s)) -> faults env (fst st) = false) ->
      deleteAccount (Verified U) env s
      = (json 200 (Msg "Account deleted successfully"),
         mkStore (applyAll (cascade U (db s)) (db s)) (nextId s))).
Proof.
  intros Ha Fa. split.
  - intros before after site f Hsplit Hok Hrej.
    rewrite (deleteAccount_runSteps _ _ _ _ Ha Fa), Hsplit.
    now rewrite (runSteps_first_failure _ _ _ _ _ _ Hok Hrej).
  - intros Hok. rewrite (deleteAccount_runSteps _ _ _ _ Ha Fa).
    now rewrite (runSteps_all_ok _ _ _ Hok).
Qed.

Lemma deleteAccount_fail_fast_witness :
  deleteAccount (Verified 1) (failingAt Delete_Comment_deleteMany_author) store0
  = (json 500 (Msg "Error deleting account"),
     mkStore (applyAll (firstn 3 (cascade 1 (db store0))) (db store0))
             (nextId store0)).
Proof.
  refine (proj1 (deleteAccount_fail_fast
                   (failingAt Delete_Comment_deleteMany_author) store0 1 alice
                   eq_refl eq_refl)
            (firstn 3 (cascade 1 (db store0)))
            (skipn 4 (cascade 1 (db store0)))
            Delete_Comment_deleteMany_author
            (withComments (deleteMany (Eq ["author"%string] (SId 1))))
            eq_refl _ eq_refl).
  intros st [<-|[<-|[<-|[]]]]; reflexivity.
Defined.

(** C4, as stated, fails: when only the deletion of the user's own
    comments rejects, the caller gets the 500 answer, and the later steps
    did not run: the notifications addressed to the user and the user
    record are still there. *)
Lemma deleteAccount_step_failure_not_swallowed :
  status (fst (deleteAccount (Verified 1)
                 (failingAt Delete_Comment_deleteMany_author) store0)) = 500
  /\ faults (failingAt Delete_Comment_deleteMany_author)
            Delete_User_findByIdAndDelete = false
  /\ In note31
        (notifications
           (db (snd (deleteAccount (Verified 1)
                       (failingAt Delete_Comment_deleteMany_author) store0))))
  /\ In alice
        (users
           (db (snd (deleteAccount (Verified 1)
                       (failingAt Delete_Comment_deleteMany_author) store0)))).
Proof.
  repeat split; vm_compute; auto.
Qed.

Section CascadeFacts.

Lemma applyAll_app (l1 l2 : list (Site * (Db -> Db))) (d : Db) :
  applyAll (l1 ++ l2) d = applyAll l2 (applyAll l1 d).
Proof. unfold applyAll. apply fold_left_app. Qed.

Lemma applyAll_comment_loop {A : Type} (l : list A) (site : A -> Site)
  (g : A -> list Comment.t -> list Comment.t) (d : Db) :
  applyAll (map (fun x => (site x, withComments (g x))) l) d
  = withComments (fun c => fold_left (fun c' x => g x c') l c) d.
Proof.
  revert d. induction l as [|x l IH]; intros d; simpl.
  - now destruct d.
  - unfold applyAll in *. simpl. rewrite IH. now destruct d.
Qed.

(** The store after the whole cascade. *)
Lemma applyAll_cascade (U : ObjectId) (d : Db) :
  applyAll (cascade U d) d
  = mkDb
      (deleteOne U
         (updateMany (Eq ["subscribers"%string] (SId U))
            (User.pull_subscribers U) (users d)))
      (deleteMany (Eq ["author"%string] (SId U)) (posts d))
      (deleteMany (Eq ["author"%string] (SId U))
         (fold_left
            (fun c post => deleteMany (Eq ["post"%string] (SId (Post._id post))) c)
            (find (Eq ["author"%string] (SId U)) (posts d))
            (comments d)))
      (deleteMany (Or (Eq ["sender"; "_id"]%string (SId U))
                      (Eq ["recipient"%string] (SId U)))
         (notifications d)).
Proof.
  unfold cascade. rewrite !applyAll_app.
  rewrite (applyAll_comment_loop _
             (fun post => Delete_Comment_deleteMany_post (Post._id post))
             (fun post => deleteMany (Eq ["post"%string] (SId (Post._id post))))).
  now destruct d.
Qed.

Lemma in_comment_loop (c : Comment.t) (l : list Post.t) (cs : list Comment.t) :
  In c (fold_left
          (fun c' post => deleteMany (Eq ["post"%string] (SId (Post._id post))) c')
          l cs) ->
  In c cs /\ forall p, In p l -> Comment.post c <> Post._id p.
Proof.
  revert cs. induction l as [|q l IH]; intros cs; simpl.
  - intros Hin. split; [exact Hin|tauto].
  - intros Hin. apply IH in Hin. destruct Hin as [Hin Hl].
    unfold deleteMany in Hin. apply filter_In in Hin. destruct Hin as [Hin Hq].
    rewrite selects_Comment_post in Hq. apply negb_true_iff, Nat.eqb_neq in Hq.
    split; [exact Hin|]. intros p [<-|Hp]; [congruence|now apply Hl].
Qed.

Lemma in_deleteOne {T : Type} `{Schema T} (i : ObjectId) (x : T) (c : list T) :
  In x (deleteOne i c) -> In x c.
Proof.
  induction c as [|y c IH]; simpl; [tauto|].
  destruct (selects (Eq ["_id"%string] (SId i)) y); simpl; intuition.
Qed.

(** On a collection with unique [_id]s, [deleteOne] leaves no document
    with that [_id]. *)
Lemma deleteOne_gone {T : Type} `{LawfulSchema T} (i : ObjectId) (c : list T) :
  NoDup (map idOf c) -> forall x, In x (deleteOne i c) -> idOf x <> i.
Proof.
  induction c as [|y c IH]; simpl; [tauto|].
  intros Hnd x. inversion Hnd as [|? ? Hy Hc]; subst.
  rewrite selects_id. destruct (Nat.eqb i (idOf y)) eqn:E.
  - apply Nat.eqb_eq in E. subst i. intros Hin Heq.
    apply Hy. rewrite <- Heq. now apply in_map.
  - apply Nat.eqb_neq in E. intros [<-|Hin]; [congruence|now apply IH].
Qed.

End CascadeFacts.

(** What a successful run of the route did. *)
Lemma deleteAccount_ok
  (env : Env) (s s' : Store) (U : ObjectId) (r : Response) :
  deleteAccount (Verified U) env s = (r, s') ->
  status r = 200 ->
  db s' = applyAll (cascade U (db s)) (db s).
Proof.
  destruct (faults env Auth_User_findById) eqn:Fa;
    [|destruct (findById U (users (db s))) as [a|] eqn:Ha].
  - unfold deleteAccount, authMiddleware, query, await. rewrite Fa.
    intros E; inversion E; subst; discriminate.
  - rewrite (deleteAccount_runSteps _ _ _ _ Ha Fa).
    destruct (runSteps (faults env) (cascade U (db s)) (db s)) as [[site|] d'] eqn:Hrun;
      intros E; inversion E; subst; [discriminate|].
    intros _. exact (runSteps_completed _ _ _ _ Hrun).
  - unfold deleteAccount, authMiddleware, query, await. rewrite Fa.
    destruct s as [d nid]. simpl in *. rewrite Ha.
    intros E; inversion E; subst; discriminate.
Qed.

(** X10.  The part of the cascade that does what it is meant to do: after a
    successful run no post or comment of the user is left, no comment
    under one of the user's posts, no notification addressed to the user,
    the user is in no subscriber list, and, [_id]s being unique, there is
    no record of the user. *)
Lemma deleteAccount_cascade
  (env : Env) (s s' : Store) (U : ObjectId) (r : Response) :
  deleteAccount (Verified U) env s = (r, s') ->
  status r = 200 ->
  (forall p, In p (posts (db s')) -> Post.author p <> U)
  /\ (forall c, In c (comments (db s')) -> Comment.author c <> U)
  /\ (forall c p, In c (comments (db s')) -> In p (posts (db s)) ->
                  Post.author p = U -> Comment.post c <> Post._id p)
  /\ (forall n, In n (notifications (db s')) -> Notification.recipient n <> U)
  /\ (forall u, In u (users (db s')) -> ~ In U (User.subscribers u))
  /\ (NoDup (map User._id (users (db s))) ->
      forall u, In u (users (db s')) -> User._id u <> U).
Proof.
  intros Hrun Hr. rewrite (deleteAccount_ok _ _ _ _ _ Hrun Hr), applyAll_cascade.
  simpl. repeat split.
  - intros p Hp. unfold deleteMany in Hp. apply filter_In in Hp.
    destruct Hp as [_ Hp]. rewrite selects_Post_author in Hp.
    apply negb_true_iff, Nat.eqb_neq in Hp. congruence.
  - intros c Hc. unfold deleteMany in Hc. apply filter_In in Hc.
    destruct Hc as [_ Hc]. rewrite selects_Comment_author in Hc.
    apply negb_true_iff, Nat.eqb_neq in Hc. congruence.
  - intros c p Hc Hp Hown. unfold deleteMany in Hc. apply filter_In in Hc.
    destruct Hc as [Hc _]. apply in_comment_loop in Hc. destruct Hc as [_ Hc].
    apply Hc. unfold find. apply filter_In. split; [exact Hp|].
    rewrite selects_Post_author, Hown. apply Nat.eqb_refl.
  - intros n Hn. unfold deleteMany in Hn. apply filter_In in Hn.
    destruct Hn as [_ Hn].
    rewrite selects_Or, selects_Notification_sender_id,
      selects_Notification_recipient in Hn. simpl in Hn.
    apply negb_true_iff, Nat.eqb_neq in Hn. congruence.
  - intros u Hu. apply in_deleteOne in Hu. unfold updateMany in Hu.
    apply in_map_iff in Hu. destruct Hu as [v [Hv _]].
    rewrite selects_User_subscribers in Hv.
    destruct (existsb (Nat.eqb U) (User.subscribers v)) eqn:E; subst u.
    + simpl. intros Hin. apply filter_In in Hin. destruct Hin as [_ Hin].
      now rewrite Nat.eqb_refl in Hin.
    + now apply existsb_eqb_false.
  - intros Hnd u Hu.
    change (User._id u) with (idOf u).
    apply (deleteOne_gone (T := User.t) U
             (updateMany (Eq ["subscribers"%string] (SId U))
                (User.pull_subscribers U) (users (db s)))); [|exact Hu].
    unfold updateMany. rewrite map_map.
    erewrite map_ext; [exact Hnd|].
    intros v. simpl. now destruct (selects _ v).
Qed.

Lemma deleteAccount_cascade_witness :
  In (User.pull_subscribers 1 carol)
     (users (db (snd (deleteAccount (Verified 1) quietEnv store1))))
  /\ ~ In 1 (User.subscribers (User.pull_subscribers 1 carol)).
Proof.
  split; [simpl; auto|].
  apply (proj1 (proj2 (proj2 (proj2 (proj2
           (deleteAccount_cascade quietEnv store1
              (snd (deleteAccount (Verified 1) quietEnv store1)) 1
              (fst (deleteAccount (Verified 1) quietEnv store1))
              (surjective_pairing _) eq_refl)))))
           (User.pull_subscribers 1 carol)).
  simpl. auto.
Defined.

(** C1 fails on the code at notifications the user sent: the filter of
    the cascade names the path [sender._id], which no stored notification
    has, so a notification sent by the deleted user to somebody else
    survives a successful deletion. *)
Theorem deleteAccount_keeps_sent_notifications
  (env : Env) (s s' : Store) (U : ObjectId) (r : Response) (n : Notification.t) :
  deleteAccount (Verified U) env s = (r, s') ->
  status r = 200 ->
  In n (notifications (db s)) ->
  Notification.sender n = U ->
  Notification.recipient n <> U ->
  In n (notifications (db s')) /\ Notification.sender n = U.
Proof.
  intros Hrun Hr Hn Hsender Hrecipient.
  rewrite (deleteAccount_ok _ _ _ _ _ Hrun Hr), applyAll_cascade. simpl.
  split; [|exact Hsender].
  unfold deleteMany. apply filter_In. split; [exact Hn|].
  rewrite selects_Or, selects_Notification_sender_id,
    selects_Notification_recipient. simpl.
  apply negb_true_iff, Nat.eqb_neq. congruence.
Qed.

Lemma deleteAccount_keeps_sent_notifications_witness :
  In note30 (notifications (db (snd (deleteAccount (Verified 1) quietEnv store0))))
  /\ Notification.sender note30 = 1.
Proof.
  apply (deleteAccount_keeps_sent_notifications quietEnv store0
           (snd (deleteAccount (Verified 1) quietEnv store0)) 1
           (fst (deleteAccount (Verified 1) quietEnv store0)) note30).
  - apply surjective_pairing.
  - reflexivity.
  - simpl. auto.
  - reflexivity.
  - simpl. discriminate.
Defined.

(* ================================================================== *)
(** * PUT /update                                                      *)
(* ================================================================== *)

Lemma orElse_idem (o : option string) (x : string) :
  orElse o (orElse o x) = orElse o x.
Proof. unfold orElse. now destruct (truthy o). Qed.

(** What a successful run of the part of the route after the password
    block did. *)
Lemma saveProfile_ok
  (env : Env) (s s' : Store) (user : User.t) (b : ProfileBody) (password : string)
  (r : Response) :
  saveProfile user b password env s = (Resolved r, s') ->
  exists (firstName lastName : string),
    truthy (b_firstName b) = Some firstName
    /\ truthy (b_lastName b) = Some lastName
    /\ r = json 200 (TokenMsg (sign (updatedUser user password firstName lastName b))
                       "Profile updated successfully")
    /\ users (db s')
       = overwrite (updatedUser user password firstName lastName b) (users (db s))
    /\ notifications (db s') = notifications (db s)
    /\ posts (db s')
       = (if isNameChanged user b
          then updateMany (Eq ["author"%string] (SId (User._id user)))
                 (Post.set_snapshot firstName lastName
                    (User.profilePicture
                       (updatedUser user password firstName lastName b)))
                 (posts (db s))
          else posts (db s))
    /\ comments (db s')
       = (if isNameChanged user b
          then updateMany (Eq ["author"%string] (SId (User._id user)))
                 (Comment.set_snapshot firstName lastName
                    (User.profilePicture
                       (updatedUser user password firstName lastName b)))
                 (comments (db s))
          else comments (db s)).
Proof.
  destruct s as [d nid]. unfold saveProfile. unfold_async. simpl.
  destruct (truthy (b_firstName b)) as [firstName|]; simpl; [|discriminate].
  destruct (truthy (b_lastName b)) as [lastName|]; simpl; [|discriminate].
  destruct (User.valid _); simpl; [|discriminate].
  destruct (faults env Update_User_save); simpl; [discriminate|].
  rewrite orElse_idem.
  destruct (isNameChanged user b); simpl.
  - destruct (faults env Update_Post_updateMany); simpl; [discriminate|].
    destruct (faults env Update_Comment_updateMany); simpl; [discriminate|].
    intros E; inversion E; subst. exists firstName, lastName. simpl. auto 10.
  - intros E; inversion E; subst. exists firstName, lastName. simpl. auto 10.
Qed.

(** What a successful run of the route did. *)
Lemma updateProfile_ok
  (env : Env) (s s' : Store) (U : ObjectId) (b : ProfileBody) (r : Response) :
  updateProfile (Verified U) b env s = (r, s') ->
  status r = 200 ->
  exists (user : User.t) (password firstName lastName : string),
    findById U (users (db s)) = Some user
    /\ truthy (b_firstName b) = Some firstName
    /\ truthy (b_lastName b) = Some lastName
    /\ r = json 200 (TokenMsg (sign (updatedUser user password firstName lastName b))
                       "Profile updated successfully")
    /\ users (db s')
       = overwrite (updatedUser user password firstName lastName b) (users (db s))
    /\ notifications (db s') = notifications (db s)
    /\ posts (db s')
       = (if isNameChanged user b
          then updateMany (Eq ["author"%string] (SId U))
                 (Post.set_snapshot firstName lastName
                    (User.profilePicture
                       (updatedUser user password firstName lastName b)))
                 (posts (db s))
          else posts (db s))
    /\ comments (db s')
       = (if isNameChanged user b
          then updateMany (Eq ["author"%string] (SId U))
                 (Comment.set_snapshot firstName lastName
                    (User.profilePicture
                       (updatedUser user password firstName lastName b)))
                 (comments (db s))
          else comments (db s)).
Proof.
  destruct s as [d nid].
  unfold updateProfile, authMiddleware, tryCatch.
  unfold query at 1. unfold await. simpl.
  destruct (faults env Auth_User_findById); simpl;
    [intros E; inversion E; subst; discriminate|].
  destruct (findById U (users d)) as [user|] eqn:Ha;
    [|intros E; inversion E; subst; discriminate].
  pose proof (findById_Some _ _ _ Ha) as [_ Hid]. simpl in Hid. rewrite Hid.
  unfold bind at 1. unfold query, await. simpl.
  destruct (faults env Update_User_findById); simpl;
    [intros E; inversion E; subst; discriminate|].
  rewrite Ha. unfold bind, notNull, ret, ask. simpl.
  assert (Hrest : forall password,
    match saveProfile user b password env (mkStore d nid) with
    | (Resolved r0, s0) => (r0, s0)
    | (Rejected _, s0) => (json 500 (Msg "Server error"), s0)
    end = (r, s') ->
    status r = 200 ->
    exists firstName lastName,
      truthy (b_firstName b) = Some firstName
      /\ truthy (b_lastName b) = Some lastName
      /\ r = json 200 (TokenMsg (sign (updatedUser user password firstName lastName b))
                         "Profile updated successfully")
      /\ users (db s')
         = overwrite (updatedUser user password firstName lastName b) (users d)
      /\ notifications (db s') = notifications d
      /\ posts (db s')
         = (if isNameChanged user b
            then updateMany (Eq ["author"%string] (SId U))
                   (Post.set_snapshot firstName lastName
                      (User.profilePicture
                         (updatedUser user password firstName lastName b)))
                   (posts d)
            else posts d)
      /\ comments (db s')
         = (if isNameChanged user b
            then updateMany (Eq ["author"%string] (SId U))
                   (Comment.set_snapshot firstName lastName
                      (User.profilePicture
                         (updatedUser user password firstName lastName b)))
                   (comments d)
            else comments d)).
  { intros password.
    destruct (saveProfile user b password env (mkStore d nid)) as [[r0|e] s0] eqn:Hsave;
      intros E; inversion E; subst; [|discriminate].
    intros _. apply saveProfile_ok in Hsave. exact Hsave. }
  destruct (truthy (b_newPassword b)) as [newPassword|].
  - destruct (b_currentPassword b) as [currentPassword|]; simpl;
      [|intros E; inversion E; subst; discriminate].
    destruct (bcrypt_compare env currentPassword (User.password user)); simpl;
      [|intros E; inversion E; subst; discriminate].
    intros E Hr.
    destruct (Hrest _ E Hr) as (fn & ln & H1 & H2 & H3 & H4 & H5 & H6 & H7).
    exists user, (bcrypt_hash env newPassword), fn, ln. auto 10.
  - intros E Hr.
    destruct (Hrest _ E Hr) as (fn & ln & H1 & H2 & H3 & H4 & H5 & H6 & H7).
    exists user, (User.password user), fn, ln. auto 10.
Qed.

Section UpdateFacts.

Lemma in_updateMany {T : Type} `{Schema T} (q : Filter) (upd : T -> T)
  (c : list T) (y : T) :
  In y (updateMany q upd c) ->
  exists x, In x c
            /\ ((selects q x = true /\ y = upd x) \/ (selects q x = false /\ y = x)).
Proof.
  unfold updateMany. rewrite in_map_iff. intros [x [Hy Hx]].
  exists x. split; [exact Hx|].
  destruct (selects q x); subst; auto.
Qed.

Lemma carriesSnapshot_Post (p : Post.t) (fn ln pic : string) :
  Post.firstName p = fn -> Post.lastName p = ln -> Post.profilePicture p = pic ->
  carriesSnapshot [] (toDoc p) fn ln pic.
Proof. intros <- <- <-. repeat split. Qed.

Lemma carriesSnapshot_Comment (c : Comment.t) (fn ln pic : string) :
  Comment.firstName c = fn -> Comment.lastName c = ln ->
  Comment.profilePicture c = pic ->
  carriesSnapshot [] (toDoc c) fn ln pic.
Proof. intros <- <- <-. repeat split. Qed.

(** A stored notification has nothing under [sender.firstName]. *)
Lemma Notification_no_snapshot (n : Notification.t) (fn ln pic : string) :
  ~ carriesSnapshot ["sender"%string] (toDoc n) fn ln pic.
Proof. intros [H _]. discriminate H. Qed.

End UpdateFacts.

(** C2 (amended).  After a successful PUT /update that changes the name,
    every post and every comment of the user carries the new first name,
    last name and the user's current picture.  The notifications are left
    as they were: a stored notification holds the sender's ObjectId and no
    name or picture, and the listing fills in the sender from the user
    record, so a notification sent by the user is listed with the new
    name and picture. *)
Theorem updateProfile_propagates
  (env : Env) (s s' : Store) (U : ObjectId) (b : ProfileBody) (r : Response)
  (user : User.t) :
  findById U (users (db s)) = Some user ->
  isNameChanged user b = true ->
  updateProfile (Verified U) b env s = (r, s') ->
  status r = 200 ->
  exists user' : User.t,
    findById U (users (db s')) = Some user'
    /\ b_firstName b = Some (User.firstName user')
    /\ b_lastName b = Some (User.lastName user')
    /\ (forall p, In p (posts (db s')) -> Post.author p = U ->
          carriesSnapshot [] (toDoc p) (User.firstName user') (User.lastName user')
            (User.profilePicture user'))
    /\ (forall c, In c (comments (db s')) -> Comment.author c = U ->
          carriesSnapshot [] (toDoc c) (User.firstName user') (User.lastName user')
            (User.profilePicture user'))
    /\ notifications (db s') = notifications (db s)
    /\ (forall n, In n (notifications (db s')) -> Notification.sender n = U ->
          ~ carriesSnapshot ["sender"%string] (toDoc n) (User.firstName user')
              (User.lastName user') (User.profilePicture user')
          /\ carriesSnapshot ["sender"%string] (viewDoc (populate (db s') n))
               (User.firstName user') (User.lastName user')
               (User.profilePicture user')).
Proof.
  intros Hu Hchanged Hrun Hr.
  destruct (updateProfile_ok _ _ _ _ _ _ Hrun Hr)
    as (user0 & pw & fn & ln & Hu0 & Hfn & Hln & _ & Husers & Hnotes & Hposts & Hcomments).
  rewrite Hu in Hu0. inversion Hu0; subst user0. clear Hu0.
  rewrite Hchanged in Hposts, Hcomments.
  pose proof (findById_Some _ _ _ Hu) as [_ Hid]. simpl in Hid.
  set (user' := updatedUser user pw fn ln b) in *.
  assert (Hu' : findById U (users (db s')) = Some user').
  { rewrite Husers. now apply findById_overwrite with (y := user). }
  exists user'. split; [exact Hu'|].
  split; [now apply truthy_Some|]. split; [now apply truthy_Some|].
  split; [|split; [|split; [exact Hnotes|]]].
  - intros p Hp Hauthor. rewrite Hposts in Hp.
    apply in_updateMany in Hp. destruct Hp as [x [_ [[_ ->]|[Hsel ->]]]].
    + now apply carriesSnapshot_Post.
    + rewrite selects_Post_author, Hauthor, Nat.eqb_refl in Hsel. discriminate.
  - intros c Hc Hauthor. rewrite Hcomments in Hc.
    apply in_updateMany in Hc. destruct Hc as [x [_ [[_ ->]|[Hsel ->]]]].
    + now apply carriesSnapshot_Comment.
    + rewrite selects_Comment_author, Hauthor, Nat.eqb_refl in Hsel. discriminate.
  - intros n _ Hsender. split; [apply Notification_no_snapshot|].
    unfold populate, viewDoc, carriesSnapshot. simpl.
    rewrite Hsender, Hu'. simpl. auto.
Qed.

Lemma updateProfile_propagates_witness :
  exists user' : User.t,
    findById 1 (users (db (snd (updateProfile (Verified 1) renameBody quietEnv store0))))
    = Some user'
    /\ b_firstName renameBody = Some (User.firstName user')
    /\ b_lastName renameBody = Some (User.lastName user')
    /\ (forall p,
          In p (posts (db (snd (updateProfile (Verified 1) renameBody quietEnv store0)))) ->
          Post.author p = 1 ->
          carriesSnapshot [] (toDoc p) (User.firstName user') (User.lastName user')
            (User.profilePicture user'))
    /\ (forall c,
          In c (comments (db (snd (updateProfile (Verified 1) renameBody quietEnv store0)))) ->
          Comment.author c = 1 ->
          carriesSnapshot [] (toDoc c) (User.firstName user') (User.lastName user')
            (User.profilePicture user'))
    /\ notifications (db (snd (updateProfile (Verified 1) renameBody quietEnv store0)))
       = notifications (db store0)
    /\ (forall n,
          In n (notifications
                  (db (snd (updateProfile (Verified 1) renameBody quietEnv store0)))) ->
          Notification.sender n = 1 ->
          ~ carriesSnapshot ["sender"%string] (toDoc n) (User.firstName user')
              (User.lastName user') (User.profilePicture user')
          /\ carriesSnapshot ["sender"%string]
               (viewDoc (populate
                           (db (snd (updateProfile (Verified 1) renameBody quietEnv store0)))
                           n))
               (User.firstName user') (User.lastName user')
               (User.profilePicture user')).
Proof.
  apply (updateProfile_propagates quietEnv store0
           (snd (updateProfile (Verified 1) renameBody quietEnv store0)) 1 renameBody
           (fst (updateProfile (Verified 1) renameBody quietEnv store0)) alice).
  - reflexivity.
  - reflexivity.
  - apply surjective_pairing.
  - reflexivity.
Defined.

(** C2, as stated, fails: after the successful rename of user 1 the
    notification that user sent is in the store and carries no snapshot of
    the new name. *)
Lemma updateProfile_notification_without_snapshot :
  status (fst (updateProfile (Verified 1) renameBody quietEnv store0)) = 200
  /\ isNameChanged alice renameBody = true
  /\ In note30
        (notifications (db (snd (updateProfile (Verified 1) renameBody quietEnv store0))))
  /\ Notification.sender note30 = 1
  /\ ~ carriesSnapshot ["sender"%string] (toDoc note30) "Alicia" "Adams" "".
Proof.
  repeat split; try (vm_compute; auto; fail).
  apply Notification_no_snapshot.
Qed.

(** C3 fails on the code for PUT /update: the two bulk updates are awaited
    in the route's own [try] block, so when the user record is saved and a
    bulk update then rejects, the caller gets the 500 answer "Server
    error", although the user record keeps the new values. *)
Theorem updateProfile_propagation_failure_surfaces
  (env : Env) (s : Store) (U : ObjectId) (b : ProfileBody) (user : User.t)
  (firstName lastName : string) :
  findById U (users (db s)) = Some user ->
  faults env Auth_User_findById = false ->
  faults env Update_User_findById = false ->
  truthy (b_newPassword b) = None ->
  truthy (b_firstName b) = Some firstName ->
  truthy (b_lastName b) = Some lastName ->
  User.valid (updatedUser user (User.password user) firstName lastName b) = true ->
  faults env Update_User_save = false ->
  isNameChanged user b = true ->
  faults env Update_Post_updateMany = true
  \/ faults env Update_Comment_updateMany = true ->
  fst (updateProfile (Verified U) b env s) = json 500 (Msg "Server error")
  /\ users (db (snd (updateProfile (Verified U) b env s)))
     = overwrite (updatedUser user (User.password user) firstName lastName b)
                 (users (db s)).
Proof.
  destruct s as [d nid]. simpl.
  intros Hu Fa Ff Hpw Hfn Hln Hv Fs Hchanged Hfail.
  pose proof (findById_Some _ _ _ Hu) as [_ Hid]. simpl in Hid.
  unfold updateProfile, authMiddleware, saveProfile. unfold_async. simpl.
  rewrite Fa. simpl. rewrite Hu, Hid, Ff. simpl. rewrite Hu, Hpw. simpl.
  rewrite Hfn. simpl. rewrite Hln. simpl. rewrite Hv. simpl. rewrite Fs. simpl.
  rewrite Hchanged. simpl.
  destruct (faults env Update_Post_updateMany) eqn:Fp; simpl; [auto|].
  destruct Hfail as [Hfail|Hfail]; [discriminate|]. rewrite Hfail. simpl. auto.
Qed.

Lemma updateProfile_propagation_failure_surfaces_witness :
  fst (updateProfile (Verified 1) renameBody (failingAt Update_Post_updateMany) store0)
  = json 500 (Msg "Server error")
  /\ users (db (snd (updateProfile (Verified 1) renameBody
                       (failingAt Update_Post_updateMany) store0)))
     = overwrite (updatedUser alice (User.password alice) "Alicia" "Adams" renameBody)
                 (users (db store0)).
Proof.
  apply (updateProfile_propagation_failure_surfaces
           (failingAt Update_Post_updateMany) store0 1 renameBody alice
           "Alicia" "Adams");
    try reflexivity.
  left. reflexivity.
Defined.

(* ================================================================== *)
(** * POST /upload-avatar                                              *)
(* ================================================================== *)

(** X8.  The sibling route does swallow: once the image is uploaded the answer
    is 200 with the image URL whichever of its four store calls reject. *)
Lemma uploadAvatar_swallows
  (env : Env) (s : Store) (U : ObjectId) (user : User.t) (dataURI url : string) :
  findById U (users (db s)) = Some user ->
  faults env Auth_User_findById = false ->
  cloudinary_upload env dataURI = Some url ->
  fst (uploadAvatar (Verified U) (Some dataURI) env s) = json 200 (ImageUrl url).
Proof.
  destruct s as [d nid]. simpl. intros Hu Fa Hup.
  unfold uploadAvatar, authMiddleware. unfold_async. simpl.
  rewrite Fa. simpl. rewrite Hu, Hup. simpl.
  destruct (faults env Avatar_User_findByIdAndUpdate); simpl; [reflexivity|].
  destruct (faults env Avatar_Post_updateMany); simpl; [reflexivity|].
  destruct (faults env Avatar_Comment_updateMany); simpl; [reflexivity|].
  destruct (faults env Avatar_Notification_updateMany); reflexivity.
Qed.

Lemma uploadAvatar_swallows_witness :
  fst (uploadAvatar (Verified 1) (Some "data:image/png;base64,AAAA"%string)
         (failingAt Avatar_Post_updateMany) store0)
  = json 200 (ImageUrl "data:image/png;base64,AAAA").
Proof.
  apply (uploadAvatar_swallows (failingAt Avatar_Post_updateMany) store0 1 alice
           "data:image/png;base64,AAAA" "data:image/png;base64,AAAA");
    reflexivity.
Defined.

(** X9.  When no call rejects, the picture reaches the user record and every
    post and comment of the user; the notifications are not touched. *)
Lemma uploadAvatar_propagates
  (env : Env) (s : Store) (U : ObjectId) (user : User.t) (dataURI url : string) :
  findById U (users (db s)) = Some user ->
  (forall site, faults env site = false) ->
  cloudinary_upload env dataURI = Some url ->
  db (snd (uploadAvatar (Verified U) (Some dataURI) env s))
  = mkDb (updateOne U (User.set_profilePicture url) (users (db s)))
         (updateMany (Eq ["author"%string] (SId U)) (Post.set_profilePicture url)
            (posts (db s)))
         (updateMany (Eq ["author"%string] (SId U)) (Comment.set_profilePicture url)
            (comments (db s)))
         (notifications (db s)).
Proof.
  destruct s as [d nid]. simpl. intros Hu Hq Hup.
  pose proof (findById_Some _ _ _ Hu) as [_ Hid]. simpl in Hid.
  unfold uploadAvatar, authMiddleware. unfold_async. simpl.
  rewrite !Hq. simpl. rewrite Hu, Hup. simpl. rewrite !Hq. simpl. rewrite Hid.
  unfold withNotifications, withComments, withPosts, withUsers. simpl.
  f_equal. unfold updateMany.
  erewrite map_ext; [apply map_id|].
  intros n. now rewrite selects_Notification_sender_id.
Qed.

Lemma uploadAvatar_propagates_witness :
  db (snd (uploadAvatar (Verified 1) (Some "data:image/png;base64,AAAA"%string)
             quietEnv store0))
  = mkDb (updateOne 1 (User.set_profilePicture "data:image/png;base64,AAAA")
            (users (db store0)))
         (updateMany (Eq ["author"%string] (SId 1))
            (Post.set_profilePicture "data:image/png;base64,AAAA") (posts (db store0)))
         (updateMany (Eq ["author"%string] (SId 1))
            (Comment.set_profilePicture "data:image/png;base64,AAAA")
            (comments (db store0)))
         (notifications (db store0)).
Proof.
  apply (uploadAvatar_propagates quietEnv store0 1 alice
           "data:image/png;base64,AAAA" "data:image/png;base64,AAAA");
    [reflexivity|intros site; reflexivity|reflexivity].
Defined.

(* ================================================================== *)
(** * The subscriber lists stay duplicate free                         *)
(* ================================================================== *)

Section UsersUntouched.

Lemma keepsUsers_ret {A : Type} (a : A) : keepsUsers (ret a).
Proof. intros env s. reflexivity. Qed.

Lemma keepsUsers_throw {A : Type} (e : Error) : keepsUsers (@throw A e).
Proof. intros env s. reflexivity. Qed.

Lemma keepsUsers_ask : keepsUsers ask.
Proof. intros env s. reflexivity. Qed.

Lemma keepsUsers_newObjectId : keepsUsers newObjectId.
Proof. intros env s. reflexivity. Qed.

Lemma keepsUsers_bind {A B : Type} (m : Async A) (k : A -> Async B) :
  keepsUsers m -> (forall a, keepsUsers (k a)) -> keepsUsers (bind m k).
Proof.
  intros Hm Hk env s. unfold bind. specialize (Hm env s).
  destruct (m env s) as [[a|e] s1]; simpl in *; [|exact Hm].
  now rewrite Hk.
Qed.

Lemma keepsUsers_attempt {A : Type} (m : Async A) :
  keepsUsers m -> keepsUsers (attempt m).
Proof.
  intros Hm env s. unfold attempt. specialize (Hm env s).
  now destruct (m env s).
Qed.

Lemma keepsUsers_await {A : Type} (site : Site) (op : Db -> A * Db) :
  (forall d, users (snd (op d)) = users d) -> keepsUsers (await site op).
Proof.
  intros Hop env s. unfold await. destruct (faults env site); [reflexivity|].
  specialize (Hop (db s)). now destruct (op (db s)).
Qed.

Lemma keepsUsers_query {A : Type} (site : Site) (f : Db -> A) :
  keepsUsers (query site f).
Proof. apply keepsUsers_await. reflexivity. Qed.

Lemma keepsUsers_exec (site : Site) (f : Db -> Db) :
  (forall d, users (f d) = users d) -> keepsUsers (exec site f).
Proof. intros Hf. apply keepsUsers_await. exact Hf. Qed.

Lemma keepsUsers_required (o : option string) : keepsUsers (required o).
Proof. unfold required. destruct (truthy o); intros env st; reflexivity. Qed.

Lemma keepsUsers_notNull {A : Type} (o : option A) : keepsUsers (notNull o).
Proof. destruct o; intros env st; reflexivity. Qed.

Lemma keepsUsers_savePost (site : Site) (p : Post.t) : keepsUsers (savePost site p).
Proof.
  unfold savePost. destruct (Post.valid p); [|apply keepsUsers_throw].
  apply keepsUsers_exec. reflexivity.
Qed.

Lemma keepsUsers_saveNewPost (site : Site) (p : Post.t) :
  keepsUsers (saveNewPost site p).
Proof.
  unfold saveNewPost. destruct (Post.valid p); [|apply keepsUsers_throw].
  apply keepsUsers_exec. reflexivity.
Qed.

Lemma keepsUsers_saveNewNotification (site : Site) (i : Notification.input) :
  keepsUsers (saveNewNotification site i).
Proof.
  unfold saveNewNotification.
  apply keepsUsers_bind; [apply keepsUsers_newObjectId|intros id].
  apply keepsUsers_bind; [apply keepsUsers_ask|intros env].
  apply keepsUsers_exec. reflexivity.
Qed.

Lemma keepsUsers_insertManyNotifications (site : Site) (l : list Notification.input) :
  keepsUsers (insertManyNotifications site l).
Proof.
  intros env s. unfold insertManyNotifications.
  destruct (faults env site); reflexivity.
Qed.

Lemma routeKeepsUsers_tryCatch (m : Async Response) (handler : Error -> Response) :
  keepsUsers m -> routeKeepsUsers (tryCatch m handler).
Proof.
  intros Hm env s. unfold tryCatch. specialize (Hm env s).
  now destruct (m env s) as [[r|e] s1].
Qed.

Lemma routeKeepsUsers_authMiddleware (c : Credential) (next : User.t -> Handler) :
  (forall u, routeKeepsUsers (next u)) -> routeKeepsUsers (authMiddleware c next).
Proof.
  intros Hnext env s. destruct c as [| |id]; simpl; [reflexivity|reflexivity|].
  unfold query, await. destruct (faults env Auth_User_findById); [reflexivity|].
  simpl. destruct (findById id (users (db s))) as [u|]; [|reflexivity].
  now rewrite Hnext.
Qed.

Ltac keeps_users :=
  repeat first
    [ apply keepsUsers_ret
    | apply keepsUsers_throw
    | apply keepsUsers_ask
    | apply keepsUsers_newObjectId
    | apply keepsUsers_query
    | apply keepsUsers_required
    | apply keepsUsers_notNull
    | apply keepsUsers_savePost
    | apply keepsUsers_saveNewPost
    | apply keepsUsers_saveNewNotification
    | apply keepsUsers_insertManyNotifications
    | apply keepsUsers_attempt
    | apply keepsUsers_bind
    | match goal with
      | |- forall _, _ => intro
      | |- keepsUsers (match ?x with _ => _ end) => destruct x
      | |- keepsUsers (if ?x then _ else _) => destruct x
      end ].

Lemma createPost_users (c : Credential) (b : PostBody) (file : option string) :
  routeKeepsUsers (createPost c b file).
Proof.
  unfold createPost. apply routeKeepsUsers_authMiddleware. intros requser.
  apply routeKeepsUsers_tryCatch. cbv zeta. keeps_users.
Qed.

Lemma editPost_users (c : Credential) (id : ObjectId) (b : PostBody)
  (file : option string) :
  routeKeepsUsers (editPost c id b file).
Proof.
  unfold editPost. apply routeKeepsUsers_authMiddleware. intros requser.
  apply routeKeepsUsers_tryCatch. cbv zeta. keeps_users.
Qed.

Lemma toggleLike_users (c : Credential) (id : ObjectId) :
  routeKeepsUsers (toggleLike c id).
Proof.
  unfold toggleLike. apply routeKeepsUsers_authMiddleware. intros requser.
  apply routeKeepsUsers_tryCatch. cbv zeta. keeps_users.
Qed.

Lemma listNotifications_users (c : Credential) :
  routeKeepsUsers (listNotifications c).
Proof.
  unfold listNotifications. apply routeKeepsUsers_authMiddleware. intros requser.
  apply routeKeepsUsers_tryCatch. keeps_users.
Qed.

End UsersUntouched.

Section SubscribersNoDup.

Lemma subscribersNoDup_same_users (d d' : Db) :
  users d' = users d -> subscribersNoDup d -> subscribersNoDup d'.
Proof. unfold subscribersNoDup. intros ->. auto. Qed.

Lemma subscribersNoDup_overwrite (d : Db) (x : User.t) (ps : list Post.t)
  (cs : list Comment.t) (ns : list Notification.t) :
  subscribersNoDup d ->
  NoDup (User.subscribers x) ->
  subscribersNoDup (mkDb (overwrite x (users d)) ps cs ns).
Proof.
  intros Hok Hnd u Hu. simpl in Hu.
  apply in_overwrite in Hu. destruct Hu as [->|Hu]; auto.
Qed.

Lemma NoDup_snoc (a : ObjectId) (l : list ObjectId) :
  NoDup l -> ~ In a l -> NoDup (l ++ [a]).
Proof.
  intros Hnd Hin. apply NoDup_app; [exact Hnd|repeat constructor; tauto|].
  intros x Hx [<-|[]]. contradiction.
Qed.

Lemma in_updateOne {T : Type} `{Schema T} (i : ObjectId) (upd : T -> T)
  (c : list T) (y : T) :
  In y (updateOne i upd c) -> exists x, In x c /\ (y = x \/ y = upd x).
Proof.
  induction c as [|z c IH]; simpl; [tauto|].
  destruct (selects (Eq ["_id"%string] (SId i)) z); simpl.
  - intros [Hy|Hin]; [exists z; auto|exists y; auto].
  - intros [Hy|Hin]; [exists z; auto|].
    destruct (IH Hin) as [x [Hx Hy]]. exists x. auto.
Qed.

Lemma toggleSubscription_subscribersNoDup (c : Credential) (userId : string)
  (env : Env) (s : Store) :
  subscribersNoDup (db s) ->
  subscribersNoDup (db (snd (toggleSubscription c userId env s))).
Proof.
  destruct s as [d nid]. simpl. intros Hok.
  destruct c as [| |A]; [exact Hok|exact Hok|].
  unfold toggleSubscription, authMiddleware, castId. unfold_async. simpl.
  destruct (faults env Auth_User_findById); simpl; [exact Hok|].
  destruct (findById A (users d)) as [a|] eqn:Ha; [|exact Hok].
  destruct (Id.cast userId) as [T|]; simpl; [|exact Hok].
  destruct (faults env Subscribe_User_findById); simpl; [exact Hok|].
  destruct (findById T (users d)) as [t|] eqn:Ht; [|exact Hok].
  destruct (String.eqb (Id.toString (User._id a)) userId); [exact Hok|].
  pose proof (findById_Some _ _ _ Ht) as [Hin HidT]. simpl in HidT.
  pose proof (Hok t Hin) as Hnd.
  destruct (existsb (fun id => Nat.eqb id (User._id a)) (User.subscribers t)) eqn:Em;
    simpl.
  - destruct (User.valid _); simpl; [|exact Hok].
    destruct (faults env Subscribe_User_save); simpl; [exact Hok|].
    apply subscribersNoDup_overwrite; simpl; [exact Hok|now apply NoDup_filter].
  - assert (Hfresh : ~ In (User._id a) (User.subscribers t)).
    { rewrite <- existsb_eqb_sym in Em. now apply existsb_eqb_false. }
    assert (Hgoal : forall ps cs ns,
               subscribersNoDup
                 (mkDb (overwrite
                          (User.set_subscribers (User.subscribers t ++ [User._id a])
                             (User.withDefaults t))
                          (users d)) ps cs ns)).
    { intros ps cs ns. apply subscribersNoDup_overwrite; simpl;
        [exact Hok|now apply NoDup_snoc]. }
    destruct (faults env Subscribe_Notification_save); simpl;
      (destruct (User.valid _); simpl; [|exact Hok]);
      (destruct (faults env Subscribe_User_save); simpl; [exact Hok|]);
      apply Hgoal.
Qed.

Lemma updateProfile_subscribersNoDup (c : Credential) (b : ProfileBody)
  (env : Env) (s : Store) :
  subscribersNoDup (db s) ->
  subscribersNoDup (db (snd (updateProfile c b env s))).
Proof.
  destruct s as [d nid]. simpl. intros Hok.
  destruct c as [| |A]; [exact Hok|exact Hok|].
  unfold updateProfile, authMiddleware, saveProfile. unfold_async. simpl.
  destruct (faults env Auth_User_findById); simpl; [exact Hok|].
  destruct (findById A (users d)) as [a|] eqn:Ha; [|exact Hok].
  destruct (faults env Update_User_findById); simpl; [exact Hok|].
  destruct (findById (User._id a) (users d)) as [user|] eqn:Hu; [|exact Hok].
  pose proof (findById_Some _ _ _ Hu) as [Hin _].
  pose proof (Hok user Hin) as Hnd.
  assert (Hgoal : forall pw fn ln ps cs ns,
             subscribersNoDup
               (mkDb (overwrite (updatedUser user pw fn ln b) (users d)) ps cs ns)).
  { intros. now apply subscribersNoDup_overwrite. }
  simpl.
  destruct (truthy (b_newPassword b));
    [destruct (b_currentPassword b); simpl; [|exact Hok];
     destruct (bcrypt_compare env _ _); simpl; [|exact Hok]|];
    (destruct (truthy (b_firstName b)); simpl; [|exact Hok]);
    (destruct (truthy (b_lastName b)); simpl; [|exact Hok]);
    (destruct (User.valid _); simpl; [|exact Hok]);
    (destruct (faults env Update_User_save); simpl; [exact Hok|]);
    (destruct (isNameChanged user b); simpl; [|apply Hgoal]);
    (destruct (faults env Update_Post_updateMany); simpl; [apply Hgoal|]);
    destruct (faults env Update_Comment_updateMany); simpl; apply Hgoal.
Qed.

Lemma uploadAvatar_subscribersNoDup (c : Credential) (file : option string)
  (env : Env) (s : Store) :
  subscribersNoDup (db s) ->
  subscribersNoDup (db (snd (uploadAvatar c file env s))).
Proof.
  destruct s as [d nid]. simpl. intros Hok.
  destruct c as [| |A]; [exact Hok|exact Hok|].
  unfold uploadAvatar, authMiddleware. unfold_async. simpl.
  destruct (faults env Auth_User_findById); simpl; [exact Hok|].
  destruct (findById A (users d)) as [a|] eqn:Ha; [|exact Hok].
  destruct file as [dataURI|]; simpl; [|exact Hok].
  destruct (cloudinary_upload env dataURI) as [url|]; simpl; [|exact Hok].
  assert (Hgoal : forall ps cs ns,
             subscribersNoDup
               (mkDb (updateOne (User._id a) (User.set_profilePicture url) (users d))
                     ps cs ns)).
  { intros ps cs ns u Hu. simpl in Hu. apply in_updateOne in Hu.
    destruct Hu as [x [Hx [->| ->]]]; simpl; now apply Hok. }
  destruct (faults env Avatar_User_findByIdAndUpdate); simpl; [exact Hok|].
  destruct (faults env Avatar_Post_updateMany); simpl; [apply Hgoal|].
  destruct (faults env Avatar_Comment_updateMany); simpl; [apply Hgoal|].
  destruct (faults env Avatar_Notification_updateMany); simpl; apply Hgoal.
Qed.

Lemma runSteps_preserves (P : Db -> Prop) (rejects : Site -> bool)
  (steps : list (Site * (Db -> Db))) (d : Db) :
  (forall st d', In st steps -> P d' -> P (snd st d')) ->
  P d -> P (snd (runSteps rejects steps d)).
Proof.
  revert d. induction steps as [|[site f] steps IH]; intros d Hstep Hd; simpl;
    [exact Hd|].
  destruct (rejects site); [exact Hd|].
  apply IH.
  - intros st d' Hst. apply Hstep. now right.
  - apply (Hstep (site, f)); [now left|exact Hd].
Qed.

Lemma cascade_subscribersNoDup (U : ObjectId) (d : Db) (st : Site * (Db -> Db))
  (d' : Db) :
  In st (cascade U d) -> subscribersNoDup d' -> subscribersNoDup (snd st d').
Proof.
  unfold cascade. intros Hin Hok.
  apply in_app_or in Hin. destruct Hin as [[<-|[]]|Hin]; [exact Hok|].
  apply in_app_or in Hin. destruct Hin as [Hin|Hin].
  - apply in_map_iff in Hin. destruct Hin as [p [<- _]]. exact Hok.
  - destruct Hin as [<-|[<-|[<-|[<-|[<-|[]]]]]]; simpl; try exact Hok.
    + intros u Hu. simpl in Hu. apply in_updateMany in Hu.
      destruct Hu as [x [Hx [[_ ->]|[_ ->]]]].
      * simpl. apply NoDup_filter. now apply Hok.
      * now apply Hok.
    + intros u Hu. simpl in Hu. apply in_deleteOne in Hu. now apply Hok.
Qed.

Lemma deleteAccount_subscribersNoDup (c : Credential) (env : Env) (s : Store) :
  subscribersNoDup (db s) ->
  subscribersNoDup (db (snd (deleteAccount c env s))).
Proof.
  intros Hok. destruct c as [| |U]; [exact Hok|exact Hok|].
  destruct (faults env Auth_User_findById) eqn:Fa;
    [|destruct (findById U (users (db s))) as [a|] eqn:Ha].
  - unfold deleteAccount, authMiddleware, query, await. rewrite Fa. exact Hok.
  - rewrite (deleteAccount_runSteps _ _ _ _ Ha Fa).
    pose proof (runSteps_preserves subscribersNoDup (faults env)
                  (cascade U (db s)) (db s)
                  (fun st d' => cascade_subscribersNoDup U (db s) st d') Hok) as Hrun.
    destruct (runSteps (faults env) (cascade U (db s)) (db s)) as [[site|] d'];
      exact Hrun.
  - unfold deleteAccount, authMiddleware, query, await. rewrite Fa.
    destruct s as [d nid]. simpl in *. rewrite Ha. exact Hok.
Qed.

End SubscribersNoDup.

(** Every route of [serve] keeps the subscriber lists duplicate free,
    whatever the outcome of the run, and so does every sequence of
    requests. *)
Lemma serve_subscribersNoDup (c : Credential) (q : Request) (env : Env) (s : Store) :
  subscribersNoDup (db s) -> subscribersNoDup (db (snd (serve c q env s))).
Proof.
  intros Hok. destruct q; simpl.
  - now apply updateProfile_subscribersNoDup.
  - now apply uploadAvatar_subscribersNoDup.
  - now apply toggleSubscription_subscribersNoDup.
  - now apply deleteAccount_subscribersNoDup.
  - eapply subscribersNoDup_same_users; [apply createPost_users|exact Hok].
  - eapply subscribersNoDup_same_users; [apply editPost_users|exact Hok].
  - eapply subscribersNoDup_same_users; [apply toggleLike_users|exact Hok].
  - eapply subscribersNoDup_same_users; [apply listNotifications_users|exact Hok].
Qed.

Lemma serveAll_subscribersNoDup (l : list (Env * Credential * Request)) (s : Store) :
  subscribersNoDup (db s) -> subscribersNoDup (db (serveAll l s)).
Proof.
  revert s. induction l as [|[[env c] q] l IH]; intros s Hok; simpl; [exact Hok|].
  apply IH. now apply serve_subscribersNoDup.
Qed.

(* ================================================================== *)
(** * Routes that only read                                            *)
(* ================================================================== *)

#[export] Instance Comment_Lawful : LawfulSchema Comment.t.
Proof. intros i x. unfold selects; simpl. now rewrite orb_false_r. Qed.

#[export] Instance Notification_Lawful : LawfulSchema Notification.t.
Proof. intros i x. unfold selects; simpl. now rewrite orb_false_r. Qed.

Section PureFacts.

Lemma pureAsync_ret {A : Type} (a : A) : pureAsync (ret a).
Proof. intros env s. reflexivity. Qed.

Lemma pureAsync_throw {A : Type} (e : Error) : pureAsync (@throw A e).
Proof. intros env s. reflexivity. Qed.

Lemma pureAsync_ask : pureAsync ask.
Proof. intros env s. reflexivity. Qed.

Lemma pureAsync_query {A : Type} (site : Site) (f : Db -> A) :
  pureAsync (query site f).
Proof.
  intros env s. unfold query, await. destruct (faults env site); [reflexivity|].
  now destruct s.
Qed.

Lemma pureAsync_bind {A B : Type} (m : Async A) (k : A -> Async B) :
  pureAsync m -> (forall a, pureAsync (k a)) -> pureAsync (bind m k).
Proof.
  intros Hm Hk env s. unfold bind. specialize (Hm env s).
  destruct (m env s) as [[a|e] s1]; simpl in *; subst s1; [apply Hk|reflexivity].
Qed.

Lemma pureAsync_notNull {A : Type} (o : option A) : pureAsync (notNull o).
Proof. destruct o; intros env st; reflexivity. Qed.

Lemma readOnly_tryCatch (m : Async Response) (handler : Error -> Response) :
  pureAsync m -> readOnly (tryCatch m handler).
Proof.
  intros Hm env s. unfold tryCatch. specialize (Hm env s).
  now destruct (m env s) as [[r|e] s1].
Qed.

Lemma readOnly_authMiddleware (c : Credential) (next : User.t -> Handler) :
  (forall u, readOnly (next u)) -> readOnly (authMiddleware c next).
Proof.
  intros Hnext env s. destruct c as [| |id]; simpl; [reflexivity|reflexivity|].
  pose proof (pureAsync_query Auth_User_findById
                (fun d => findById id (users d)) env s) as Hq.
  destruct (query Auth_User_findById (fun d => findById id (users d)) env s)
    as [[[u|]|e] s1]; simpl in *; subst s1; [apply Hnext|reflexivity|reflexivity].
Qed.

End PureFacts.

Ltac read_only :=
  apply readOnly_authMiddleware; intros ?requser;
  apply readOnly_tryCatch;
  repeat first
    [ apply pureAsync_ret
    | apply pureAsync_throw
    | apply pureAsync_ask
    | apply pureAsync_query
    | apply pureAsync_notNull
    | apply pureAsync_bind
    | match goal with
      | |- forall _, _ => intro
      | |- pureAsync (match ?x with _ => _ end) => destruct x
      | |- pureAsync (if ?x then _ else _) => destruct x
      | |- pureAsync (let (_, _) := ?x in _) => destruct x
      end ].

(** X6.  The routes that only read leave the store exactly as it was, whatever
    the credential, the arguments and the store calls that reject: the
    profile, subscription status, single post, likes, comments and
    notification reads, the token refresh and the content improvement. *)
Theorem reading_routes_leave_store
  (c : Credential) (env : Env) (s : Store) :
  (forall userId, snd (getProfile c userId env s) = s)
  /\ (forall userId, snd (getSubscriptionStatus c userId env s) = s)
  /\ (forall id, snd (getPost c id env s) = s)
  /\ (forall id, snd (getLikes c id env s) = s)
  /\ (forall id, snd (getComments c id env s) = s)
  /\ snd (listNotifications c env s) = s
  /\ (forall user, snd (refreshToken c user env s) = s)
  /\ (forall textgears content, snd (improveContent c textgears content env s) = s).
Proof.
  repeat split; intros.
  - revert env s. change (readOnly (getProfile c userId)).
    unfold getProfile. read_only.
  - revert env s. change (readOnly (getSubscriptionStatus c userId)).
    unfold getSubscriptionStatus. read_only.
  - revert env s. change (readOnly (getPost c id)).
    unfold getPost. read_only.
  - revert env s. change (readOnly (getLikes c id)).
    unfold getLikes. read_only.
  - revert env s. change (readOnly (getComments c id)).
    unfold getComments. read_only.
  - revert env s. change (readOnly (listNotifications c)).
    unfold listNotifications. read_only.
  - revert env s. change (readOnly (refreshToken c user)).
    unfold refreshToken. read_only.
  - revert env s. change (readOnly (improveContent c textgears content)).
    unfold improveContent. read_only.
Qed.

(* ================================================================== *)
(** * middleware/auth.js                                               *)
(* ================================================================== *)

Lemma authMiddleware_refuses (c : Credential) (next : User.t -> Handler)
  (env : Env) (s : Store) :
  authenticates c env s = None ->
  status (fst (authMiddleware c next env s)) = 401
  /\ snd (authMiddleware c next env s) = s.
Proof.
  destruct s as [d nid].
  destruct c as [| |id]; simpl; [auto|auto|].
  unfold query, await. destruct (faults env Auth_User_findById); simpl; [auto|].
  intros ->. auto.
Qed.

Lemma authMiddleware_attaches (c : Credential) (next : User.t -> Handler)
  (env : Env) (s : Store) (user : User.t) :
  authenticates c env s = Some user ->
  authMiddleware c next env s = next user env s.
Proof.
  destruct s as [d nid].
  destruct c as [| |id]; simpl; [discriminate|discriminate|].
  unfold query, await. destruct (faults env Auth_User_findById); simpl; [discriminate|].
  now intros ->.
Qed.

(** X1.  A request without a token, with a token that does not verify, with
    the token of a user who is no longer stored, or whose user look-up
    rejects, gets 401 from every route behind the middleware and changes
    nothing. *)
Theorem unauthenticated_request_refused
  (c : Credential) (env : Env) (s : Store) :
  authenticates c env s = None ->
  (forall q : Request,
      status (fst (serve c q env s)) = 401 /\ snd (serve c q env s) = s)
  /\ (forall q : MoreRequest,
         status (fst (serveMore c q env s)) = 401 /\ snd (serveMore c q env s) = s).
Proof.
  intros Hno. split; intros q; destruct q; simpl;
    now apply authMiddleware_refuses.
Qed.

Lemma unauthenticated_request_refused_witness :
  (forall q : Request,
      status (fst (serve (Verified 99) q quietEnv store0)) = 401
      /\ snd (serve (Verified 99) q quietEnv store0) = store0)
  /\ (forall q : MoreRequest,
         status (fst (serveMore (Verified 99) q quietEnv store0)) = 401
         /\ snd (serveMore (Verified 99) q quietEnv store0) = store0).
Proof.
  apply (unauthenticated_request_refused (Verified 99) quietEnv store0).
  reflexivity.
Defined.

(* ================================================================== *)
(** * Who may change a post                                            *)
(* ================================================================== *)

(** X13.  Only the author edits or deletes a post: for any other user both
    routes leave the store as it was in every run, and answer 403 when
    the user is authenticated and the look-up of the post goes through. *)
Theorem only_author_edits_or_deletes
  (env : Env) (s : Store) (U id : ObjectId) (post : Post.t)
  (b : PostBody) (file : option string) :
  findById id (posts (db s)) = Some post ->
  Post.author post <> U ->
  snd (editPost (Verified U) id b file env s) = s
  /\ snd (deletePost (Verified U) id env s) = s
  /\ (forall user, authenticates (Verified U) env s = Some user ->
        (faults env Edit_Post_findById = false ->
         fst (editPost (Verified U) id b file env s)
         = json 403 (Msg "Not authorized to edit this post"))
        /\ (faults env DeletePost_Post_findById = false ->
            fst (deletePost (Verified U) id env s)
            = json 403 (Msg "Not authorized to delete this post"))).
Proof.
  intros Hp Hother.
  destruct (authenticates (Verified U) env s) as [user|] eqn:Hauth.
  - assert (Hid : User._id user = U).
    { simpl in Hauth. destruct (faults env Auth_User_findById); [discriminate|].
      now apply (findById_Some _ _ _ Hauth). }
    assert (Hneq : Nat.eqb (Post.author post) (User._id user) = false).
    { apply Nat.eqb_neq. congruence. }
    unfold editPost, deletePost.
    rewrite !(authMiddleware_attaches _ _ _ _ _ Hauth).
    destruct s as [d nid]. simpl in Hp.
    unfold_async. simpl.
    split; [|split].
    + destruct (faults env Edit_Post_findById); simpl; [reflexivity|].
      rewrite Hp, Hneq. reflexivity.
    + destruct (faults env DeletePost_Post_findById); simpl; [reflexivity|].
      rewrite Hp, Hneq. reflexivity.
    + intros user' _. split; intros ->; simpl; rewrite Hp, Hneq; reflexivity.
  - unfold editPost, deletePost. split; [|split].
    + now apply authMiddleware_refuses.
    + now apply authMiddleware_refuses.
    + intros user' H. discriminate.
Qed.

Lemma only_author_edits_or_deletes_witness :
  snd (editPost (Verified 2) 10 newsBody None quietEnv store0) = store0
  /\ snd (deletePost (Verified 2) 10 quietEnv store0) = store0
  /\ (forall user, authenticates (Verified 2) quietEnv store0 = Some user ->
        (faults quietEnv Edit_Post_findById = false ->
         fst (editPost (Verified 2) 10 newsBody None quietEnv store0)
         = json 403 (Msg "Not authorized to edit this post"))
        /\ (faults quietEnv DeletePost_Post_findById = false ->
            fst (deletePost (Verified 2) 10 quietEnv store0)
            = json 403 (Msg "Not authorized to delete this post"))).
Proof.
  apply (only_author_edits_or_deletes quietEnv store0 2 10 post10 newsBody None).
  - reflexivity.
  - simpl. discriminate.
Defined.

(* ================================================================== *)
(** * DELETE /:id (delete post)                                        *)
(* ================================================================== *)

(** What a successful run of the route did. *)
Lemma deletePost_ok
  (env : Env) (s s' : Store) (U id : ObjectId) (r : Response) :
  deletePost (Verified U) id env s = (r, s') ->
  status r = 200 ->
  exists post : Post.t,
    findById id (posts (db s)) = Some post
    /\ Post.author post = U
    /\ users (db s') = users (db s)
    /\ posts (db s') = deleteOne id (posts (db s))
    /\ comments (db s') = deleteMany (Eq ["post"%string] (SId id)) (comments (db s))
    /\ notifications (db s') = notifications (db s).
Proof.
  destruct s as [d nid].
  unfold deletePost, authMiddleware. unfold_async. simpl.
  destruct (faults env Auth_User_findById); simpl;
    [intros E; inversion E; subst; discriminate|].
  destruct (findById U (users d)) as [a|] eqn:Ha;
    [|intros E; inversion E; subst; discriminate].
  apply findById_Some in Ha. destruct Ha as [_ Ha]. simpl in Ha. rewrite Ha.
  clear Ha a.
  destruct (faults env DeletePost_Post_findById); simpl;
    [intros E; inversion E; subst; discriminate|].
  destruct (findById id (posts d)) as [post|] eqn:Hp;
    [|intros E; inversion E; subst; discriminate].
  pose proof (findById_Some _ _ _ Hp) as [_ Hid]. simpl in Hid. rewrite Hid.
  destruct (Nat.eqb (Post.author post) U) eqn:Hown; simpl;
    [|intros E; inversion E; subst; discriminate].
  apply Nat.eqb_eq in Hown.
  destruct (faults env DeletePost_Comment_deleteMany); simpl;
    [intros E; inversion E; subst; discriminate|].
  destruct (faults env DeletePost_Post_deleteOne); simpl;
    intros E; inversion E; subst; [discriminate|].
  intros _. exists post. simpl. auto 10.
Qed.

(** X14.  A successful deletion of a post removes the post and every comment
    under it and nothing else of the comments; the users and the
    notifications, those about the post included, stay as they were. *)
Theorem deletePost_removes_post_and_comments
  (env : Env) (s s' : Store) (U id : ObjectId) (r : Response) :
  deletePost (Verified U) id env s = (r, s') ->
  status r = 200 ->
  (forall c, In c (comments (db s')) <->
             In c (comments (db s)) /\ Comment.post c <> id)
  /\ (NoDup (map Post._id (posts (db s))) ->
      findById id (posts (db s')) = None
      /\ forall p, In p (posts (db s')) <-> In p (posts (db s)) /\ Post._id p <> id)
  /\ notifications (db s') = notifications (db s)
  /\ users (db s') = users (db s).
Proof.
  intros Hrun Hr.
  destruct (deletePost_ok _ _ _ _ _ _ Hrun Hr)
    as (post & Hp & _ & Husers & Hposts & Hcomments & Hnotes).
  split; [|split; [|split; assumption]].
  - intros c. rewrite Hcomments. unfold deleteMany. rewrite filter_In.
    rewrite selects_Comment_post, negb_true_iff, Nat.eqb_neq.
    split; intros [H1 H2]; split; auto.
  - intros Hnd. rewrite Hposts.
    assert (Hgone : forall p, In p (deleteOne id (posts (db s))) -> Post._id p <> id).
    { intros p Hin. change (Post._id p) with (idOf p).
      apply (deleteOne_gone (T := Post.t)) with (c := posts (db s));
        [exact Hnd|exact Hin]. }
    split.
    + destruct (findById id (deleteOne id (posts (db s)))) as [p|] eqn:Hf;
        [|reflexivity].
      apply findById_Some in Hf. destruct Hf as [Hin Hid]. simpl in Hid.
      exfalso. now apply (Hgone p).
    + intros p. split.
      * intros Hin. split; [now apply in_deleteOne in Hin|now apply Hgone].
      * intros [Hin Hne]. clear Hgone Hp Hposts Hnd.
        induction (posts (db s)) as [|x l IH]; simpl in *; [contradiction|].
        rewrite selects_Post_id.
        destruct (Nat.eqb id (Post._id x)) eqn:E.
        -- apply Nat.eqb_eq in E. destruct Hin as [->|Hin]; [congruence|exact Hin].
        -- destruct Hin as [->|Hin]; [now left|right; now apply IH].
Qed.

Lemma deletePost_removes_post_and_comments_witness :
  (forall c, In c (comments (db (snd (deletePost (Verified 1) 10 quietEnv store0)))) <->
             In c (comments (db store0)) /\ Comment.post c <> 10)
  /\ (NoDup (map Post._id (posts (db store0))) ->
      findById 10 (posts (db (snd (deletePost (Verified 1) 10 quietEnv store0)))) = None
      /\ forall p, In p (posts (db (snd (deletePost (Verified 1) 10 quietEnv store0))))
                   <-> In p (posts (db store0)) /\ Post._id p <> 10)
  /\ notifications (db (snd (deletePost (Verified 1) 10 quietEnv store0)))
     = notifications (db store0)
  /\ users (db (snd (deletePost (Verified 1) 10 quietEnv store0))) = users (db store0).
Proof.
  exact (deletePost_removes_post_and_comments quietEnv store0
           (snd (deletePost (Verified 1) 10 quietEnv store0)) 1 10
           (fst (deletePost (Verified 1) 10 quietEnv store0))
           (surjective_pairing _) eq_refl).
Defined.

(* ================================================================== *)
(** * POST /:id/comments (add comment)                                 *)
(* ================================================================== *)

(** What a successful run of the route did. *)
Lemma addComment_ok
  (env : Env) (s s' : Store) (U id : ObjectId) (content : option string)
  (r : Response) :
  addComment (Verified U) id content env s = (r, s') ->
  status r = 201 ->
  exists (a : User.t) (post : Post.t) (text : string),
    findById U (users (db s)) = Some a
    /\ findById id (posts (db s)) = Some post
    /\ truthy content = Some text
    /\ r = json 201
             (CommentJson
                (Comment.mk (nextId s) text id U (User.firstName a) (User.lastName a)
                            (User.profilePicture a) (now env)))
    /\ users (db s') = users (db s)
    /\ posts (db s') = posts (db s)
    /\ comments (db s')
       = comments (db s)
         ++ [Comment.mk (nextId s) text id U (User.firstName a) (User.lastName a)
                        (User.profilePicture a) (now env)]
    /\ notifications (db s')
       = notifications (db s)
         ++ (if Nat.eqb (Post.author post) U then []
             else [Notification.create (S (nextId s)) (now env)
                     (Notification.mkInput (Post.author post) U (Some id)
                        Notification.comment)]).
Proof.
  destruct s as [d nid].
  unfold addComment, authMiddleware. unfold_async. unfold saveNewComment, exec, await.
  simpl.
  destruct (faults env Auth_User_findById); simpl;
    [intros E; inversion E; subst; discriminate|].
  destruct (findById U (users d)) as [a|] eqn:Ha;
    [|intros E; inversion E; subst; discriminate].
  pose proof (findById_Some _ _ _ Ha) as [_ Hid]. simpl in Hid. rewrite Hid.
  destruct (faults env AddComment_Post_findById); simpl;
    [intros E; inversion E; subst; discriminate|].
  destruct (findById id (posts d)) as [post|] eqn:Hp;
    [|intros E; inversion E; subst; discriminate].
  pose proof (findById_Some _ _ _ Hp) as [_ Hpid]. simpl in Hpid. rewrite Hpid.
  clear Hid Hpid.
  destruct (truthy content) as [text|] eqn:Hc; simpl;
    [|intros E; inversion E; subst; discriminate].
  destruct (Comment.valid _); simpl; [|intros E; inversion E; subst; discriminate].
  destruct (faults env AddComment_Comment_save); simpl;
    [intros E; inversion E; subst; discriminate|].
  destruct (Nat.eqb (Post.author post) U) eqn:Hown; simpl.
  - intros E; inversion E; subst. intros _.
    exists a, post, text. simpl. rewrite Hown, app_nil_r. auto 10.
  - destruct (faults env AddComment_Notification_save); simpl;
      intros E; inversion E; subst; [discriminate|].
    intros _. exists a, post, text. simpl. rewrite Hown. auto 10.
Qed.

(** X17.  A successful comment is stored under the post with the commenter's
    name and picture as they are at that moment, and the post's author is
    notified with exactly one notification of kind [comment], unless the
    author is the commenter; posts and users are not touched. *)
Theorem addComment_stores_and_notifies
  (env : Env) (s s' : Store) (U id : ObjectId) (content : option string)
  (r : Response) (a : User.t) (post : Post.t) :
  findById U (users (db s)) = Some a ->
  findById id (posts (db s)) = Some post ->
  addComment (Verified U) id content env s = (r, s') ->
  status r = 201 ->
  exists comment : Comment.t,
    r = json 201 (CommentJson comment)
    /\ comments (db s') = comments (db s) ++ [comment]
    /\ Comment.post comment = id
    /\ Comment.author comment = U
    /\ Some (Comment.content comment) = content
    /\ carriesSnapshot [] (toDoc comment) (User.firstName a) (User.lastName a)
         (User.profilePicture a)
    /\ (Post.author post = U -> notifications (db s') = notifications (db s))
    /\ (Post.author post <> U ->
        exists n, notifications (db s') = notifications (db s) ++ [n]
                  /\ Notification.type n = Notification.comment
                  /\ Notification.recipient n = Post.author post
                  /\ Notification.sender n = U
                  /\ Notification.post n = Some id
                  /\ Notification.read n = false)
    /\ posts (db s') = posts (db s)
    /\ users (db s') = users (db s).
Proof.
  intros Ha Hp Hrun Hr.
  destruct (addComment_ok _ _ _ _ _ _ _ Hrun Hr)
    as (a' & post' & text & Ha' & Hp' & Hc & Hresp & Husers & Hposts & Hcomments & Hnotes).
  rewrite Ha in Ha'. inversion Ha'; subst a'.
  rewrite Hp in Hp'. inversion Hp'; subst post'.
  eexists. split; [exact Hresp|]. split; [exact Hcomments|]. simpl.
  split; [reflexivity|]. split; [reflexivity|].
  split; [symmetry; now apply truthy_Some|].
  split; [now apply carriesSnapshot_Comment|].
  split; [|split; [|split; assumption]].
  - intros Hown. rewrite Hnotes, Hown, Nat.eqb_refl. apply app_nil_r.
  - intros Hother. apply Nat.eqb_neq in Hother. rewrite Hother in Hnotes.
    eexists. split; [exact Hnotes|]. simpl. auto.
Qed.

Lemma addComment_stores_and_notifies_witness :
  exists comment : Comment.t,
    fst (addComment (Verified 2) 10 (Some "thanks"%string) quietEnv store0)
    = json 201 (CommentJson comment)
    /\ comments (db (snd (addComment (Verified 2) 10 (Some "thanks"%string) quietEnv store0)))
       = comments (db store0) ++ [comment]
    /\ Comment.post comment = 10
    /\ Comment.author comment = 2
    /\ Some (Comment.content comment) = Some "thanks"%string
    /\ carriesSnapshot [] (toDoc comment) (User.firstName bob) (User.lastName bob)
         (User.profilePicture bob)
    /\ (Post.author post10 = 2 ->
        notifications (db (snd (addComment (Verified 2) 10 (Some "thanks"%string)
                                  quietEnv store0)))
        = notifications (db store0))
    /\ (Post.author post10 <> 2 ->
        exists n,
          notifications (db (snd (addComment (Verified 2) 10 (Some "thanks"%string)
                                    quietEnv store0)))
          = notifications (db store0) ++ [n]
          /\ Notification.type n = Notification.comment
          /\ Notification.recipient n = Post.author post10
          /\ Notification.sender n = 2
          /\ Notification.post n = Some 10
          /\ Notification.read n = false)
    /\ posts (db (snd (addComment (Verified 2) 10 (Some "thanks"%string) quietEnv store0)))
       = posts (db store0)
    /\ users (db (snd (addComment (Verified 2) 10 (Some "thanks"%string) quietEnv store0)))
       = users (db store0).
Proof.
  exact (addComment_stores_and_notifies quietEnv store0
           (snd (addComment (Verified 2) 10 (Some "thanks"%string) quietEnv store0))
           2 10 (Some "thanks"%string)
           (fst (addComment (Verified 2) 10 (Some "thanks"%string) quietEnv store0))
           bob post10 eq_refl eq_refl (surjective_pairing _) eq_refl).
Defined.

(** X18.  The notification of a comment is awaited in the route's own [try]:
    when it rejects the caller gets 500 "Error creating comment" although
    the comment is already stored, and stays stored. *)
Theorem addComment_notification_failure_keeps_comment
  (env : Env) (s : Store) (U id : ObjectId) (text : string)
  (a : User.t) (post : Post.t) :
  authenticates (Verified U) env s = Some a ->
  findById id (posts (db s)) = Some post ->
  Post.author post <> U ->
  faults env AddComment_Post_findById = false ->
  Comment.valid (Comment.mk (nextId s) text id U (User.firstName a) (User.lastName a)
                            (User.profilePicture a) (now env)) = true ->
  faults env AddComment_Comment_save = false ->
  faults env AddComment_Notification_save = true ->
  fst (addComment (Verified U) id (Some text) env s)
  = json 500 (Msg "Error creating comment")
  /\ comments (db (snd (addComment (Verified U) id (Some text) env s)))
     = comments (db s)
       ++ [Comment.mk (nextId s) text id U (User.firstName a) (User.lastName a)
                      (User.profilePicture a) (now env)]
  /\ notifications (db (snd (addComment (Verified U) id (Some text) env s)))
     = notifications (db s).
Proof.
  intros Hauth Hp Hother Ff Hv Fs Fn.
  assert (Hid : User._id a = U).
  { simpl in Hauth. destruct (faults env Auth_User_findById); [discriminate|].
    now apply (findById_Some _ _ _ Hauth). }
  unfold addComment. rewrite (authMiddleware_attaches _ _ _ _ _ Hauth).
  destruct s as [d nid]. simpl in *.
  unfold_async. unfold saveNewComment, exec, await. simpl.
  rewrite Ff. simpl. rewrite Hp, Hid. simpl.
  assert (Hne : nonEmpty text = true).
  { unfold Comment.valid in Hv. simpl in Hv.
    destruct (nonEmpty text); [reflexivity|discriminate]. }
  rewrite Hne. simpl. rewrite Hv. simpl. rewrite Fs. simpl.
  apply Nat.eqb_neq in Hother. rewrite Hother. simpl. rewrite Fn. simpl. auto.
Qed.

Lemma addComment_notification_failure_keeps_comment_witness :
  fst (addComment (Verified 2) 10 (Some "thanks"%string)
         (failingAt AddComment_Notification_save) store0)
  = json 500 (Msg "Error creating comment")
  /\ comments (db (snd (addComment (Verified 2) 10 (Some "thanks"%string)
                         (failingAt AddComment_Notification_save) store0)))
     = comments (db store0)
       ++ [Comment.mk (nextId store0) "thanks" 10 2 (User.firstName bob)
                      (User.lastName bob) (User.profilePicture bob)
                      (now (failingAt AddComment_Notification_save))]
  /\ notifications (db (snd (addComment (Verified 2) 10 (Some "thanks"%string)
                              (failingAt AddComment_Notification_save) store0)))
     = notifications (db store0).
Proof.
  apply (addComment_notification_failure_keeps_comment
           (failingAt AddComment_Notification_save) store0 2 10 "thanks" bob post10);
    try reflexivity.
  simpl. discriminate.
Defined.

(* ================================================================== *)
(** * DELETE /:postId/comments/:commentId                              *)
(* ================================================================== *)

(** X19.  The route checks the owner of the post named in the URL, not of the
    post the comment is under: a user who owns the named post deletes any
    comment, whoever wrote it and whatever post it belongs to. *)
Theorem deleteComment_by_owner_of_named_post
  (env : Env) (s : Store) (U postId commentId : ObjectId)
  (a : User.t) (comment : Comment.t) (post : Post.t) :
  authenticates (Verified U) env s = Some a ->
  findById commentId (comments (db s)) = Some comment ->
  findById postId (posts (db s)) = Some post ->
  Post.author post = U ->
  faults env DeleteComment_Comment_findById = false ->
  faults env DeleteComment_Post_findById = false ->
  faults env DeleteComment_Comment_deleteOne = false ->
  fst (deleteComment (Verified U) postId commentId env s)
  = json 200 (Msg "Comment deleted successfully")
  /\ comments (db (snd (deleteComment (Verified U) postId commentId env s)))
     = deleteOne commentId (comments (db s)).
Proof.
  intros Hauth Hc Hp Hown F1 F2 F3.
  assert (Hid : User._id a = U).
  { simpl in Hauth. destruct (faults env Auth_User_findById); [discriminate|].
    now apply (findById_Some _ _ _ Hauth). }
  pose proof (findById_Some _ _ _ Hc) as [_ Hcid]. simpl in Hcid.
  unfold deleteComment. rewrite (authMiddleware_attaches _ _ _ _ _ Hauth).
  destruct s as [d nid]. simpl in *.
  unfold_async. simpl. rewrite F1. simpl. rewrite Hc, F2. simpl. rewrite Hp. simpl.
  rewrite Hid, Hown, Nat.eqb_refl, andb_false_r, F3. simpl. rewrite Hcid. auto.
Qed.

Lemma deleteComment_by_owner_of_named_post_witness :
  fst (deleteComment (Verified 3) 11 20 quietEnv store1)
  = json 200 (Msg "Comment deleted successfully")
  /\ comments (db (snd (deleteComment (Verified 3) 11 20 quietEnv store1)))
     = deleteOne 20 (comments (db store1)).
Proof.
  apply (deleteComment_by_owner_of_named_post quietEnv store1 3 11 20
           carol comment20 post11); reflexivity.
Defined.

(** X20.  A user who owns neither the comment nor the named post is refused
    with 403; and when the named post does not exist the route reads
    [post.author] of [null] and answers 500, even for the author of the
    comment.  Nothing is deleted in either case. *)
Theorem deleteComment_refusals
  (env : Env) (s : Store) (U postId commentId : ObjectId)
  (a : User.t) (comment : Comment.t) :
  authenticates (Verified U) env s = Some a ->
  findById commentId (comments (db s)) = Some comment ->
  faults env DeleteComment_Comment_findById = false ->
  faults env DeleteComment_Post_findById = false ->
  (findById postId (posts (db s)) = None ->
   deleteComment (Verified U) postId commentId env s
   = (json 500 (Msg "Error deleting comment"), s))
  /\ (forall post, findById postId (posts (db s)) = Some post ->
        Comment.author comment <> U -> Post.author post <> U ->
        deleteComment (Verified U) postId commentId env s
        = (json 403 (Msg "Not authorized to delete this comment"), s)).
Proof.
  intros Hauth Hc F1 F2.
  assert (Hid : User._id a = U).
  { simpl in Hauth. destruct (faults env Auth_User_findById); [discriminate|].
    now apply (findById_Some _ _ _ Hauth). }
  unfold deleteComment. rewrite (authMiddleware_attaches _ _ _ _ _ Hauth).
  destruct s as [d nid]. simpl in *.
  unfold_async. simpl. rewrite F1. simpl. rewrite Hc, F2. simpl.
  split.
  - intros ->. reflexivity.
  - intros post -> Hc' Hp'. simpl.
    apply Nat.eqb_neq in Hc', Hp'. rewrite Hid, Hc', Hp'. reflexivity.
Qed.

Lemma deleteComment_refusals_witness :
  (findById 77 (posts (db store1)) = None ->
   deleteComment (Verified 2) 77 20 quietEnv store1
   = (json 500 (Msg "Error deleting comment"), store1))
  /\ (forall post, findById 77 (posts (db store1)) = Some post ->
        Comment.author comment20 <> 2 -> Post.author post <> 2 ->
        deleteComment (Verified 2) 77 20 quietEnv store1
        = (json 403 (Msg "Not authorized to delete this comment"), store1)).
Proof.
  apply (deleteComment_refusals quietEnv store1 2 77 20 bob comment20);
    reflexivity.
Defined.

(* ================================================================== *)
(** * PUT /read                                                        *)
(* ================================================================== *)

Lemma selects_unread (U : ObjectId) (n : Notification.t) :
  selects (And (Eq ["recipient"%string] (SId U)) (Eq ["read"%string] (SBool false))) n
  = Nat.eqb U (Notification.recipient n) && negb (Notification.read n).
Proof.
  rewrite selects_And, selects_Notification_recipient, selects_Notification_read.
  now destruct (Notification.read n).
Qed.

(** What a successful run of the route did. *)
Lemma markNotificationsRead_ok
  (env : Env) (s s' : Store) (U : ObjectId) (r : Response) :
  markNotificationsRead (Verified U) env s = (r, s') ->
  status r = 200 ->
  s' = mkStore
         (withNotifications
            (updateMany (And (Eq ["recipient"%string] (SId U))
                             (Eq ["read"%string] (SBool false)))
               (Notification.set_read true))
            (db s))
         (nextId s).
Proof.
  destruct s as [d nid].
  unfold markNotificationsRead, authMiddleware. unfold_async. simpl.
  destruct (faults env Auth_User_findById); simpl;
    [intros E; inversion E; subst; discriminate|].
  destruct (findById U (users d)) as [a|] eqn:Ha;
    [|intros E; inversion E; subst; discriminate].
  apply findById_Some in Ha. destruct Ha as [_ Ha]. simpl in Ha. rewrite Ha.
  clear Ha a.
  destruct (faults env Read_Notification_updateMany); simpl;
    intros E; inversion E; subst; [discriminate|].
  reflexivity.
Qed.

(** The unread count of a successful listing. *)
Lemma listNotifications_unreadCount
  (env : Env) (s s' : Store) (U : ObjectId) (r : Response) :
  listNotifications (Verified U) env s = (r, s') ->
  status r = 200 ->
  exists page,
    body r = NotificationList page
               (countDocuments
                  (And (Eq ["recipient"%string] (SId U))
                       (Eq ["read"%string] (SBool false)))
                  (notifications (db s))).
Proof.
  destruct s as [d nid].
  unfold listNotifications, authMiddleware. unfold_async. simpl.
  destruct (faults env Auth_User_findById); simpl;
    [intros E; inversion E; subst; discriminate|].
  destruct (findById U (users d)) as [a|] eqn:Ha;
    [|intros E; inversion E; subst; discriminate].
  apply findById_Some in Ha. destruct Ha as [_ Ha]. simpl in Ha. rewrite Ha.
  clear Ha a.
  destruct (faults env List_Notification_find); simpl;
    [intros E; inversion E; subst; discriminate|].
  destruct (faults env List_Notification_countDocuments); simpl;
    intros E; inversion E; subst; [discriminate|].
  intros _. eexists. reflexivity.
Qed.

(** X21.  Marking as read touches nothing but the read flags of the caller's
    own notifications: afterwards each of them is read, the notifications
    are the same ones in the same order up to that flag, the other
    recipients' are untouched, and a listing by the caller reports zero
    unread. *)
Theorem markNotificationsRead_clears_unread
  (env : Env) (s s' : Store) (U : ObjectId) (r : Response) :
  markNotificationsRead (Verified U) env s = (r, s') ->
  status r = 200 ->
  (forall n, In n (notifications (db s')) -> Notification.recipient n = U ->
             Notification.read n = true)
  /\ map (Notification.set_read true) (notifications (db s'))
     = map (Notification.set_read true) (notifications (db s))
  /\ filter (fun n => negb (Nat.eqb U (Notification.recipient n))) (notifications (db s'))
     = filter (fun n => negb (Nat.eqb U (Notification.recipient n))) (notifications (db s))
  /\ users (db s') = users (db s)
  /\ posts (db s') = posts (db s)
  /\ comments (db s') = comments (db s)
  /\ (forall env2 r2 s2,
        listNotifications (Verified U) env2 s' = (r2, s2) ->
        status r2 = 200 ->
        exists page, body r2 = NotificationList page 0).
Proof.
  intros Hrun Hr. rewrite (markNotificationsRead_ok _ _ _ _ _ Hrun Hr). simpl.
  set (q := And (Eq ["recipient"%string] (SId U)) (Eq ["read"%string] (SBool false))).
  assert (Hall : forall n, In n (updateMany q (Notification.set_read true)
                                   (notifications (db s))) ->
                           Notification.recipient n = U -> Notification.read n = true).
  { intros n Hn Hrec. apply in_updateMany in Hn.
    destruct Hn as [x [_ [[_ ->]|[Hsel ->]]]]; [reflexivity|].
    unfold q in Hsel. rewrite selects_unread, Hrec, Nat.eqb_refl in Hsel. simpl in Hsel.
    now apply negb_false_iff in Hsel. }
  split; [exact Hall|].
  split; [|split; [|split; [|split; [|split]]]]; try reflexivity.
  - unfold updateMany. rewrite map_map. apply map_ext. intros n.
    now destruct (selects q n).
  - clear Hall. subst q. unfold updateMany.
    induction (notifications (db s)) as [|n l IH]; simpl; [reflexivity|].
    rewrite selects_unread.
    destruct (Nat.eqb U (Notification.recipient n)) eqn:E; simpl.
    + destruct (negb (Notification.read n)); simpl; rewrite E; simpl; exact IH.
    + rewrite E. simpl. now rewrite IH.
  - intros env2 r2 s2 Hlist Hr2.
    destruct (listNotifications_unreadCount _ _ _ _ _ Hlist Hr2) as [page Hbody].
    exists page. rewrite Hbody. f_equal. simpl.
    unfold countDocuments, find. fold q.
    induction (updateMany q (Notification.set_read true) (notifications (db s)))
      as [|n l IH]; [reflexivity|].
    simpl. unfold q at 1. rewrite selects_unread.
    destruct (Nat.eqb U (Notification.recipient n)) eqn:E; simpl.
    + rewrite (Hall n (or_introl eq_refl)); simpl.
      * apply IH. intros m Hm. apply Hall. now right.
      * apply Nat.eqb_eq in E. now symmetry.
    + apply IH. intros m Hm. apply Hall. now right.
Qed.

Lemma markNotificationsRead_clears_unread_witness :
  (forall n,
      In n (notifications (db (snd (markNotificationsRead (Verified 1) quietEnv busyStore)))) ->
      Notification.recipient n = 1 -> Notification.read n = true)
  /\ map (Notification.set_read true)
         (notifications (db (snd (markNotificationsRead (Verified 1) quietEnv busyStore))))
     = map (Notification.set_read true) (notifications (db busyStore))
  /\ filter (fun n => negb (Nat.eqb 1 (Notification.recipient n)))
            (notifications (db (snd (markNotificationsRead (Verified 1) quietEnv busyStore))))
     = filter (fun n => negb (Nat.eqb 1 (Notification.recipient n)))
              (notifications (db busyStore))
  /\ users (db (snd (markNotificationsRead (Verified 1) quietEnv busyStore)))
     = users (db busyStore)
  /\ posts (db (snd (markNotificationsRead (Verified 1) quietEnv busyStore)))
     = posts (db busyStore)
  /\ comments (db (snd (markNotificationsRead (Verified 1) quietEnv busyStore)))
     = comments (db busyStore)
  /\ (forall env2 r2 s2,
        listNotifications (Verified 1) env2
          (snd (markNotificationsRead (Verified 1) quietEnv busyStore)) = (r2, s2) ->
        status r2 = 200 ->
        exists page, body r2 = NotificationList page 0).
Proof.
  exact (markNotificationsRead_clears_unread quietEnv busyStore
           (snd (markNotificationsRead (Verified 1) quietEnv busyStore)) 1
           (fst (markNotificationsRead (Verified 1) quietEnv busyStore))
           (surjective_pairing _) eq_refl).
Defined.

(* ================================================================== *)
(** * GET /subscribe/:userId and GET /:id/likes                        *)
(* ================================================================== *)

(** What a successful run of the status route answers. *)
Lemma getSubscriptionStatus_ok
  (env : Env) (s s' : Store) (A T : ObjectId) (r : Response) :
  getSubscriptionStatus (Verified A) T env s = (r, s') ->
  status r = 200 ->
  exists t : User.t,
    findById T (users (db s)) = Some t
    /\ r = json 200
             (Subscription
                (existsb (fun id => Nat.eqb id A) (User.subscribers t))
                (List.length (User.subscribers t))).
Proof.
  destruct s as [d nid].
  unfold getSubscriptionStatus, authMiddleware. unfold_async. simpl.
  destruct (faults env Auth_User_findById); simpl;
    [intros E; inversion E; subst; discriminate|].
  destruct (findById A (users d)) as [a|] eqn:Ha;
    [|intros E; inversion E; subst; discriminate].
  apply findById_Some in Ha. destruct Ha as [_ Ha]. simpl in Ha. rewrite Ha.
  clear Ha a.
  destruct (faults env Status_User_findById); simpl;
    [intros E; inversion E; subst; discriminate|].
  destruct (findById T (users d)) as [t|] eqn:Ht;
    intros E; inversion E; subst; [|discriminate].
  intros _. exists t. auto.
Qed.

(** X7.  The status route reports what the toggle just answered: after a
    successful PUT /subscribe/:userId, a successful GET of the same path
    by the same user has the same body. *)
Theorem subscription_status_after_toggle
  (env1 env2 : Env) (s s1 s2 : Store) (A T : ObjectId) (userId : string)
  (r1 r2 : Response) :
  Id.cast userId = Some T ->
  toggleSubscription (Verified A) userId env1 s = (r1, s1) ->
  status r1 = 200 ->
  getSubscriptionStatus (Verified A) T env2 s1 = (r2, s2) ->
  status r2 = 200 ->
  r2 = r1.
Proof.
  intros Hcast H1 Hr1 H2 Hr2.
  destruct (toggleSubscription_ok _ _ _ _ _ _ H1 Hr1)
    as (T' & t & Hcast' & Ht & _ & Hresp & Husers & _).
  rewrite Hcast in Hcast'. inversion Hcast'; subst T'. clear Hcast'.
  destruct (getSubscriptionStatus_ok _ _ _ _ _ _ H2 Hr2) as (t1 & Ht1 & Hresp2).
  pose proof (findById_Some _ _ _ Ht) as [_ HidT]. simpl in HidT.
  rewrite Husers in Ht1.
  erewrite findById_overwrite in Ht1; [|exact HidT|exact Ht].
  inversion Ht1; subst t1. clear Ht1. rewrite Hresp2, Hresp. simpl.
  destruct (existsb (fun id => Nat.eqb id A) (User.subscribers t)) eqn:Em; simpl.
  - now rewrite existsb_filter_neq.
  - now rewrite existsb_snoc.
Qed.

Lemma subscription_status_after_toggle_witness :
  fst (getSubscriptionStatus (Verified 2) 3 quietEnv
         (snd (toggleSubscription (Verified 2) "000000000000000000000003"
                 quietEnv store0)))
  = fst (toggleSubscription (Verified 2) "000000000000000000000003" quietEnv store0).
Proof.
  exact (subscription_status_after_toggle quietEnv quietEnv store0
           (snd (toggleSubscription (Verified 2) "000000000000000000000003"
                   quietEnv store0))
           (snd (getSubscriptionStatus (Verified 2) 3 quietEnv
                   (snd (toggleSubscription (Verified 2) "000000000000000000000003"
                           quietEnv store0))))
           2 3 "000000000000000000000003"
           (fst (toggleSubscription (Verified 2) "000000000000000000000003"
                   quietEnv store0))
           (fst (getSubscriptionStatus (Verified 2) 3 quietEnv
                   (snd (toggleSubscription (Verified 2) "000000000000000000000003"
                           quietEnv store0))))
           eq_refl (surjective_pairing _) eq_refl (surjective_pairing _) eq_refl).
Defined.

(** What a successful run of the likes route answers. *)
Lemma getLikes_ok
  (env : Env) (s s' : Store) (U id : ObjectId) (r : Response) :
  getLikes (Verified U) id env s = (r, s') ->
  status r = 200 ->
  exists p : Post.t,
    findById id (posts (db s)) = Some p
    /\ r = json 200 (LikeStatus (List.length (Post.likes p))
                       (existsb (Nat.eqb U) (Post.likes p))).
Proof.
  destruct s as [d nid].
  unfold getLikes, authMiddleware. unfold_async. simpl.
  destruct (faults env Auth_User_findById); simpl;
    [intros E; inversion E; subst; discriminate|].
  destruct (findById U (users d)) as [a|] eqn:Ha;
    [|intros E; inversion E; subst; discriminate].
  apply findById_Some in Ha. destruct Ha as [_ Ha]. simpl in Ha. rewrite Ha.
  clear Ha a.
  destruct (faults env Likes_Post_findById); simpl;
    [intros E; inversion E; subst; discriminate|].
  destruct (findById id (posts d)) as [p|] eqn:Hp;
    intros E; inversion E; subst; [|discriminate].
  intros _. exists p. auto.
Qed.

(** X15.  Likes stay a set and the likes route agrees with the toggle: after a
    successful like toggle on a post whose likes are duplicate free, the
    stored likes are duplicate free again, the count moves by exactly one
    in the direction the toggle answers, and a successful GET /:id/likes
    by the same user reports the length of the list the toggle returned
    and the same [isLiked]. *)
Theorem likes_after_toggle
  (env1 env2 : Env) (s s1 s2 : Store) (U P : ObjectId) (r1 r2 : Response)
  (p : Post.t) :
  findById P (posts (db s)) = Some p ->
  NoDup (Post.likes p) ->
  toggleLike (Verified U) P env1 s = (r1, s1) ->
  status r1 = 200 ->
  getLikes (Verified U) P env2 s1 = (r2, s2) ->
  status r2 = 200 ->
  exists (likes : list ObjectId) (isLiked : bool),
    r1 = json 200 (Likes likes isLiked)
    /\ r2 = json 200 (LikeStatus (List.length likes) isLiked)
    /\ NoDup likes
    /\ (In U likes <-> isLiked = true)
    /\ (isLiked = true -> List.length likes = S (List.length (Post.likes p)))
    /\ (isLiked = false -> S (List.length likes) = List.length (Post.likes p))
    /\ (forall x, x <> U -> (In x likes <-> In x (Post.likes p))).
Proof.
  intros Hp Hnd H1 Hr1 H2 Hr2.
  destruct (toggleLike_ok _ _ _ _ _ _ H1 Hr1) as (p' & Hp' & Hresp & Hposts & _).
  rewrite Hp in Hp'. inversion Hp'; subst p'. clear Hp'.
  destruct (getLikes_ok _ _ _ _ _ _ H2 Hr2) as (p1 & Hp1 & Hresp2).
  pose proof (findById_Some _ _ _ Hp) as [_ HidP]. simpl in HidP.
  rewrite Hposts in Hp1.
  erewrite findById_overwrite in Hp1; [|exact HidP|exact Hp].
  inversion Hp1; subst p1. clear Hp1. simpl in Hresp2.
  destruct (existsb (Nat.eqb U) (Post.likes p)) eqn:El.
  - exists (filter (fun i => negb (Nat.eqb i U)) (Post.likes p)), false.
    split; [exact Hresp|].
    assert (Hout : ~ In U (filter (fun i => negb (Nat.eqb i U)) (Post.likes p))).
    { intros Hin. apply filter_In in Hin. destruct Hin as [_ Hin].
      now rewrite Nat.eqb_refl in Hin. }
    split; [|split; [now apply NoDup_filter|split; [|split; [discriminate|split]]]].
    + rewrite Hresp2. f_equal. f_equal. now apply existsb_eqb_false.
    + split; [contradiction|discriminate].
    + intros _.
      assert (Hin : In U (Post.likes p)).
      { apply existsb_exists in El. destruct El as [x [Hx Hux]].
        apply Nat.eqb_eq in Hux. now subst x. }
      pose proof (Permutation_length
                    (filter_neq_snoc_perm U (Post.likes p) Hnd Hin)) as Hlen.
      rewrite length_app in Hlen. simpl in Hlen. unfold ObjectId in *. lia.
    + intros x Hx. rewrite filter_In, negb_true_iff, Nat.eqb_neq. tauto.
  - exists (Post.likes p ++ [U]), true.
    split; [exact Hresp|].
    assert (Hfresh : ~ In U (Post.likes p)) by now apply existsb_eqb_false.
    split; [|split; [now apply NoDup_snoc|split; [|split; [|split; [discriminate|]]]]].
    + rewrite Hresp2. f_equal. f_equal.
      rewrite existsb_eqb_sym. apply existsb_snoc.
    + split; [reflexivity|]. intros _. apply in_or_app. right. now left.
    + intros _. rewrite length_app. simpl. unfold ObjectId in *. lia.
    + intros x Hx. rewrite in_app_iff. simpl. split; [|tauto].
      intros [H|[H|[]]]; [exact H|congruence].
Qed.

Lemma likes_after_toggle_witness :
  exists (likes : list ObjectId) (isLiked : bool),
    fst (toggleLike (Verified 2) 11 quietEnv store1) = json 200 (Likes likes isLiked)
    /\ fst (getLikes (Verified 2) 11 quietEnv
              (snd (toggleLike (Verified 2) 11 quietEnv store1)))
       = json 200 (LikeStatus (List.length likes) isLiked)
    /\ NoDup likes
    /\ (In 2 likes <-> isLiked = true)
    /\ (isLiked = true -> List.length likes = S (List.length (Post.likes post11)))
    /\ (isLiked = false -> S (List.length likes) = List.length (Post.likes post11))
    /\ (forall x, x <> 2 -> (In x likes <-> In x (Post.likes post11))).
Proof.
  apply (likes_after_toggle quietEnv quietEnv store1
           (snd (toggleLike (Verified 2) 11 quietEnv store1))
           (snd (getLikes (Verified 2) 11 quietEnv
                   (snd (toggleLike (Verified 2) 11 quietEnv store1))))
           2 11
           (fst (toggleLike (Verified 2) 11 quietEnv store1))
           (fst (getLikes (Verified 2) 11 quietEnv
                   (snd (toggleLike (Verified 2) 11 quietEnv store1))))
           post11).
  - reflexivity.
  - simpl. repeat constructor; simpl; intuition discriminate.
  - apply surjective_pairing.
  - reflexivity.
  - apply surjective_pairing.
  - reflexivity.
Defined.

(* ================================================================== *)
(** * GET /:id/comments                                                *)
(* ================================================================== *)

Section StampFacts.
Context {T : Type} (stamp : T -> nat).

Lemma insertByStamp_perm (x : T) (l : list T) :
  Permutation (insertByStamp stamp x l) (x :: l).
Proof.
  induction l as [|y l IH]; simpl; [reflexivity|].
  destruct (Nat.leb (stamp y) (stamp x)); [reflexivity|].
  rewrite IH. apply perm_swap.
Qed.

Lemma sortByStamp_perm (l : list T) : Permutation (sortByStamp stamp l) l.
Proof.
  induction l as [|x l IH]; simpl; [reflexivity|].
  rewrite insertByStamp_perm. now constructor.
Qed.

Lemma insertByStamp_sorted (x : T) (l : list T) :
  newestFirst stamp l -> newestFirst stamp (insertByStamp stamp x l).
Proof.
  unfold newestFirst. induction l as [|y l IH]; simpl; intros Hs.
  - constructor; constructor.
  - inversion Hs as [|? ? Hl Hy]; subst.
    destruct (Nat.leb (stamp y) (stamp x)) eqn:E.
    + apply Nat.leb_le in E. constructor; [exact Hs|].
      constructor; [exact E|].
      eapply Forall_impl; [|exact Hy]. simpl. intros z Hz. lia.
    + apply Nat.leb_gt in E. constructor; [now apply IH|].
      rewrite Forall_forall. intros z Hz.
      apply (Permutation_in _ (insertByStamp_perm x l)) in Hz.
      destruct Hz as [<-|Hz]; [lia|].
      rewrite Forall_forall in Hy. now apply Hy.
Qed.

Lemma sortByStamp_sorted (l : list T) : newestFirst stamp (sortByStamp stamp l).
Proof.
  induction l as [|x l IH]; simpl; [constructor|].
  now apply insertByStamp_sorted.
Qed.

End StampFacts.

(** X16.  A successful listing of the comments of a post returns exactly the
    comments stored under that post, each once, newest first. *)
Theorem getComments_lists_post_comments
  (env : Env) (s s' : Store) (U id : ObjectId) (r : Response) :
  getComments (Verified U) id env s = (r, s') ->
  status r = 200 ->
  exists l : list Comment.t,
    r = json 200 (CommentList l)
    /\ newestFirst Comment.createdAt l
    /\ Permutation l (filter (fun c => Nat.eqb id (Comment.post c)) (comments (db s)))
    /\ (forall c, In c l <-> In c (comments (db s)) /\ Comment.post c = id).
Proof.
  destruct s as [d nid].
  unfold getComments, authMiddleware. unfold_async. simpl.
  destruct (faults env Auth_User_findById); simpl;
    [intros E; inversion E; subst; discriminate|].
  destruct (findById U (users d)) as [a|] eqn:Ha;
    [|intros E; inversion E; subst; discriminate].
  destruct (faults env Comments_Comment_find); simpl;
    intros E; inversion E; subst; [discriminate|].
  intros _.
  assert (Hfind : find (Eq ["post"%string] (SId id)) (comments d)
                  = filter (fun c => Nat.eqb id (Comment.post c)) (comments d)).
  { unfold find. apply filter_ext. intros c. apply selects_Comment_post. }
  eexists. split; [reflexivity|]. split; [apply sortByStamp_sorted|].
  split.
  - rewrite <- Hfind. apply sortByStamp_perm.
  - intros c. split.
    + intros Hin. apply (Permutation_in _ (sortByStamp_perm _ _)) in Hin.
      rewrite Hfind in Hin. apply filter_In in Hin. destruct Hin as [Hin Hc].
      apply Nat.eqb_eq in Hc. auto.
    + intros [Hin Hc].
      apply (Permutation_in _ (Permutation_sym (sortByStamp_perm _ _))).
      rewrite Hfind. apply filter_In. split; [exact Hin|].
      subst id. apply Nat.eqb_refl.
Qed.

Lemma getComments_lists_post_comments_witness :
  exists l : list Comment.t,
    fst (getComments (Verified 2) 10 quietEnv store0) = json 200 (CommentList l)
    /\ newestFirst Comment.createdAt l
    /\ Permutation l (filter (fun c => Nat.eqb 10 (Comment.post c))
                             (comments (db store0)))
    /\ (forall c, In c l <-> In c (comments (db store0)) /\ Comment.post c = 10).
Proof.
  exact (getComments_lists_post_comments quietEnv store0
           (snd (getComments (Verified 2) 10 quietEnv store0)) 2 10
           (fst (getComments (Verified 2) 10 quietEnv store0))
           (surjective_pairing _) eq_refl).
Defined.

(* ================================================================== *)
(** * POST /register and POST /login                                   *)
(* ================================================================== *)

Lemma selects_User_email (e : string) (u : User.t) :
  selects (Eq ["email"%string] (SStr e)) u = String.eqb e (User.email u).
Proof. unfold selects; simpl. now rewrite orb_false_r. Qed.

Lemma findOneByEmail_Some (e : option string) (c : list User.t) (u : User.t) :
  findOneByEmail e c = Some u -> In u c /\ e = Some (User.email u).
Proof.
  destruct e as [e|]; simpl; [|discriminate].
  intros Hf. apply find_some in Hf. destruct Hf as [Hin Hsel].
  rewrite selects_User_email in Hsel. apply String.eqb_eq in Hsel.
  subst e. auto.
Qed.

Lemma findOneByEmail_None (e : string) (c : list User.t) :
  findOneByEmail (Some e) c = None -> forall u, In u c -> User.email u <> e.
Proof.
  simpl. intros Hf u Hin He. apply (find_none _ _ Hf) in Hin.
  rewrite selects_User_email in Hin. subst e.
  now rewrite String.eqb_refl in Hin.
Qed.

Lemma findOneByEmail_snoc (e : string) (c : list User.t) (u : User.t) :
  findOneByEmail (Some e) c = None -> User.email u = e ->
  findOneByEmail (Some e) (c ++ [u]) = Some u.
Proof.
  simpl. intros Hnone He. induction c as [|x c IH]; simpl in *.
  - now rewrite selects_User_email, He, String.eqb_refl.
  - destruct (selects (Eq ["email"%string] (SStr e)) x); [discriminate|].
    now apply IH.
Qed.

(** What a registration that answers 201 did. *)
Lemma register_ok
  (env : Env) (s s' : Store) (b : RegisterBody) (r : Response) :
  register b env s = (Resolved r, s') ->
  status r = 201 ->
  exists (email password firstName lastName : string) (dateOfBirth : nat),
    truthy (r_email b) = Some email
    /\ r_password b = Some password
    /\ truthy (r_firstName b) = Some firstName
    /\ truthy (r_lastName b) = Some lastName
    /\ r_dateOfBirth b = Some dateOfBirth
    /\ findOneByEmail (Some email) (users (db s)) = None
    /\ r = json 201 (Msg "User created")
    /\ s' = mkStore
              (withUsers
                 (insert (User.mk (nextId s) email (bcrypt_hash env password)
                            firstName lastName dateOfBirth "" (Some ""%string) []))
                 (db s))
              (S (nextId s)).
Proof.
  destruct s as [d nid].
  unfold register, saveNewUser. unfold_async. simpl.
  destruct (faults env Register_User_findOne); simpl; [discriminate|].
  destruct (findOneByEmail (r_email b) (users d)) as [u|] eqn:Hf; simpl.
  { intros E; inversion E; subst; discriminate. }
  destruct (r_password b) as [password|]; simpl; [|discriminate].
  destruct (truthy (r_email b)) as [email|] eqn:He; simpl; [|discriminate].
  destruct (truthy (r_firstName b)) as [firstName|]; simpl; [|discriminate].
  destruct (truthy (r_lastName b)) as [lastName|]; simpl; [|discriminate].
  destruct (r_dateOfBirth b) as [dateOfBirth|]; simpl; [|discriminate].
  destruct (User.valid _); simpl; [|discriminate].
  destruct (faults env Register_User_save); simpl; [discriminate|].
  intros E; inversion E; subst. intros _.
  exists email, password, firstName, lastName, dateOfBirth.
  apply truthy_Some in He. rewrite He in Hf. auto 10.
Qed.

(** X2.  An email that is taken is refused and nothing is stored; a
    registration that goes through appends one user under that email,
    with the hash of the password and not the password field of the body,
    an empty picture and about text, nobody subscribed, and no other
    email in the store equal to it. *)
Theorem register_outcomes
  (env : Env) (s : Store) (b : RegisterBody) :
  (forall u, In u (users (db s)) -> r_email b = Some (User.email u) ->
             faults env Register_User_findOne = false ->
             register b env s = (Resolved (json 400 (Msg "Email exists")), s))
  /\ (forall r s', register b env s = (Resolved r, s') -> status r = 201 ->
        exists user : User.t,
          users (db s') = users (db s) ++ [user]
          /\ r_email b = Some (User.email user)
          /\ (forall password, r_password b = Some password ->
                User.password user = bcrypt_hash env password)
          /\ User.profilePicture user = ""%string
          /\ User.about user = Some ""%string
          /\ User.subscribers user = []
          /\ (forall u, In u (users (db s)) -> User.email u <> User.email user)
          /\ posts (db s') = posts (db s)
          /\ comments (db s') = comments (db s)
          /\ notifications (db s') = notifications (db s)).
Proof.
  split.
  - intros u Hin He Ff. destruct s as [d nid]. simpl in *.
    unfold register. unfold_async. simpl. rewrite Ff, He. simpl.
    destruct (List.find (selects (Eq ["email"%string] (SStr (User.email u)))) (users d))
      as [x|] eqn:Hf; [reflexivity|].
    apply (find_none _ _ Hf) in Hin.
    now rewrite selects_User_email, String.eqb_refl in Hin.
  - intros r s' Hrun Hr.
    destruct (register_ok _ _ _ _ _ Hrun Hr)
      as (email & password & fn & ln & dob & He & Hpw & _ & _ & _ & Hnone & _ & ->).
    eexists. simpl. split; [reflexivity|]. simpl.
    split; [now apply truthy_Some|].
    split; [intros p Hp; congruence|].
    repeat (split; [reflexivity|]).
    split; [|auto].
    intros u Hin. now apply (findOneByEmail_None _ _ Hnone).
Qed.

Lemma findOneWhereEmail_Some (v : EmailValue) (c : list User.t) (u : User.t) :
  findOneWhereEmail v c = Some u ->
  In u c
  /\ (forall e, v = EmailString e -> User.email u = e)
  /\ (forall selected, v = EmailOperators selected -> selected (User.email u) = true).
Proof.
  destruct v as [|e|selected|]; cbn [findOneWhereEmail]; try discriminate.
  - intros Hf. apply findOneByEmail_Some in Hf. destruct Hf as [Hin He].
    inversion He; subst e.
    split; [exact Hin|]. split; [|discriminate].
    intros e' E. now inversion E.
  - intros Hf. apply find_some in Hf. destruct Hf as [Hin Hsel].
    split; [exact Hin|]. split; [discriminate|].
    intros sel E. inversion E; subst sel. exact Hsel.
Qed.

(** POST /login from the look-up on. *)
Lemma login_after_lookup
  (look : list User.t -> option User.t) (env : Env) (s s' : Store) (b : LoginBody)
  (o : Outcome Response) :
  bind (query Login_User_findOne (fun d => look (users d)))
       (fun found =>
          match found with
          | None => ret (json 400 (Msg "Invalid email"))
          | Some user =>
              bind ask (fun env =>
              bind (match l_password b with
                    | Some p => ret p
                    | None => throw BcryptError
                    end) (fun password =>
              if bcrypt_compare env password (User.password user)
              then ret (json 200 (TokenOnly (sign user)))
              else ret (json 400 (Msg "Wrong password"))))
          end) env s = (o, s') ->
  s' = s
  /\ forall r, o = Resolved r -> status r = 200 ->
       exists (user : User.t) (password : string),
         look (users (db s)) = Some user
         /\ l_password b = Some password
         /\ bcrypt_compare env password (User.password user) = true
         /\ r = json 200 (TokenOnly (sign user)).
Proof.
  destruct s as [d nid]. unfold_async. simpl.
  destruct (faults env Login_User_findOne); simpl.
  { intros E; inversion E; subst. split; [reflexivity|discriminate]. }
  destruct (look (users d)) as [user|] eqn:Hf; simpl.
  - destruct (l_password b) as [password|]; simpl.
    + destruct (bcrypt_compare env password (User.password user)) eqn:Hc; simpl;
        intros E; inversion E; subst; (split; [reflexivity|]);
        intros r Hr; inversion Hr; subst; [|discriminate].
      intros _. exists user, password. auto.
    + intros E; inversion E; subst. split; [reflexivity|discriminate].
  - intros E; inversion E; subst. split; [reflexivity|].
    intros r Hr; inversion Hr; subst; discriminate.
Qed.

(** X3.  POST /login never writes, and it issues a token only for the
    first stored user that the [email] value of the body selects, and only
    when that user's stored hash accepts the password of the body; the
    token carries that user's identity, name and picture.  When the value
    is a string, the user is the one with that email; when it is an object
    of query operators, the user is one the operators select, and the
    body names no email at all. *)
Theorem login_issues_token_for_matching_user
  (env : Env) (s s' : Store) (b : LoginBody) (o : Outcome Response) :
  login b env s = (o, s') ->
  s' = s
  /\ forall r, o = Resolved r -> status r = 200 ->
       exists (user : User.t) (password : string),
         findOneWhereEmail (l_email b) (users (db s)) = Some user
         /\ In user (users (db s))
         /\ (forall e, l_email b = EmailString e -> User.email user = e)
         /\ (forall selected, l_email b = EmailOperators selected ->
               selected (User.email user) = true)
         /\ l_password b = Some password
         /\ bcrypt_compare env password (User.password user) = true
         /\ r = json 200 (TokenOnly (sign user)).
Proof.
  unfold login. intros Hrun.
  assert (Hlook :
    s' = s
    /\ forall r, o = Resolved r -> status r = 200 ->
         exists (user : User.t) (password : string),
           findOneWhereEmail (l_email b) (users (db s)) = Some user
           /\ l_password b = Some password
           /\ bcrypt_compare env password (User.password user) = true
           /\ r = json 200 (TokenOnly (sign user))).
  { destruct (l_email b) as [|e|selected|] eqn:Hv.
    - exact (login_after_lookup (findOneWhereEmail NoEmail) _ _ _ _ _ Hrun).
    - exact (login_after_lookup (findOneWhereEmail (EmailString e)) _ _ _ _ _ Hrun).
    - exact (login_after_lookup (findOneWhereEmail (EmailOperators selected))
               _ _ _ _ _ Hrun).
    - unfold bind, throw in Hrun. inversion Hrun; subst.
      split; [reflexivity|discriminate]. }
  destruct Hlook as [Hs Hlook]. split; [exact Hs|].
  intros r Ho Hr. destruct (Hlook r Ho Hr) as (user & password & Hf & Hpw & Hc & Hresp).
  destruct (findOneWhereEmail_Some _ _ _ Hf) as (Hin & Hstr & Hops).
  exists user, password. auto 10.
Qed.

Lemma login_issues_token_for_matching_user_witness :
  snd (login (mkLoginBody (EmailOperators (gt "")) (Some "pw1"%string))
         quietEnv store0) = store0
  /\ forall r,
       fst (login (mkLoginBody (EmailOperators (gt "")) (Some "pw1"%string))
              quietEnv store0) = Resolved r ->
       status r = 200 ->
       exists (user : User.t) (password : string),
         findOneWhereEmail
           (l_email (mkLoginBody (EmailOperators (gt "")) (Some "pw1"%string)))
           (users (db store0)) = Some user
         /\ In user (users (db store0))
         /\ (forall e,
               l_email (mkLoginBody (EmailOperators (gt "")) (Some "pw1"%string))
               = EmailString e -> User.email user = e)
         /\ (forall selected,
               l_email (mkLoginBody (EmailOperators (gt "")) (Some "pw1"%string))
               = EmailOperators selected -> selected (User.email user) = true)
         /\ l_password (mkLoginBody (EmailOperators (gt "")) (Some "pw1"%string))
            = Some password
         /\ bcrypt_compare quietEnv password (User.password user) = true
         /\ r = json 200 (TokenOnly (sign user)).
Proof.
  exact (login_issues_token_for_matching_user quietEnv store0
           (snd (login (mkLoginBody (EmailOperators (gt "")) (Some "pw1"%string))
                   quietEnv store0))
           (mkLoginBody (EmailOperators (gt "")) (Some "pw1"%string))
           (fst (login (mkLoginBody (EmailOperators (gt "")) (Some "pw1"%string))
                   quietEnv store0))
           (surjective_pairing _)).
Defined.

(** The body [{"email": {"$gt": ""}, "password": "pw1"}] names no email
    and logs in as the first stored user. *)
Example login_with_operator_object :
  login (mkLoginBody (EmailOperators (gt "")) (Some "pw1"%string)) quietEnv store0
  = (Resolved (json 200 (TokenOnly (sign alice))), store0).
Proof. reflexivity. Qed.

(** X4.  Register, then log in: with a hashing library whose [compare] accepts
    what its [hash] made, a login with the email and password of a
    registration that answered 201 answers 200 with a token for the new
    user, whose identity is the one the registration allotted. *)
Theorem register_then_login
  (env1 env2 : Env) (s s1 : Store) (b : RegisterBody) (r1 : Response) :
  bcryptAccepts env2 ->
  bcrypt_hash env2 = bcrypt_hash env1 ->
  faults env2 Login_User_findOne = false ->
  register b env1 s = (Resolved r1, s1) ->
  status r1 = 201 ->
  exists token : Token,
    login (mkLoginBody (emailValue (r_email b)) (r_password b)) env2 s1
    = (Resolved (json 200 (TokenOnly token)), s1)
    /\ t_id token = nextId s
    /\ Some (t_email token) = r_email b
    /\ Some (t_firstName token) = r_firstName b
    /\ Some (t_lastName token) = r_lastName b
    /\ t_profilePicture token = ""%string.
Proof.
  intros Hacc Hhash Ff Hreg Hr.
  destruct (register_ok _ _ _ _ _ Hreg Hr)
    as (email & password & fn & ln & dob & He & Hpw & Hfn & Hln & _ & Hnone & _ & ->).
  apply truthy_Some in He, Hfn, Hln.
  exists (sign (User.mk (nextId s) email (bcrypt_hash env1 password) fn ln dob ""
                        (Some ""%string) [])).
  split; [|simpl; repeat split; symmetry; assumption].
  destruct s as [d nid]. simpl in *.
  unfold login. cbn [l_email l_password]. rewrite He. cbn [emailValue findOneWhereEmail].
  unfold_async. simpl. rewrite Ff. simpl.
  unfold withUsers, insert at 1. simpl.
  pose proof (findOneByEmail_snoc email (users d)
                (User.mk nid email (bcrypt_hash env1 password) fn ln dob ""
                         (Some ""%string) [])
                Hnone eq_refl) as Hfound.
  simpl in Hfound. unfold insert. rewrite Hfound, Hpw. simpl.
  rewrite <- Hhash, Hacc. reflexivity.
Qed.

Lemma register_then_login_witness :
  exists token : Token,
    login (mkLoginBody (emailValue (Some "dave@example.org"%string))
             (Some "pw4"%string)) quietEnv
      (snd (register (mkRegisterBody (Some "dave@example.org"%string) (Some "pw4"%string)
                        (Some "Dave"%string) (Some "Dunn"%string) (Some 5))
              quietEnv store0))
    = (Resolved (json 200 (TokenOnly token)),
       snd (register (mkRegisterBody (Some "dave@example.org"%string) (Some "pw4"%string)
                        (Some "Dave"%string) (Some "Dunn"%string) (Some 5))
              quietEnv store0))
    /\ t_id token = nextId store0
    /\ Some (t_email token) = Some "dave@example.org"%string
    /\ Some (t_firstName token) = Some "Dave"%string
    /\ Some (t_lastName token) = Some "Dunn"%string
    /\ t_profilePicture token = ""%string.
Proof.
  apply (register_then_login quietEnv quietEnv store0
           (snd (register (mkRegisterBody (Some "dave@example.org"%string)
                             (Some "pw4"%string) (Some "Dave"%string)
                             (Some "Dunn"%string) (Some 5))
                   quietEnv store0))
           (mkRegisterBody (Some "dave@example.org"%string) (Some "pw4"%string)
              (Some "Dave"%string) (Some "Dunn"%string) (Some 5))
           (json 201 (Msg "User created"))).
  - intros p. apply String.eqb_refl.
  - reflexivity.
  - reflexivity.
  - reflexivity.
  - reflexivity.
Defined.

Lemma register_outcomes_witness :
  exists user : User.t,
    users (db (snd (register daveBody quietEnv store0))) = users (db store0) ++ [user]
    /\ r_email daveBody = Some (User.email user)
    /\ (forall password, r_password daveBody = Some password ->
          User.password user = bcrypt_hash quietEnv password)
    /\ User.profilePicture user = ""%string
    /\ User.about user = Some ""%string
    /\ User.subscribers user = []
    /\ (forall u, In u (users (db store0)) -> User.email u <> User.email user)
    /\ posts (db (snd (register daveBody quietEnv store0))) = posts (db store0)
    /\ comments (db (snd (register daveBody quietEnv store0))) = comments (db store0)
    /\ notifications (db (snd (register daveBody quietEnv store0)))
       = notifications (db store0).
Proof.
  exact (proj2 (register_outcomes quietEnv store0 daveBody)
           (json 201 (Msg "User created"))
           (snd (register daveBody quietEnv store0)) eq_refl eq_refl).
Defined.

(* ================================================================== *)
(** * POST /refresh-token                                              *)
(* ================================================================== *)

(** X5.  The refresh route signs the identity its body names, for any caller
    the middleware lets through: the token need not be the caller's. *)
Theorem refreshToken_signs_body
  (c : Credential) (env : Env) (s : Store) (caller : User.t) (claims : Token) :
  authenticates c env s = Some caller ->
  refreshToken c (Some claims) env s = (json 200 (TokenOnly claims), s)
  /\ refreshToken c None env s = (json 500 (Msg "Error refreshing token"), s).
Proof.
  intros Hauth. unfold refreshToken.
  rewrite !(authMiddleware_attaches _ _ _ _ _ Hauth). split; reflexivity.
Qed.

Lemma refreshToken_signs_body_witness :
  refreshToken (Verified 2) (Some (sign alice)) quietEnv store0
  = (json 200 (TokenOnly (sign alice)), store0)
  /\ refreshToken (Verified 2) None quietEnv store0
     = (json 500 (Msg "Error refreshing token"), store0).
Proof.
  apply (refreshToken_signs_body (Verified 2) quietEnv store0 bob (sign alice)).
  reflexivity.
Defined.

(* ================================================================== *)
(** * POST /improve-content                                            *)
(* ================================================================== *)

Section ReplaceFirstFacts.

Lemma findFirst_Some (pat s before after : JS.text) :
  findFirst pat s = Some (before, after) ->
  s = before ++ pat ++ after
  /\ forall k, k < List.length before -> JS.stripPrefix pat (skipn k s) = None.
Proof.
  revert before after. induction s as [|c s IH]; intros before after; simpl.
  - destruct (JS.stripPrefix pat []) as [r|] eqn:Hp; [|discriminate].
    intros E; inversion E; subst. apply stripPrefix_Some in Hp.
    split; [exact Hp|]. simpl. intros k Hk. lia.
  - destruct (JS.stripPrefix pat (c :: s)) as [r|] eqn:Hp.
    + intros E; inversion E; subst. apply stripPrefix_Some in Hp.
      split; [exact Hp|]. simpl. intros k Hk. lia.
    + destruct (findFirst pat s) as [[b a]|] eqn:Hf; [|discriminate].
      intros E; inversion E; subst.
      destruct (IH _ _ eq_refl) as [Hs Hearly].
      split; [simpl; now rewrite <- Hs|].
      intros [|k] Hk; simpl in *; [exact Hp|]. apply Hearly. lia.
Qed.

Lemma findFirst_None (pat s : JS.text) :
  findFirst pat s = None -> forall before after, s <> before ++ pat ++ after.
Proof.
  induction s as [|c s IH]; simpl; intros Hnone before after Hs.
  - destruct (JS.stripPrefix pat []) eqn:Hp; [discriminate|].
    destruct before; [|discriminate]. simpl in Hs.
    rewrite Hs, stripPrefix_app in Hp. discriminate.
  - destruct (JS.stripPrefix pat (c :: s)) eqn:Hp; [discriminate|].
    destruct (findFirst pat s) as [[b a]|] eqn:Hf; [discriminate|].
    destruct before as [|x before]; simpl in Hs.
    + rewrite Hs, stripPrefix_app in Hp. discriminate.
    + inversion Hs; subst. now apply (IH eq_refl before after).
Qed.

(** The split at the first occurrence is the one [findFirst] returns. *)
Lemma findFirst_first (pat before after : JS.text) :
  (forall k, k < List.length before ->
             JS.stripPrefix pat (skipn k (before ++ pat ++ after)) = None) ->
  findFirst pat (before ++ pat ++ after) = Some (before, after).
Proof.
  induction before as [|c before IH]; intros Hearly.
  - simpl. pose proof (stripPrefix_app pat after) as Hp.
    destruct (pat ++ after); simpl; now rewrite Hp.
  - simpl. pose proof (Hearly 0 (Nat.lt_0_succ _)) as H0.
    change (JS.stripPrefix pat (c :: before ++ pat ++ after) = None) in H0.
    rewrite H0, IH; [reflexivity|].
    intros k Hk. apply (Hearly (S k)). simpl. lia.
Qed.

Lemma replaceFirst_absent (pat replacement s : JS.text) :
  (forall before after, s <> before ++ pat ++ after) ->
  replaceFirst pat replacement s = s.
Proof.
  intros Habsent. unfold replaceFirst.
  destruct (findFirst pat s) as [[b a]|] eqn:Hf; [|reflexivity].
  apply findFirst_Some in Hf. destruct Hf as [Hs _].
  exfalso. now apply (Habsent b a).
Qed.

Lemma substitution_plain (matched before after replacement : JS.text) :
  Forall (fun c => c <> 36%N) replacement ->
  substitution matched before after replacement = replacement.
Proof.
  induction replacement as [|c r IH]; intros Hplain; [reflexivity|].
  inversion Hplain as [|? ? Hc Hr]; subst. simpl.
  apply N.eqb_neq in Hc. rewrite Hc. now rewrite IH.
Qed.

End ReplaceFirstFacts.

(** X22.  [String.prototype.replace] with a string pattern, as the route uses
    it: a fragment that does not occur leaves the text alone; otherwise
    only the first occurrence is replaced, by the suggestion itself when
    the suggestion has no dollar sign. *)
Theorem replaceFirst_replaces_first_occurrence (pat replacement : JS.text) :
  (forall s, (forall before after, s <> before ++ pat ++ after) ->
             replaceFirst pat replacement s = s)
  /\ (forall before after,
        Forall (fun c => c <> 36%N) replacement ->
        (forall k, k < List.length before ->
                   JS.stripPrefix pat (skipn k (before ++ pat ++ after)) = None) ->
        replaceFirst pat replacement (before ++ pat ++ after)
        = before ++ replacement ++ after).
Proof.
  split.
  - intros s. apply replaceFirst_absent.
  - intros before after Hplain Hearly. unfold replaceFirst.
    rewrite (findFirst_first _ _ _ Hearly).
    now rewrite substitution_plain.
Qed.

(** In a suggestion [$&] stands for the fragment it replaces and [$$] for
    one dollar sign: a suggested "$&s" appends an s to the fragment. *)
Example replaceFirst_dollar_patterns :
  replaceFirst (JS.ofString "cat") (JS.ofString "$&s cost $$5")
    (JS.ofString "a cat, a cat")
  = JS.ofString "a cats cost $5, a cat".
Proof. vm_compute. reflexivity. Qed.



Lemma replaceFirst_replaces_first_occurrence_witness :
  replaceFirst (JS.ofString "cat") (JS.ofString "dog")
    (JS.ofString "a " ++ JS.ofString "cat" ++ JS.ofString ", a cat")
  = JS.ofString "a " ++ JS.ofString "dog" ++ JS.ofString ", a cat".
Proof.
  apply (proj2 (replaceFirst_replaces_first_occurrence
                  (JS.ofString "cat") (JS.ofString "dog"))
           (JS.ofString "a ") (JS.ofString ", a cat")).
  - repeat constructor; discriminate.
  - intros k Hk. simpl in Hk.
    destruct k as [|[|k]]; [reflexivity|reflexivity|lia].
Defined.

(** X23.  The answer of POST /improve-content counts every correction the
    service returned, applied or not; when none applies (no fragment, no
    suggestion, or a fragment that is not in the text) the improved
    content is the original text. *)
Theorem improveContent_inapplicable_corrections
  (c : Credential) (env : Env) (s : Store) (caller : User.t)
  (textgears : JS.text -> GrammarAnswer) (text : JS.text)
  (corrections : list Correction) :
  authenticates c env s = Some caller ->
  text <> [] ->
  textgears text = GrammarErrors corrections ->
  Forall (inapplicable text) corrections ->
  improveContent c textgears (Some text) env s
  = (json 200 (Improved text (List.length corrections) text), s).
Proof.
  intros Hauth Hne Hanswer Hall. unfold improveContent.
  rewrite (authMiddleware_attaches _ _ _ _ _ Hauth).
  destruct text as [|x text]; [contradiction|].
  unfold tryCatch. rewrite Hanswer. unfold ret. simpl.
  assert (Hfold : fold_left applyCorrection corrections (x :: text) = x :: text).
  { clear Hanswer. induction Hall as [|corr l Hc _ IH]; [reflexivity|]. simpl.
    assert (Hsame : applyCorrection (x :: text) corr = x :: text).
    { unfold applyCorrection, inapplicable in *.
      destruct (bad corr) as [[|b bs]|]; [reflexivity| |reflexivity].
      destruct (better corr) as [[|first rest]|]; [reflexivity| |reflexivity].
      now apply replaceFirst_absent. }
    rewrite Hsame. exact IH. }
  now rewrite Hfold.
Qed.

Lemma improveContent_inapplicable_corrections_witness :
  improveContent (Verified 2) noCorrections (Some (JS.ofString "good news"))
    quietEnv store0
  = (json 200 (Improved (JS.ofString "good news") 3 (JS.ofString "good news")), store0).
Proof.
  apply (improveContent_inapplicable_corrections (Verified 2) quietEnv store0 bob
           noCorrections (JS.ofString "good news")
           [ mkCorrection (Some (JS.ofString "teh")) (Some [JS.ofString "the"]);
             mkCorrection None (Some [JS.ofString "x"]);
             mkCorrection (Some (JS.ofString "news")) (Some []) ]).
  - reflexivity.
  - discriminate.
  - reflexivity.
  - repeat constructor; simpl; auto.
    intros before after Hs.
    assert (Hnone : findFirst (JS.ofString "teh") (JS.ofString "good news") = None)
      by reflexivity.
    exact (findFirst_None _ _ Hnone before after Hs).
Defined.

(* ================================================================== *)
(** * The pre-remove hook of the user schema                           *)
(* ================================================================== *)

(** X11.  The hook is the cascade of DELETE /delete-account short of its last
    step: when no store call rejects the hook resolves, and the route
    leaves the store the hook leaves, with the user record deleted. *)
Theorem preRemove_is_the_route_cascade
  (env : Env) (s : Store) (U : ObjectId) (a : User.t) :
  findById U (users (db s)) = Some a ->
  (forall site, faults env site = false) ->
  fst (preRemove a env s) = Resolved tt
  /\ nextId (snd (preRemove a env s)) = nextId s
  /\ fst (deleteAccount (Verified U) env s)
     = json 200 (Msg "Account deleted successfully")
  /\ db (snd (deleteAccount (Verified U) env s))
     = withUsers (deleteOne U) (db (snd (preRemove a env s))).
Proof.
  intros Ha Hq.
  assert (Hhook : preRemove a env s
                  = (Resolved tt,
                     mkStore
                       (mkDb
                          (updateMany (Eq ["subscribers"%string] (SId (User._id a)))
                             (User.pull_subscribers (User._id a)) (users (db s)))
                          (deleteMany (Eq ["author"%string] (SId (User._id a)))
                             (posts (db s)))
                          (deleteMany (Eq ["author"%string] (SId (User._id a)))
                             (fold_left
                                (fun c post =>
                                   deleteMany (Eq ["post"%string] (SId (Post._id post))) c)
                                (find (Eq ["author"%string] (SId (User._id a)))
                                   (posts (db s)))
                                (comments (db s))))
                          (deleteMany (Or (Eq ["sender"; "_id"]%string (SId (User._id a)))
                                          (Eq ["recipient"%string] (SId (User._id a))))
                             (notifications (db s))))
                       (nextId s))).
  { destruct s as [d nid]. unfold preRemove.
    unfold bind at 1. unfold query, await. simpl. rewrite Hq.
    unfold bind at 1. rewrite forEach_exec_runSteps.
    rewrite runSteps_all_ok by (intros st _; apply Hq).
    rewrite (applyAll_comment_loop _
               (fun post => Hook_Comment_deleteMany_post (Post._id post))
               (fun post => deleteMany (Eq ["post"%string] (SId (Post._id post))))).
    unfold_async. simpl. rewrite !Hq. simpl.
    now destruct d. }
  pose proof (findById_Some _ _ _ Ha) as [_ Hid]. simpl in Hid.
  rewrite (deleteAccount_runSteps _ _ _ _ Ha (Hq _)).
  rewrite runSteps_all_ok by (intros st _; apply Hq).
  rewrite applyAll_cascade, Hhook, Hid.
  repeat split.
Qed.

Lemma preRemove_is_the_route_cascade_witness :
  fst (preRemove alice quietEnv store1) = Resolved tt
  /\ nextId (snd (preRemove alice quietEnv store1)) = nextId store1
  /\ fst (deleteAccount (Verified 1) quietEnv store1)
     = json 200 (Msg "Account deleted successfully")
  /\ db (snd (deleteAccount (Verified 1) quietEnv store1))
     = withUsers (deleteOne 1) (db (snd (preRemove alice quietEnv store1))).
Proof.
  apply (preRemove_is_the_route_cascade quietEnv store1 1 alice);
    [reflexivity|intros site; reflexivity].
Defined.

(* ================================================================== *)
(** * An invariant of every request                                    *)
(* ================================================================== *)

Ltac users_kept :=
  apply routeKeepsUsers_authMiddleware; intros ?requser;
  apply routeKeepsUsers_tryCatch; cbv zeta;
  repeat first
    [ apply keepsUsers_ret
    | apply keepsUsers_throw
    | apply keepsUsers_ask
    | apply keepsUsers_newObjectId
    | apply keepsUsers_query
    | apply keepsUsers_required
    | apply keepsUsers_notNull
    | apply keepsUsers_saveNewNotification
    | apply keepsUsers_exec; reflexivity
    | apply keepsUsers_bind
    | match goal with
      | |- forall _, _ => intro
      | |- keepsUsers (saveNewComment _ _) => unfold saveNewComment
      | |- keepsUsers (match ?x with _ => _ end) => destruct x
      | |- keepsUsers (if ?x then _ else _) => destruct x
      | |- keepsUsers (let (_, _) := ?x in _) => destruct x
      end ].

Lemma serveMore_users (c : Credential) (q : MoreRequest) :
  routeKeepsUsers (serveMore c q).
Proof.
  destruct q; simpl.
  - unfold getProfile. users_kept.
  - unfold refreshToken. users_kept.
  - unfold getSubscriptionStatus. users_kept.
  - unfold markNotificationsRead. users_kept.
  - unfold getPost. users_kept.
  - unfold deletePost. users_kept.
  - unfold getLikes. users_kept.
  - unfold getComments. users_kept.
  - unfold addComment. users_kept.
  - unfold deleteComment. users_kept.
  - unfold improveContent. users_kept.
Qed.

Lemma login_users (b : LoginBody) : keepsUsers (login b).
Proof.
  unfold login.
  repeat first
    [ apply keepsUsers_ret | apply keepsUsers_throw | apply keepsUsers_ask
    | apply keepsUsers_query | apply keepsUsers_bind
    | match goal with
      | |- forall _, _ => intro
      | |- keepsUsers (match ?x with _ => _ end) => destruct x
      | |- keepsUsers (if ?x then _ else _) => destruct x
      end ].
Qed.

Lemma register_users (b : RegisterBody) (env : Env) (s : Store) :
  users (db (snd (register b env s))) = users (db s)
  \/ exists u, users (db (snd (register b env s))) = users (db s) ++ [u]
               /\ User.subscribers u = [].
Proof.
  destruct s as [d nid].
  unfold register, saveNewUser. unfold_async. simpl.
  destruct (faults env Register_User_findOne); simpl; [now left|].
  destruct (findOneByEmail (r_email b) (users d)) as [u|]; simpl; [now left|].
  destruct (r_password b) as [password|]; simpl; [|now left].
  destruct (truthy (r_email b)) as [email|]; simpl; [|now left].
  destruct (truthy (r_firstName b)) as [firstName|]; simpl; [|now left].
  destruct (truthy (r_lastName b)) as [lastName|]; simpl; [|now left].
  destruct (r_dateOfBirth b) as [dateOfBirth|]; simpl; [|now left].
  destruct (User.valid _); simpl; [|now left].
  destruct (faults env Register_User_save); simpl; [now left|].
  right. eexists. split; [reflexivity|reflexivity].
Qed.

Lemma effect_subscribersNoDup (q : AnyRequest) (env : Env) (s : Store) :
  subscribersNoDup (db s) -> subscribersNoDup (db (effect q env s)).
Proof.
  intros Hok. destruct q as [c q|c q|b|b]; simpl.
  - now apply serve_subscribersNoDup.
  - eapply subscribersNoDup_same_users; [apply serveMore_users|exact Hok].
  - destruct (register_users b env s) as [Hsame|[u [Happ Hsub]]].
    + eapply subscribersNoDup_same_users; [exact Hsame|exact Hok].
    + intros v Hv. rewrite Happ in Hv. apply in_app_or in Hv.
      destruct Hv as [Hv|[<-|[]]]; [now apply Hok|].
      rewrite Hsub. constructor.
  - eapply subscribersNoDup_same_users; [apply login_users|exact Hok].
Qed.

(** X12.  Whatever requests are served, in whatever order, with whatever
    credentials, URLs, bodies and rejecting store calls, no user ever
    appears twice in a subscriber list: every route keeps the lists
    duplicate free, registration and the subscription toggle with any
    spelling of the target included. *)
Theorem no_request_breaks_subscriber_lists
  (l : list (Env * AnyRequest)) (s : Store) :
  subscribersNoDup (db s) -> subscribersNoDup (db (effects l s)).
Proof.
  revert s. induction l as [|[env q] l IH]; intros s Hok; simpl; [exact Hok|].
  apply IH. now apply effect_subscribersNoDup.
Qed.

Lemma no_request_breaks_subscriber_lists_witness :
  subscribersNoDup
    (db (effects
           [ (quietEnv, PostRegister daveBody);
             (quietEnv, Authorized (Verified 2)
                          (PutSubscribe "000000000000000000000001"));
             (quietEnv, Authorized (Verified 171)
                          (PutSubscribe "0000000000000000000000AB"));
             (quietEnv, Authorized (Verified 171)
                          (PutSubscribe "0000000000000000000000aB"));
             (quietEnv, AuthorizedMore (Verified 3) (DeletePost 11));
             (quietEnv, Authorized (Verified 1) DeleteAccount) ]
           hexStore)).
Proof.
  apply (no_request_breaks_subscriber_lists
           [ (quietEnv, PostRegister daveBody);
             (quietEnv, Authorized (Verified 2)
                          (PutSubscribe "000000000000000000000001"));
             (quietEnv, Authorized (Verified 171)
                          (PutSubscribe "0000000000000000000000AB"));
             (quietEnv, Authorized (Verified 171)
                          (PutSubscribe "0000000000000000000000aB"));
             (quietEnv, AuthorizedMore (Verified 3) (DeletePost 11));
             (quietEnv, Authorized (Verified 1) DeleteAccount) ]
           hexStore).
  intros u [<-|[<-|[<-|[<-|[]]]]]; simpl;
    repeat constructor; simpl; intuition discriminate.
Defined.

(* ================================================================== *)
(** * The content setter on plain and on marked text                   *)
(* ================================================================== *)

Section MarkerFacts.

Variables (x : N) (d' op cl : JS.text).

Lemma no_Span_at (c : N) (s g rest : JS.text) :
  c <> x -> ~ Span (x :: d') (c :: s) g rest.
Proof.
  intros Hc Hspan. inversion Hspan. congruence.
Qed.

Lemma Rewrites_free_prefix (pre s out : JS.text) :
  Forall (fun c => c <> x) pre ->
  Rewrites (x :: d') op cl s out ->
  Rewrites (x :: d') op cl (pre ++ s) (pre ++ out).
Proof.
  intros Hpre Hs. induction Hpre as [|c pre Hc _ IH]; [exact Hs|].
  simpl. apply rewrites_skip; [|exact IH].
  intros g rest. now apply no_Span_at.
Qed.

Lemma replaceWrapped_free_prefix (pre s : JS.text) :
  Forall (fun c => c <> x) pre ->
  JS.replaceWrapped (x :: d') op cl (pre ++ s)
  = pre ++ JS.replaceWrapped (x :: d') op cl s.
Proof.
  intros Hpre. symmetry. apply Rewrites_replaceWrapped; [discriminate|].
  apply Rewrites_free_prefix; [exact Hpre|].
  apply replaceWrapped_Rewrites. discriminate.
Qed.

Lemma replaceWrapped_free (s : JS.text) :
  Forall (fun c => c <> x) s ->
  JS.replaceWrapped (x :: d') op cl s = s.
Proof.
  intros Hs. rewrite <- (app_nil_r s) at 1.
  rewrite (replaceWrapped_free_prefix _ _ Hs). apply app_nil_r.
Qed.

Lemma Span_free_group (g rest : JS.text) :
  Forall (fun c => c <> x) g ->
  Forall (fun c => JS.isLineTerminator c = false) g ->
  Span (x :: d') ((x :: d') ++ g ++ (x :: d') ++ rest) g rest.
Proof.
  intros Hfree Hline. constructor; [exact Hline|].
  clear Hline. induction Hfree as [|c g Hc _ IH]; intros k Hk; simpl in Hk; [lia|].
  destruct k as [|k].
  - simpl. destruct (N.eqb x c) eqn:E; [|reflexivity].
    apply N.eqb_eq in E. congruence.
  - simpl. apply IH. lia.
Qed.

Lemma replaceWrapped_free_group (g rest : JS.text) :
  Forall (fun c => c <> x) g ->
  Forall (fun c => JS.isLineTerminator c = false) g ->
  JS.replaceWrapped (x :: d') op cl ((x :: d') ++ g ++ (x :: d') ++ rest)
  = op ++ g ++ cl ++ JS.replaceWrapped (x :: d') op cl rest.
Proof.
  intros Hfree Hline. symmetry. apply Rewrites_replaceWrapped; [discriminate|].
  apply rewrites_span with (rest := rest).
  - discriminate.
  - now apply Span_free_group.
  - apply replaceWrapped_Rewrites. discriminate.
Qed.

End MarkerFacts.

Lemma isMarker_false (c : N) :
  isMarker c = false -> c <> 42%N /\ c <> 95%N.
Proof.
  unfold isMarker. intros H. apply orb_false_iff in H. destruct H as [H1 H2].
  apply N.eqb_neq in H1, H2. auto.
Qed.

Lemma Forall_not_star (s : JS.text) :
  Forall (fun c => isMarker c = false) s -> Forall (fun c => c <> 42%N) s.
Proof. apply Forall_impl. intros c H. now apply isMarker_false in H. Qed.

Lemma Forall_not_underscore (s : JS.text) :
  Forall (fun c => isMarker c = false) s -> Forall (fun c => c <> 95%N) s.
Proof. apply Forall_impl. intros c H. now apply isMarker_false in H. Qed.

(** X24.  Content without [*] and [_] is stored as it was sent. *)
Theorem formatContent_plain (content : JS.text) :
  Forall (fun c => isMarker c = false) content ->
  formatContent content = content.
Proof.
  intros Hplain. unfold formatContent.
  change (JS.ofString "**") with (42%N :: JS.ofString "*").
  change (JS.ofString "*") with (42%N :: @nil N).
  change (JS.ofString "__") with (95%N :: JS.ofString "_").
  rewrite (replaceWrapped_free 42%N _ _ _ _ (Forall_not_star _ Hplain)).
  rewrite (replaceWrapped_free 42%N _ _ _ _ (Forall_not_star _ Hplain)).
  now rewrite (replaceWrapped_free 95%N _ _ _ _ (Forall_not_underscore _ Hplain)).
Qed.

Lemma formatContent_plain_witness :
  formatContent (JS.ofString "plain <b>text</b>, two lines")
  = JS.ofString "plain <b>text</b>, two lines".
Proof.
  apply (formatContent_plain (JS.ofString "plain <b>text</b>, two lines")).
  repeat constructor.
Defined.

(** X25.  A run of plain text on one line between [**] and [**] becomes a
    [<strong>] element, one between [__] and [__] a [<u>] element, and the
    setter goes on with what follows the run as if it were the whole
    content. *)
Theorem formatContent_marked_run (g rest : JS.text) :
  Forall (fun c => isMarker c = false) g ->
  Forall (fun c => JS.isLineTerminator c = false) g ->
  formatContent (JS.ofString "**" ++ g ++ JS.ofString "**" ++ rest)
  = JS.ofString "<strong>" ++ g ++ JS.ofString "</strong>" ++ formatContent rest
  /\ formatContent (JS.ofString "__" ++ g ++ JS.ofString "__" ++ rest)
     = JS.ofString "<u>" ++ g ++ JS.ofString "</u>" ++ formatContent rest.
Proof.
  intros Hplain Hline.
  pose proof (Forall_not_star _ Hplain) as Hstar.
  pose proof (Forall_not_underscore _ Hplain) as Hunder.
  unfold formatContent.
  change (JS.ofString "**") with (42%N :: JS.ofString "*").
  change (JS.ofString "*") with (42%N :: @nil N).
  change (JS.ofString "__") with (95%N :: JS.ofString "_").
  split.
  - rewrite (replaceWrapped_free_group 42%N _ _ _ _ _ Hstar Hline).
    rewrite !app_assoc.
    rewrite (replaceWrapped_free_prefix 42%N).
    2:{ repeat (apply Forall_app; split); [|exact Hstar|];
          repeat constructor; discriminate. }
    rewrite (replaceWrapped_free_prefix 95%N).
    2:{ repeat (apply Forall_app; split); [|exact Hunder|];
          repeat constructor; discriminate. }
    reflexivity.
  - assert (Hpre : forall m : N, m <> 95%N -> Forall (fun c => c <> m) g ->
                Forall (fun c => c <> m) ((95%N :: JS.ofString "_") ++ g ++ (95%N :: JS.ofString "_"))).
    { intros m Hm Hg.
      apply Forall_app; split; [|apply Forall_app; split; [exact Hg|]];
        (constructor; [intros E; apply Hm; now rewrite <- E|]);
        (constructor; [intros E; apply Hm; now rewrite <- E|]); constructor. }
    replace ((95%N :: JS.ofString "_") ++ g ++ (95%N :: JS.ofString "_") ++ rest)
      with (((95%N :: JS.ofString "_") ++ g ++ (95%N :: JS.ofString "_")) ++ rest)
      by now rewrite <- !app_assoc.
    rewrite (replaceWrapped_free_prefix 42%N _ _ _ _ _ (Hpre 42%N ltac:(discriminate) Hstar)).
    rewrite (replaceWrapped_free_prefix 42%N _ _ _ _ _ (Hpre 42%N ltac:(discriminate) Hstar)).
    rewrite <- !app_assoc.
    now rewrite (replaceWrapped_free_group 95%N _ _ _ _ _ Hunder Hline).
Qed.

Lemma formatContent_marked_run_witness :
  formatContent (JS.ofString "**" ++ JS.ofString "bold" ++ JS.ofString "**"
                   ++ JS.ofString " and __under__")
  = JS.ofString "<strong>" ++ JS.ofString "bold" ++ JS.ofString "</strong>"
      ++ formatContent (JS.ofString " and __under__").
Proof.
  apply (proj1 (formatContent_marked_run (JS.ofString "bold")
                  (JS.ofString " and __under__")
                  ltac:(repeat constructor) ltac:(repeat constructor))).
Defined.
